(** * Boardprep: goal rollover, completion toggling and progress aggregation

    A shallow embedding of the business logic of the study dashboard:
    [services/api.ts] (goal visibility filter, completion toggle, session
    queries), [components/Dashboard.tsx] (per-goal progress, goal ordering,
    average confidence) and [components/Analytics.tsx] (trend series, streak,
    average confidence).  The second part of the file covers the rest of the
    program: the other store operations and the demo data of [services/api.ts],
    [components/Planner.tsx], the summary of the dashboard, the statistics,
    heatmap, best day and daily log of the analytics page,
    [components/SessionTracker.tsx] and the header of [App.tsx].

    Conventions of the embedding.
    - A JavaScript [number] is the rational it stands for ([Q]), and equality
      of numbers is [Qeq].  Sums, differences and products are taken exactly,
      and a quotient or a decimal stands for the double nearest to it.
      Where the code prints a quotient as a decimal or as hours and minutes
      ([toFixed], [formatDurationHelper]), the outcome depends on the double
      in which the quotient is held, and there the double is formed first
      ([JS.double]).  Infinities and NaN are outside the model.
    - A calendar date is the string the code stores, ["YYYY-MM-DD"]; strings
      are compared the way JavaScript compares them, code unit by code unit.
    - The clock ([new Date()]) and the time zone of the browser are parameters
      of every function that reads them.
    - The persistent store of a user (a Firestore collection or a localStorage
      array) is the list of its records.
    - A function that loops without a bound in the source takes fuel; an
      [option] result is [None] when the fuel runs out or when the run leaves
      what the embedding covers (each definition says which). *)

From Stdlib Require Import QArith Qround Qabs Qminmax Qpower Lqa DecimalString Ascii.
From stdpp Require Import gmap strings list sorting.

Open Scope Z_scope.

(** ** JavaScript primitives *)
Module JS.

(** [a === b] on strings. *)
Definition strEq (a b : string) : bool := String.eqb a b.

(** [a < b] on strings: lexicographic on code units. *)
Definition strLt (a b : string) : bool := String.ltb a b.

(** Truthiness of a string: only the empty string is falsy. *)
Definition truthy (s : string) : bool := negb (String.eqb s "").

(** A property that may be missing ([undefined]), [null], or a value. *)
Inductive Nullable (A : Type) : Type :=
| Undefined : Nullable A
| Null : Nullable A
| Val : A → Nullable A.
Global Arguments Undefined {A}.
Global Arguments Null {A}.
Global Arguments Val {A} _.

(** [x == null]: so are [null] and [undefined], and nothing else. *)
Definition isNullish {A} (x : Nullable A) : bool :=
  match x with
  | Val _ => false
  | _ => true
  end.

(** [x === s] for a nullable [x] and a string [s]. *)
Definition nullableIs (x : Nullable string) (s : string) : bool :=
  match x with
  | Val v => strEq v s
  | _ => false
  end.

(** [Array.prototype.sort(cmp)]: the sort is stable, an element goes
    before another when the comparator is negative, and a zero keeps the
    original order.  Insertion from the right end realises exactly that. *)
Fixpoint sortInsert {A} (cmp : A → A → Z) (x : A) (l : list A) : list A :=
  match l with
  | [] => [x]
  | y :: l' => if cmp x y <=? 0 then x :: y :: l' else y :: sortInsert cmp x l'
  end.

Definition sort {A} (cmp : A → A → Z) (l : list A) : list A :=
  foldr (sortInsert cmp) [] l.

(** The default comparator of [sort()]: strings by code units. *)
Definition defaultCompare (a b : string) : Z :=
  match String.compare a b with
  | Lt => -1
  | Eq => 0
  | Gt => 1
  end.

(** [Math.round]: the nearest integer, halves towards plus infinity. *)
Definition mathRound (x : Q) : Z := Qfloor (x + (1 # 2)).

(** [2 ** e]. *)
Definition pow2 (e : Z) : Q := Qpower 2%Q e.

(** The whole part of the binary logarithm of a positive number. *)
Definition floorLog2 (x : Q) : Z :=
  let k := Z.log2 (Qnum x) - Z.log2 (Zpos (Qden x)) in
  if Qle_bool (pow2 k) x then k else k - 1.

(** The nearest integer, a half going to the even neighbour. *)
Definition roundHalfEven (x : Q) : Z :=
  let n := Qfloor x in
  match Qcompare (x - inject_Z n) (1 # 2) with
  | Lt => n
  | Gt => n + 1
  | Eq => if Z.even n then n else n + 1
  end.

(** The double in which the result of an operation is held: the nearest
    number of 53 significant bits, below [2 ** -1022] the nearest multiple of
    [2 ** -1074], a tie going to the even significand.  From [2 ** 1024] on a
    double is infinite, which is outside the model. *)
Definition double (x : Q) : Q :=
  if Qeq_bool x 0 then 0%Q
  else let e := Z.max (floorLog2 (Qabs x) - 52) (-1074) in
       (inject_Z (roundHalfEven (x / pow2 e)) * pow2 e)%Q.

(** [d.toFixed(1)] read as a number, for a double [d >= 0]: the multiple of
    one tenth nearest to [d], the larger one when two are as near. *)
Definition roundTenths (d : Q) : Q := Qfloor (d * 10 + (1 # 2)) # 10.

(** [parseFloat((a / b).toFixed(1))], [x] being the quotient of [a] by [b].
    The division leaves the double nearest to [x]; [toFixed] rounds the
    magnitude of that double and keeps the sign.  The result is the decimal
    printed; [parseFloat] returns the double nearest to that decimal, which
    is shown as that decimal again. *)
Definition toFixed1 (x : Q) : Q :=
  let d := double x in
  if Qle_bool 0 d then roundTenths d else (- roundTenths (- d))%Q.

(** [`${n}`] for an integer [n]. *)
Definition showInt (n : Z) : string := NilZero.string_of_int (Z.to_int n).

(** [arr.reduce((a, b) => a + b, 0)]. *)
Definition sum (l : list Q) : Q := foldl Qplus 0%Q l.

(** The property names every object literal inherits from
    [Object.prototype]; [obj[k]] is defined for them even when [obj] has no
    such key of its own. *)
Definition objectPrototypeKeys : list string :=
  ["constructor"; "hasOwnProperty"; "isPrototypeOf"; "propertyIsEnumerable";
   "toLocaleString"; "toString"; "valueOf"; "__proto__";
   "__defineGetter__"; "__defineSetter__"; "__lookupGetter__"; "__lookupSetter__"].

Definition inherited (k : string) : bool := bool_decide (k ∈ objectPrototypeKeys).

End JS.

(** ** The calendar behind [Date]

    Civil dates of the proleptic Gregorian calendar, their printed form and
    the steps from one day to the next.  Years outside 0000..9999, which
    [toISOString] prints in a longer form, are outside the model: printing
    them gives [None]. *)
Module JSDate.

Record civil : Set := mkCivil { year : Z; month : Z; day : Z }.

Definition isLeap (y : Z) : bool :=
  (y mod 4 =? 0) && (negb (y mod 100 =? 0) || (y mod 400 =? 0)).

Definition daysInMonth (y m : Z) : Z :=
  if m =? 2 then (if isLeap y then 29 else 28)
  else if (m =? 4) || (m =? 6) || (m =? 9) || (m =? 11) then 30
  else 31.

(** The day before: day zero of a month is the last day of the month
    before. *)
Definition prevDay (c : civil) : civil :=
  if 1 <? day c then mkCivil (year c) (month c) (day c - 1)
  else if 1 <? month c then
    mkCivil (year c) (month c - 1) (daysInMonth (year c) (month c - 1))
  else mkCivil (year c - 1) 12 31.

(** [i] days back. *)
Definition minusDays (i : nat) (c : civil) : civil := Nat.iter i prevDay c.

(** The day after. *)
Definition nextDay (c : civil) : civil :=
  if day c <? daysInMonth (year c) (month c)
  then mkCivil (year c) (month c) (day c + 1)
  else if month c <? 12 then mkCivil (year c) (month c + 1) 1
  else mkCivil (year c + 1) 1 1.

(** [k] days on, or [- k] days back. *)
Definition plusDays (k : Z) (c : civil) : civil :=
  if 0 <=? k then Nat.iter (Z.to_nat k) nextDay c else minusDays (Z.to_nat (- k)) c.

Definition digit (n : Z) : Ascii.ascii := Ascii.ascii_of_N (48 + Z.to_N n).

Definition digitVal (c : Ascii.ascii) : option Z :=
  let n := Z.of_N (Ascii.N_of_ascii c) in
  if (48 <=? n) && (n <=? 57) then Some (n - 48) else None.

Definition pad2 (n : Z) : string :=
  String (digit (n / 10)) (String (digit (n mod 10)) "").

Definition pad4 (n : Z) : string :=
  String (digit (n / 1000)) (String (digit (n / 100 mod 10)) (pad2 (n mod 100))).

(** [d.toISOString().split('T')[0]]. *)
Definition toISODate (c : civil) : option string :=
  if (0 <=? year c) && (year c <=? 9999) then
    Some (pad4 (year c) +:+ "-" +:+ pad2 (month c) +:+ "-" +:+ pad2 (day c))
  else None.

Definition validDate (c : civil) : bool :=
  (1 <=? month c) && (month c <=? 12) &&
  (1 <=? day c) && (day c <=? daysInMonth (year c) (month c)).

(** [new Date(s)] for a date-only string.  The code only parses strings it
    printed itself with [toISOString]; any other string is an invalid date
    here. *)
Definition parseISODate (s : string) : option civil :=
  match s with
  | String y1 (String y2 (String y3 (String y4 (String sep1
      (String m1 (String m2 (String sep2 (String d1 (String d2 ""))))))))) =>
      a ← digitVal y1; b ← digitVal y2; c ← digitVal y3; d ← digitVal y4;
      e ← digitVal m1; f ← digitVal m2; g ← digitVal d1; h ← digitVal d2;
      let r := mkCivil (1000 * a + 100 * b + 10 * c + d) (10 * e + f) (10 * g + h) in
      if Ascii.eqb sep1 "-"%char && Ascii.eqb sep2 "-"%char && validDate r
      then Some r else None
  | _ => None
  end.

End JSDate.

(** ** Time values and time zones

    A [Date] holds a time value, the milliseconds since 1970-01-01T00:00Z.
    It is kept here as the UTC calendar day it falls on and the milliseconds
    since the midnight of that day, which is what [toISOString] prints.  The
    local fields of a [Date] ([getDate], [getFullYear]) are those of the time
    value moved by the offset that the time zone of the browser has in force;
    the time zone is a parameter. *)

(** Days in the years 0 .. y-1 of the proleptic Gregorian calendar. *)
Definition daysBeforeYear (y : Z) : Z :=
  365 * y + (y + 3) / 4 - (y + 99) / 100 + (y + 399) / 400.

(** Days in the months before month [m] of year [y]. *)
Definition daysBeforeMonth (y m : Z) : Z :=
  if m <=? 1 then 0
  else if m =? 2 then 31
  else (if JSDate.isLeap y then 1 else 0) +
       (if m =? 3 then 59 else if m =? 4 then 90 else if m =? 5 then 120
        else if m =? 6 then 151 else if m =? 7 then 181 else if m =? 8 then 212
        else if m =? 9 then 243 else if m =? 10 then 273 else if m =? 11 then 304
        else 334).

(** The ordinal of a day, 0000-01-01 being day 1. *)
Definition dayNumber (c : JSDate.civil) : Z :=
  daysBeforeYear (JSDate.year c)
  + daysBeforeMonth (JSDate.year c) (JSDate.month c) + JSDate.day c.

Module Clock.

Record instant : Set := mkInstant { utcDay : JSDate.civil; msOfDay : Z }.

Definition msPerDay : Z := 1000 * 60 * 60 * 24.

(** The time value of the UTC midnight that begins a day, as
    [new Date("YYYY-MM-DD")] has it; 1970-01-01 is day 719529. *)
Definition midnight (c : JSDate.civil) : Z := (dayNumber c - 719529) * msPerDay.

(** [getTime()]. *)
Definition getTime (t : instant) : Z := midnight (utcDay t) + msOfDay t.

(** The [Date] whose time value is that of [t] plus [delta]. *)
Definition addMs (t : instant) (delta : Z) : instant :=
  let total := msOfDay t + delta in
  mkInstant (JSDate.plusDays (total / msPerDay) (utcDay t)) (total mod msPerDay).

(** A time zone: the milliseconds that local time is ahead of UTC at a time
    value, and the milliseconds by which a local time is ahead of the time
    value it is read as.  Where the clocks are changed a local time occurs
    twice or not at all; the language reads it with the offset in force
    before the change. *)
Record zone : Type := mkZone { offsetAt : Z → Z; offsetOfLocal : Z → Z }.

(** The local calendar day of a [Date], which [getFullYear], [getMonth]
    and [getDate] read. *)
Definition localDay (z : zone) (t : instant) : JSDate.civil :=
  utcDay (addMs t (offsetAt z (getTime t))).

(** [d.setDate(d.getDate() - i)]: local time, which is [offsetAt] ahead of
    the time value, is taken [i] days back with the time of day kept, and
    read as a time value again. *)
Definition setDateBack (z : zone) (t : instant) (i : nat) : instant :=
  let local := getTime t + offsetAt z (getTime t) - Z.of_nat i * msPerDay in
  addMs t (local - offsetOfLocal z local - getTime t).

(** [new Date(year, month - 1, day).getTime()]: the time value of the
    local midnight that begins a day. *)
Definition localMidnight (z : zone) (c : JSDate.civil) : Z :=
  midnight c - offsetOfLocal z (midnight c).

(** The day of the week of a calendar day, Sunday being 0. *)
Definition weekday (c : JSDate.civil) : Z := (dayNumber c + 5) mod 7.

End Clock.

(** ** types.ts *)
Module Types.

Inductive Subject : Set :=
| Maths | Science | SST | English | Hindi | IT | Other.

Inductive Priority : Set := High | Medium | Low.

Global Instance Subject_eq_dec : EqDecision Subject.
Proof. solve_decision. Defined.

Global Instance Priority_eq_dec : EqDecision Priority.
Proof. solve_decision. Defined.

Record DailyGoal : Type := mkGoal {
  id : option string;
  userId : string;
  date : string;   (* YYYY-MM-DD *)
  title : string;
  subject : Subject;
  targetHours : Q;
  completed : bool;
  priority : Priority;
  createdAt : Z;
  completedAt : JS.Nullable string   (* YYYY-MM-DD, the day it was marked complete *)
}.

Record StudySession : Type := mkSession {
  sid : option string;
  suserId : string;
  ssubject : Subject;
  topic : string;
  startTime : Z;
  endTime : Z;
  durationMinutes : Q;
  sdate : string   (* YYYY-MM-DD *)
}.

End Types.

Import Types.

(** ** services/api.ts *)
Module Api.

(** The two implementations of the persistence layer, chosen once by
    [isFirebaseConfigured]. *)
Inductive Backend : Set := Firebase | Mock.

(** [shouldIncludeGoal] inside [getGoals]; [today] is the [date] argument. *)
Definition shouldIncludeGoal (today : string) (g : DailyGoal) : bool :=
  let isToday := JS.strEq (date g) today in
  let isPastIncomplete := JS.strLt (date g) today && negb (completed g) in
  let isPastCompletedToday :=
    JS.strLt (date g) today && completed g && JS.nullableIs (completedAt g) today in
  isToday || isPastIncomplete || isPastCompletedToday.

(** [getGoals]: both backends read every goal of the user and keep those
    passing [shouldIncludeGoal]. *)
Definition getGoals (all : list DailyGoal) (today : string) : list DailyGoal :=
  filter (λ g, shouldIncludeGoal today g) all.

(** The [updates] object of [toggleGoal]. *)
Definition toggleUpdates (currentStatus : bool) (today : string)
  : bool * JS.Nullable string :=
  let newStatus := negb currentStatus in
  (newStatus, if newStatus then JS.Val today else JS.Null).

(** [{ ...g, ...updates }]. *)
Definition applyUpdates (g : DailyGoal) (updates : bool * JS.Nullable string)
  : DailyGoal :=
  {| id := id g; userId := userId g; date := date g; title := title g;
     subject := subject g; targetHours := targetHours g;
     completed := fst updates; priority := priority g;
     createdAt := createdAt g; completedAt := snd updates |}.

(** [all.findIndex(g => g.id === goalId)], with the record found. *)
Definition findGoal (all : list DailyGoal) (goalId : string)
  : option (nat * DailyGoal) :=
  list_find (λ g, id g = Some goalId) all.

(** [toggleGoal]: the document named [goalId] receives [updates]; a store
    without such a goal is left as it is.  [today] is the day of the call. *)
Definition toggleGoal (all : list DailyGoal) (goalId : string)
    (currentStatus : bool) (today : string) : list DailyGoal :=
  match findGoal all goalId with
  | Some (idx, g) => <[idx := applyUpdates g (toggleUpdates currentStatus today)]> all
  | None => all
  end.

(** The page size of the unfiltered Firestore query, [limit(200)]. *)
Definition pageSize : nat := 200.

(** The comparator of the mock store, newest end time first. *)
Definition byEndTimeDesc (a b : StudySession) : Z := endTime b - endTime a.

(** [if (date)]: a filter is applied when a non-empty date is passed. *)
Definition dateFilter (date : option string) : option string :=
  match date with
  | Some d => if JS.truthy d then Some d else None
  | None => None
  end.

(** [getSessions].  With a date both backends keep the sessions of that
    date.  Without one, Firestore answers
    [orderBy("endTime", "desc"), limit(200)] and the mock store sorts the
    whole array; sessions with equal end times keep the order of [all]. *)
Definition getSessions (backend : Backend) (all : list StudySession)
    (date : option string) : list StudySession :=
  match dateFilter date with
  | Some d => filter (λ s, JS.strEq (sdate s) d) all
  | None =>
      match backend with
      | Firebase => take pageSize (JS.sort byEndTimeDesc all)
      | Mock => JS.sort byEndTimeDesc all
      end
  end.

End Api.

(** ** components/Dashboard.tsx *)
Module Dashboard.

(** [DailyGoal & { actualHours: number }]. *)
Record GoalWithProgress : Type := mkProgress {
  goal : DailyGoal;
  actualHours : Q
}.

(** [allSessions.filter(s => s.date === today)]. *)
Definition todaysSessions (today : string) (allSessions : list StudySession)
  : list StudySession :=
  filter (λ s, JS.strEq (sdate s) today) allSessions.

(** The sessions counted for a goal: same subject, topic equal to the title. *)
Definition matchingSessions (todays : list StudySession) (g : DailyGoal)
  : list StudySession :=
  filter (λ s, bool_decide (ssubject s = subject g) && JS.strEq (topic s) (title g))
         todays.

Definition goalSpecificMinutes (todays : list StudySession) (g : DailyGoal) : Q :=
  foldl (λ sum s, sum + durationMinutes s)%Q 0%Q (matchingSessions todays g).

(** [fetchedGoals.map(g => ({ ...g, actualHours: ... }))]. *)
Definition goalsWithProgress (fetchedGoals : list DailyGoal)
    (todays : list StudySession) : list GoalWithProgress :=
  map (λ g, mkProgress g (JS.toFixed1 (goalSpecificMinutes todays g / 60)))
      fetchedGoals.

Definition pMap (p : Priority) : Z :=
  match p with High => 3 | Medium => 2 | Low => 1 end.

(** The comparator handed to [goalsWithProgress.sort]. *)
Definition compareGoals (a b : GoalWithProgress) : Z :=
  if Bool.eqb (completed (goal a)) (completed (goal b))
  then pMap (priority (goal b)) - pMap (priority (goal a))
  else if completed (goal a) then 1 else -1.

(** The goal list put on screen by [fetchDashboardData]. *)
Definition displayedGoals (backend : Api.Backend) (goals : list DailyGoal)
    (sessions : list StudySession) (today : string) : list GoalWithProgress :=
  let fetchedGoals := Api.getGoals goals today in
  let allSessions := Api.getSessions backend sessions None in
  JS.sort compareGoals
    (goalsWithProgress fetchedGoals (todaysSessions today allSessions)).

(** [goal.actualHours >= goal.targetHours], the test that turns the
    progress text and bar green. *)
Definition onPace (g : GoalWithProgress) : bool :=
  Qle_bool (targetHours (goal g)) (actualHours g).

(** [toggleGoalCompletion]: the flag passed on is the one of the goal on
    screen. *)
Definition toggleGoalCompletion (all : list DailyGoal) (g : DailyGoal)
    (today : string) : list DailyGoal :=
  match id g with
  | Some i => if JS.truthy i then Api.toggleGoal all i (completed g) today else all
  | None => all
  end.

(** [setAvgConfidence(...)]: [None] is [null]. *)
Definition avgConfidence (allConf : list Z) : option Z :=
  if 0 <? Z.of_nat (length allConf)
  then Some (JS.mathRound (JS.sum (inject_Z <$> allConf) / inject_Z (Z.of_nat (length allConf))))
  else None.

(** [avgConfidence !== null ? `${avgConfidence}%` : '-']. *)
Definition renderAvgConfidence (avg : option Z) : string :=
  match avg with
  | Some n => JS.showInt n +:+ "%"
  | None => "-"
  end.

End Dashboard.

(** ** components/Analytics.tsx *)
Module Analytics.

(** An entry of [trendChartData]. *)
Record TrendPoint : Type := mkPoint {
  label : string;   (* MM-DD *)
  hours : Q
}.

(** The days written by [for (let i = n - 1; i >= 0; i--)], in that order:
    [new Date()] taken [i] local days back by [setDate], and printed by
    [toISOString]. *)
Definition windowDays (z : Clock.zone) (n : nat) (now : Clock.instant)
  : list JSDate.civil :=
  (λ i, Clock.utcDay (Clock.setDateBack z now i)) <$> reverse (seq 0 n).

(** [trendMap] after the first loop: every day written at zero. *)
Definition initTrendMap (z : Clock.zone) (now : Clock.instant)
  : option (gmap string Q) :=
  foldl (λ acc c, m ← acc; k ← JSDate.toISODate c; Some (<[k := 0%Q]> m))
        (Some ∅) (windowDays z 14 now).

(** The body of [sessions.forEach] over [trendMap].  The test
    [trendMap[s.date] !== undefined] also succeeds for a name the object
    inherits; the loop would then store a non-numeric entry under it, which
    this model of the map does not hold: [None]. *)
Definition addToTrend (m : gmap string Q) (s : StudySession)
  : option (gmap string Q) :=
  match m !! sdate s with
  | Some v => Some (<[sdate s := (v + durationMinutes s)%Q]> m)
  | None => if JS.inherited (sdate s) then None else Some m
  end.

(** [Object.keys(m)]; the order does not matter to the callers, which sort. *)
Definition objectKeys (m : gmap string Q) : list string := (map_to_list m).*1.

(** [date.substring(5)]. *)
Definition substring5 (s : string) : string :=
  String.substring 5 (String.length s - 5) s.

Definition trendChartData (z : Clock.zone) (now : Clock.instant)
    (sessions : list StudySession) : option (list TrendPoint) :=
  m0 ← initTrendMap z now;
  trendMap ← foldl (λ acc s, m ← acc; addToTrend m s) (Some m0) sessions;
  Some ((λ k, mkPoint (substring5 k)
                      (JS.toFixed1 (default 0%Q (trendMap !! k) / 60)))
        <$> JS.sort JS.defaultCompare (objectKeys trendMap)).

(** [new Set(sessions.map(s => s.date))]. *)
Definition sessionDatesSet (sessions : list StudySession) : gset string :=
  list_to_set (sdate <$> sessions).

(** One turn of the date in the streak loop: [new Date(tempDate)] is the
    UTC midnight of the date; [setDate] takes it one local day back;
    [toISOString] prints the UTC day reached. *)
Definition isoPrevDay (z : Clock.zone) (tempDate : string) : option string :=
  d ← JSDate.parseISODate tempDate;
  JSDate.toISODate (Clock.utcDay (Clock.setDateBack z (Clock.mkInstant d 0) 1)).

(** The [while] loop of the streak.  [None]: the fuel ran out, or a date
    left the years the calendar model prints. *)
Fixpoint streakLoop (fuel : nat) (z : Clock.zone) (dates : gset string)
    (tempDate : string) (currentStreak : nat) : option nat :=
  match fuel with
  | O => None
  | S fuel' =>
      if decide (tempDate ∈ dates) then
        tempDate' ← isoPrevDay z tempDate;
        streakLoop fuel' z dates tempDate' (S currentStreak)
      else Some currentStreak
  end.

(** The streak computed by [fetchData] when the clock shows [now]: [today]
    is the printed date of [now], [yesterday] that of 86400000 milliseconds
    earlier. *)
Definition currentStreak (fuel : nat) (z : Clock.zone) (now : Clock.instant)
    (sessions : list StudySession) : option nat :=
  today ← JSDate.toISODate (Clock.utcDay now);
  yesterday ← JSDate.toISODate (Clock.utcDay (Clock.addMs now (- 86400000)));
  let dates := sessionDatesSet sessions in
  if decide (today ∈ dates) then streakLoop fuel z dates today 0
  else if decide (yesterday ∈ dates) then streakLoop fuel z dates yesterday 0
  else Some 0%nat.

(** [avgConf]. *)
Definition avgConf (allConf : list Z) : Z :=
  if 0 <? Z.of_nat (length allConf)
  then JS.mathRound (JS.sum (inject_Z <$> allConf) / inject_Z (Z.of_nat (length allConf)))
  else 0.

(** [{stats.avgConfidence}%]. *)
Definition renderAvgConfidence (avg : Z) : string := JS.showInt avg +:+ "%".

End Analytics.

(** * Vocabulary of the properties *)

(** The three conditions of the visibility contract. *)
Definition createdToday (today : string) (g : DailyGoal) : Prop :=
  date g = today.
Definition rolledOver (today : string) (g : DailyGoal) : Prop :=
  JS.strLt (date g) today = true ∧ completed g = false.
Definition completedToday (today : string) (g : DailyGoal) : Prop :=
  JS.strLt (date g) today = true ∧ completed g = true ∧ completedAt g = JS.Val today.

(** The invariant of a goal: a completion date is recorded exactly when the
    goal is complete. *)
Definition completionInvariant (g : DailyGoal) : Prop :=
  (∃ d, completedAt g = JS.Val d) ↔ completed g = true.

(** The order a comparator induces: [a] may stand before [b]. *)
Definition cmpLe {A} (cmp : A → A → Z) (a b : A) : Prop := cmp a b ≤ 0.

(** Newest end time first. *)
Definition newestFirst (a b : StudySession) : Prop := endTime b ≤ endTime a.

(** The order of the goal list on screen: no complete goal before an
    incomplete one, and within a completion state no lower priority before a
    higher one. *)
Definition goalOrder (a b : Dashboard.GoalWithProgress) : Prop :=
  (completed (Dashboard.goal a) = true → completed (Dashboard.goal b) = true)
  ∧ (completed (Dashboard.goal a) = completed (Dashboard.goal b) →
     Dashboard.pMap (priority (Dashboard.goal b))
     ≤ Dashboard.pMap (priority (Dashboard.goal a))).

(** The sessions attributed to a goal on a day: logged that day, under the
    goal's subject, with the goal's title as topic. *)
Definition attributedSessions (today : string) (g : DailyGoal)
    (allSessions : list StudySession) : list StudySession :=
  filter (λ s, sdate s = today ∧ ssubject s = subject g ∧ topic s = title g)
         allSessions.

(** The hours of those sessions, at full precision. *)
Definition exactHours (today : string) (g : DailyGoal)
    (allSessions : list StudySession) : Q :=
  JS.sum (durationMinutes <$> attributedSessions today g allSessions) / 60.

(** The eight digits of a date read as one number; on dates in the model's
    range it orders dates as the calendar does. *)
Definition dateKey (c : JSDate.civil) : Z :=
  JSDate.year c * 10000 + JSDate.month c * 100 + JSDate.day c.

(** A day of the calendar in the years the model prints. *)
Definition calendarDay (c : JSDate.civil) : Prop :=
  JSDate.validDate c = true ∧ 0 ≤ JSDate.year c ≤ 9999.

(** A [Date] as the language keeps it: a day of the calendar and a time of
    day. *)
Definition wellFormed (t : Clock.instant) : Prop :=
  JSDate.validDate (Clock.utcDay t) = true ∧ 0 ≤ Clock.msOfDay t < Clock.msPerDay.

(** The [n] calendar days that end with the day [c], oldest first. *)
Definition lastDays (n : nat) (c : JSDate.civil) : list JSDate.civil :=
  (λ i, JSDate.minusDays i c) <$> reverse (seq 0 n).

(** No change of the clocks is felt [i] days before the time value [t]: at
    the local time that lies [i] days before the local time of [t], the
    offset from UTC is the one in force at [t]. *)
Definition sameOffset (z : Clock.zone) (t : Z) (i : nat) : Prop :=
  Clock.offsetOfLocal z (t + Clock.offsetAt z t - Z.of_nat i * Clock.msPerDay)
  = Clock.offsetAt z t.

(** A zone whose clocks are never changed. *)
Definition fixedOffset (z : Clock.zone) : Prop :=
  ∃ o, ∀ t, Clock.offsetAt z t = o ∧ Clock.offsetOfLocal z t = o.

(** The date on which the loop stands after [i] turns is in the set. *)
Definition visited (dates : gset string) (c : JSDate.civil) (i : nat) : Prop :=
  ∃ s, JSDate.toISODate (JSDate.minusDays i c) = Some s ∧ s ∈ dates.

(** The printed form of a day, the empty string where the model prints none. *)
Definition isoOf (c : JSDate.civil) : string := default "" (JSDate.toISODate c).

(** Some session is logged on the calendar day [c]. *)
Definition sessionOn (sessions : list StudySession) (c : JSDate.civil) : Prop :=
  ∃ s, s ∈ sessions ∧ JSDate.toISODate c = Some (sdate s).

(** The run of [n] consecutive days with sessions that ends [first] days
    before [now], the day before the run having none. *)
Definition runOfDays (sessions : list StudySession) (now : JSDate.civil)
    (first n : nat) : Prop :=
  (∀ i, (i < n)%nat → sessionOn sessions (JSDate.minusDays (first + i) now))
  ∧ ¬ sessionOn sessions (JSDate.minusDays (first + n) now).

(** The streak as the specification words it. *)
Definition streakIs (sessions : list StudySession) (now : JSDate.civil)
    (n : nat) : Prop :=
  (sessionOn sessions now → runOfDays sessions now 0 n)
  ∧ (¬ sessionOn sessions now → sessionOn sessions (JSDate.minusDays 1 now) →
     runOfDays sessions now 1 n)
  ∧ (¬ sessionOn sessions now → ¬ sessionOn sessions (JSDate.minusDays 1 now) →
     n = 0%nat).

(** The minutes logged under the date [iso], added in session order. *)
Definition minutesOn (iso : string) (sessions : list StudySession) : Q :=
  foldl (λ acc s, acc + durationMinutes s)%Q 0%Q
        (filter (λ s, sdate s = iso) sessions).

(** Average confidence as the specification words it: absent without
    entries, else the mean rounded to the nearest integer. *)
Definition meanConfidence (allConf : list Z) : option Z :=
  match allConf with
  | [] => None
  | _ => Some (JS.mathRound (JS.sum (inject_Z <$> allConf)
                             / inject_Z (Z.of_nat (length allConf))))
  end.

(** Sample records: one user, one subject. *)
Module Sample.

Definition today : string := "2026-02-17".

Definition now : JSDate.civil := JSDate.mkCivil 2026 2 17.

(** Noon of that day in UTC. *)
Definition noon : Clock.instant := Clock.mkInstant now 43200000.

(** Indian Standard Time: five and a half hours ahead of UTC all year. *)
Definition kolkata : Clock.zone := Clock.mkZone (λ _, 19800000) (λ _, 19800000).

(** New York in 2026: four hours behind UTC from 8 March, 07:00 UTC, to
    1 November, 06:00 UTC, and five hours behind before and after; on the
    local clocks the summer offset runs from 03:00 on 8 March to 02:00 on
    1 November, the hour that is skipped in March and the hour that comes
    twice in November being read with the offset of before the change. *)
Definition newYork : Clock.zone :=
  let hour := 3600000 in
  let march := Clock.midnight (JSDate.mkCivil 2026 3 8) in
  let november := Clock.midnight (JSDate.mkCivil 2026 11 1) in
  Clock.mkZone
    (λ t, if (march + 7 * hour <=? t) && (t <? november + 6 * hour)
          then -4 * hour else -5 * hour)
    (λ l, if (march + 3 * hour <=? l) && (l <? november + 2 * hour)
          then -4 * hour else -5 * hour).

Definition goalOn (i d t : string) (h : Q) (c : bool) (p : Priority)
    (ca : JS.Nullable string) : DailyGoal :=
  mkGoal (Some i) "u1" d t Science h c p 0 ca.

Definition session (d t : string) (m : Q) (e : Z) : StudySession :=
  mkSession None "u1" Science t (e - 1) e m d.

(** Two goals named alike, and three sessions of today. *)
Definition ohm : DailyGoal :=
  goalOn "g1" today "Ohm's Law" 1 false High JS.Undefined.

Definition ohmAgain : DailyGoal :=
  goalOn "g2" "2026-02-16" "Ohm's Law" 2 false Low JS.Undefined.

Definition ohmSessions : list StudySession :=
  [session today "Ohm's Law" 30 100; session today "Kirchhoff" 20 200;
   session today "Ohm's Law" 45 300].

(** A single session two minutes short of the hour. *)
Definition shortSession : list StudySession := [session today "Ohm's Law" 58 100].

(** A goal completed on an earlier day. *)
Definition doneEarlier : DailyGoal :=
  goalOn "g3" "2026-02-10" "Optics" 1 true Medium (JS.Val "2026-02-12").

(** A goal never toggled so far, with an explicit null. *)
Definition untouched : DailyGoal :=
  goalOn "g4" today "Acids" 1 false Medium JS.Null.

(** Sessions on the two days before [today], none today. *)
Definition twoDays : list StudySession :=
  [session "2026-02-15" "Optics" 40 100; session "2026-02-16" "Optics" 50 200].

(** A single session seven days before [today]. *)
Definition weekAgo : list StudySession := [session "2026-02-10" "Optics" 40 100].

(** Noon in UTC on 3 November 2026, two days after the clocks of New York
    went back, and sessions on that day, on the day before and on 31 October,
    none on 1 November. *)
Definition novemberNoon : Clock.instant :=
  Clock.mkInstant (JSDate.mkCivil 2026 11 3) 43200000.

Definition aroundTheChange : list StudySession :=
  [session "2026-10-31" "Optics" 40 100; session "2026-11-02" "Optics" 50 200;
   session "2026-11-03" "Optics" 30 300].

(** 23:30 in UTC on 9 March 2026, the day after the clocks of New York went
    forward. *)
Definition marchEvening : Clock.instant :=
  Clock.mkInstant (JSDate.mkCivil 2026 3 9) 84600000.

(** A mock store of 201 sessions. *)
Definition manySessions : list StudySession :=
  (λ i, session today "Optics" 25 (Z.of_nat i)) <$> seq 0 201.

End Sample.

(** * The rest of the program

    The store operations, the planner's form, the dashboard's summary, the
    remaining analytics, the session tracker and the header, modelled with the
    conventions above. *)

(** ** Comparisons of numbers *)
Module JSNum.

(** [x > y]. *)
Definition gt (x y : Q) : bool := negb (Qle_bool x y).

(** [x < y]. *)
Definition lt (x y : Q) : bool := negb (Qle_bool y x).

End JSNum.

(** ** services/api.ts, the rest of the store *)
Module Store.

(** [Partial<DailyGoal>]: the fields an update carries. *)
Record GoalUpdates : Type := mkUpdates {
  uId : option string;
  uUserId : option string;
  uDate : option string;
  uTitle : option string;
  uSubject : option Subject;
  uTargetHours : option Q;
  uCompleted : option bool;
  uPriority : option Priority;
  uCreatedAt : option Z;
  uCompletedAt : option (JS.Nullable string)
}.

(** [{ ...g, ...updates }]. *)
Definition spread (g : DailyGoal) (u : GoalUpdates) : DailyGoal :=
  {| id := match uId u with Some i => Some i | None => id g end;
     userId := default (userId g) (uUserId u);
     date := default (date g) (uDate u);
     title := default (title g) (uTitle u);
     subject := default (subject g) (uSubject u);
     targetHours := default (targetHours g) (uTargetHours u);
     completed := default (completed g) (uCompleted u);
     priority := default (priority g) (uPriority u);
     createdAt := default (createdAt g) (uCreatedAt u);
     completedAt := default (completedAt g) (uCompletedAt u) |}.

(** [updateGoal]: the first goal stored under [goalId] takes the updates;
    without such a goal nothing is written. *)
Definition updateGoal (all : list DailyGoal) (goalId : string)
    (updates : GoalUpdates) : list DailyGoal :=
  match Api.findGoal all goalId with
  | Some (idx, g) => <[idx := spread g updates]> all
  | None => all
  end.

(** [deleteGoal]: [all.filter(g => g.id !== goalId)]. *)
Definition deleteGoal (all : list DailyGoal) (goalId : string) : list DailyGoal :=
  filter (λ g, id g ≠ Some goalId) all.

(** The identifier the mock store gives a new goal: ['g_' + Date.now()]. *)
Definition mockGoalId (clock : Z) : string := "g_" +:+ JS.showInt clock.

(** The identifier under which a goal is stored; every stored goal has
    one. *)
Definition docId (g : DailyGoal) : string := default "" (id g).

(** The place of a new document in a Firestore collection: a query without
    [orderBy] returns the documents in the order of their identifiers. *)
Fixpoint insertDoc (g : DailyGoal) (all : list DailyGoal) : list DailyGoal :=
  match all with
  | [] => [g]
  | y :: rest =>
      if JS.strLt (docId g) (docId y) then g :: y :: rest else y :: insertDoc g rest
  end.

(** [addGoal] stores [{ ...goal, id, createdAt }].  The mock store pushes it
    to the end of its array, with [mockGoalId clock] as identifier and [clock]
    as stamp; on Firestore [addDoc] names the document itself, with an
    identifier [newId] of its choice, which decides where the queries meet
    it. *)
Definition addGoal (backend : Api.Backend) (all : list DailyGoal) (goal : DailyGoal)
    (newId : string) (stamp : Z) : list DailyGoal :=
  let newGoal :=
    spread goal {| uId := Some newId; uUserId := None; uDate := None;
                   uTitle := None; uSubject := None; uTargetHours := None;
                   uCompleted := None; uPriority := None;
                   uCreatedAt := Some stamp; uCompletedAt := None |} in
  match backend with
  | Api.Mock => all ++ [newGoal]
  | Api.Firebase => insertDoc newGoal all
  end.

(** [addSession]: [{ ...session, id }] goes to the end of the store. *)
Definition addSession (all : list StudySession) (session : StudySession)
    (newId : string) : list StudySession :=
  all ++ [mkSession (Some newId) (suserId session) (ssubject session)
            (topic session) (startTime session) (endTime session)
            (durationMinutes session) (sdate session)].

(** The settings of a user: a document, or a parsed localStorage item, with
    string fields; [None] when nothing was ever saved. *)
Definition noteKey : string := "motivationNote".

(** [getNote]; [None] is [undefined].  Firestore hands out the field as it
    is, an absent document reads as the empty string; the mock store reads
    [settings.motivationNote || ''] from the item or from [{}]. *)
Definition getNote (backend : Api.Backend) (settings : option (gmap string string))
  : option string :=
  match backend with
  | Api.Firebase =>
      match settings with
      | Some doc => doc !! noteKey
      | None => Some ""
      end
  | Api.Mock =>
      match default ∅ settings !! noteKey with
      | Some n => Some (if JS.truthy n then n else "")
      | None => Some ""
      end
  end.

(** [saveNote]: [setDoc(..., { merge: true })], or the item rewritten with
    the field set. *)
Definition saveNote (settings : option (gmap string string)) (note : string)
  : option (gmap string string) :=
  Some (<[noteKey := note]> (default ∅ settings)).

(** The three items the mock store keeps for a user in localStorage; an
    absent item is [None]. *)
Record MockStore : Type := mkStore {
  goalsItem : option (list DailyGoal);
  sessionsItem : option (list StudySession);
  settingsItem : option (gmap string string)
}.

(** The goals and sessions of the demo account.  The calls of [Date.now()]
    within one run of [seedMockData] are taken at one clock value. *)
Definition initialGoals (uid today yesterday : string) (clock : Z) : list DailyGoal :=
  [mkGoal (Some "g1") uid today "Science - Electricity Numericals" Science 2
          false High clock JS.Undefined;
   mkGoal (Some "g2") uid today "Maths - Quadratic Equations" Maths (3 # 2)
          true Medium clock JS.Undefined;
   mkGoal (Some "g3") uid yesterday "SST - Nationalism in Europe" SST 1
          false High clock JS.Undefined].

Definition initialSessions (uid today yesterday : string) (clock : Z)
  : list StudySession :=
  [mkSession (Some "s1") uid Maths "Quadratic Eq Ex 4.1" (clock - 3600000) clock
             60 today;
   mkSession (Some "s2") uid Science "Ohm Law" (clock - 90000000) (clock - 86400000)
             120 yesterday].

(** [seedMockData]: a user without a goals item gets the three items of the
    demo; [now] is the day of the call.  [None]: a date outside the years the
    calendar model prints. *)
Definition seedMockData (uid : string) (now : JSDate.civil) (clock : Z)
    (st : MockStore) : option MockStore :=
  match goalsItem st with
  | Some _ => Some st
  | None =>
      today ← JSDate.toISODate now;
      yesterday ← JSDate.toISODate (JSDate.prevDay now);
      Some (mkStore (Some (initialGoals uid today yesterday clock))
                    (Some (initialSessions uid today yesterday clock))
                    (Some {[ noteKey := "I will top the boards!" ]}))
  end.

End Store.

(** ** components/Planner.tsx *)
Module Planner.

(** [fetchGoals]: the goals listed, and the pair [(total, completed)]
    reported to the header. *)
Definition fetchGoals (all : list DailyGoal) (today : string)
  : list DailyGoal * (nat * nat) :=
  let fetched := Api.getGoals all today in
  (fetched, (length fetched, length (filter (λ g, completed g = true) fetched))).

(** The goal [handleAddGoal] sends to [addGoal]; identifier and creation
    stamp are filled in by the store. *)
Definition newGoal (uid today title : string) (subject : Subject)
    (hoursInput minutesInput : Z) (priority : Priority) : DailyGoal :=
  mkGoal None uid today title subject
         (inject_Z hoursInput + inject_Z minutesInput / 60)%Q
         false priority 0 JS.Undefined.

(** [startEdit]: the hours and minutes shown for a goal's target. *)
Definition startEdit (totalHours : Q) : Z * Z :=
  let h := Qfloor totalHours in
  (h, JS.mathRound ((totalHours - inject_Z h) * 60)).

(** The updates [handleUpdate] sends to [updateGoal]. *)
Definition editUpdates (title : string) (subject : Subject)
    (hoursInput minutesInput : Z) (priority : Priority) : Store.GoalUpdates :=
  {| Store.uId := None; Store.uUserId := None; Store.uDate := None;
     Store.uTitle := Some title; Store.uSubject := Some subject;
     Store.uTargetHours := Some (inject_Z hoursInput + inject_Z minutesInput / 60)%Q;
     Store.uCompleted := None; Store.uPriority := Some priority;
     Store.uCreatedAt := None; Store.uCompletedAt := None |}.

End Planner.

(** ** components/Dashboard.tsx, the daily summary *)
Module Summary.

(** [rec[k] || 0] on a number. *)
Definition orZero (v : Q) : Q := if Qeq_bool v 0 then 0%Q else v.

(** [rec[k] = (rec[k] || 0) + v] on a [Record<string, number>] keyed by
    subject; the list keeps the keys in the order in which they were first
    written, which is the order of [Object.keys]. *)
Fixpoint addMinutes (rec : list (Subject * Q)) (k : Subject) (v : Q)
  : list (Subject * Q) :=
  match rec with
  | [] => [(k, (0 + v)%Q)]
  | (k', w) :: rest =>
      if decide (k' = k) then (k', (orZero w + v)%Q) :: rest
      else (k', w) :: addMinutes rest k v
  end.

(** [subjectMins] after the [forEach] over today's sessions. *)
Definition subjectMins (todays : list StudySession) : list (Subject * Q) :=
  foldl (λ rec s, addMinutes rec (ssubject s) (durationMinutes s)) [] todays.

(** [totalMinutesStudied] after the same loop. *)
Definition totalMinutesStudied (todays : list StudySession) : Q :=
  foldl (λ acc s, acc + durationMinutes s)%Q 0%Q todays.

(** [targetMinutes] after the [map] over the fetched goals. *)
Definition targetMinutes (fetchedGoals : list DailyGoal) : Q :=
  foldl (λ acc g, acc + targetHours g * 60)%Q 0%Q fetchedGoals.

(** [Object.keys(subjectMins).map(key => ({ name: key, value: subjectMins[key] }))]. *)
Definition chartData (todays : list StudySession) : list (Subject * Q) :=
  (λ kv, (kv.1, kv.2)) <$> subjectMins todays.

(** [allSessions.slice(0, 5)]. *)
Definition recentSessions (allSessions : list StudySession) : list StudySession :=
  take 5 allSessions.

(** The pair [(totalGoals, completedGoals)] kept in [todayStats] and handed
    to [onGoalsChange]: the goals fetched, and the completed ones among the
    sorted rows. *)
Definition goalCounts (backend : Api.Backend) (goals : list DailyGoal)
    (sessions : list StudySession) (today : string) : nat * nat :=
  (length (Api.getGoals goals today),
   length (filter (λ g, completed (Dashboard.goal g) = true)
             (Dashboard.displayedGoals backend goals sessions today))).

(** [timeProgressPercent], the width of the time bar. *)
Definition timeProgressPercent (totalMinutes targetMins : Q) : Q :=
  let hoursTarget := (targetMins / 60)%Q in
  if JSNum.gt hoursTarget 0
  then Qmin 100 (totalMinutes / targetMins * 100)
  else 0%Q.

(** The number printed beside the time bar:
    [Math.round((totalMinutesStudied / (targetMinutes || 1)) * 100)]. *)
Definition timeLabel (totalMinutes targetMins : Q) : Z :=
  JS.mathRound (totalMinutes / (if Qeq_bool targetMins 0 then 1 else targetMins) * 100).

(** [taskProgressPercent], the width of the task bar. *)
Definition taskProgressPercent (completedGoals totalGoals : nat) : Q :=
  if (0 <? totalGoals)%nat
  then (inject_Z (Z.of_nat completedGoals) / inject_Z (Z.of_nat totalGoals) * 100)%Q
  else 0%Q.

(** [formatDurationHelper]: whole hours, and the rest in rounded minutes.
    The argument arrives as the double [d] nearest to it; the difference and
    the product are doubles in their turn. *)
Definition hoursAndMinutes (decimalHours : Q) : Z * Z :=
  let d := JS.double decimalHours in
  let h := Qfloor d in
  (h, JS.mathRound (JS.double (JS.double (d - inject_Z h) * 60))).

Definition formatDurationHelper (decimalHours : Q) : string :=
  let '(h, m) := hoursAndMinutes decimalHours in
  JS.showInt h +:+ "h " +:+ JS.showInt m +:+ "m".

(** [progressPercent] of a goal row, [Math.min(100, actual / target * 100)].
    With a target of zero the quotient is infinite or not a number: positive
    progress still fills the bar, otherwise the width is no number ([None]). *)
Definition progressPercent (g : Dashboard.GoalWithProgress) : option Q :=
  let target := targetHours (Dashboard.goal g) in
  let actual := Dashboard.actualHours g in
  if Qeq_bool target 0
  then if JSNum.gt actual 0 then Some 100%Q else None
  else Some (Qmin 100 (actual / target * 100)).

(** [setMotivationalNote(note || "I will not compromise on Science")]. *)
Definition motivationalNote (note : option string) : string :=
  match note with
  | Some n => if JS.truthy n then n else "I will not compromise on Science"
  | None => "I will not compromise on Science"
  end.

(** An entry of [EXAM_SCHEDULE]; the date is kept as the three numbers
    that [dateStr.split('/').map(Number)] yields. *)
Record ExamDate : Set := mkExam { examDay : JSDate.civil; examSubject : string }.

(** [calcDays], and [calculateDaysLeft] of the planner: the days from now
    to the local midnight that begins the exam day, rounded up. *)
Definition calcDays (z : Clock.zone) (exam : JSDate.civil) (now : Clock.instant) : Z :=
  let diff := Clock.localMidnight z exam - Clock.getTime now in
  Qceiling (inject_Z diff / inject_Z Clock.msPerDay).

(** [upcoming]: the exams not yet past, nearest first. *)
Definition upcoming (z : Clock.zone) (schedule : list ExamDate) (now : Clock.instant)
  : list (ExamDate * Z) :=
  JS.sort (λ a b, a.2 - b.2)
    (filter (λ e, 0 ≤ e.2) ((λ e, (e, calcDays z (examDay e) now)) <$> schedule)).

(** [nextExam]: [upcoming[0]] when there is one. *)
Definition nextExam (z : Clock.zone) (schedule : list ExamDate) (now : Clock.instant)
  : option (ExamDate * Z) :=
  head (upcoming z schedule now).

End Summary.

(** ** constants.ts *)
Module Constants.

Definition MOTIVATIONAL_QUOTES : list string :=
  ["Success is the sum of small efforts, repeated day in and day out.";
   "Don't stop until you're proud.";
   "The pain you feel today will be the strength you feel tomorrow.";
   "Your board results will stay with you forever. Make them count.";
   "Discipline is doing what needs to be done, even if you don't want to do it.";
   "Dream big. Work hard. Stay focused.";
   "Eighty percent of success is showing up.";
   "It always seems impossible until it's done.";
   "You are capable of more than you know.";
   "Study hard, for the well is deep, and our brains are shallow."].

Definition EXAM_SCHEDULE : list Summary.ExamDate :=
  [Summary.mkExam (JSDate.mkCivil 2026 2 17) "Maths";
   Summary.mkExam (JSDate.mkCivil 2026 2 21) "English";
   Summary.mkExam (JSDate.mkCivil 2026 2 25) "Science";
   Summary.mkExam (JSDate.mkCivil 2026 2 27) "IT";
   Summary.mkExam (JSDate.mkCivil 2026 3 2) "Hindi";
   Summary.mkExam (JSDate.mkCivil 2026 3 7) "Social Science"].

End Constants.

(** ** components/Analytics.tsx, statistics, heatmap and best day *)
Module Insights.

(** [totalMins] after the [forEach] over the sessions. *)
Definition totalMins (sessions : list StudySession) : Q :=
  foldl (λ acc s, acc + durationMinutes s)%Q 0%Q sessions.

(** [stats.totalHours]. *)
Definition totalHours (sessions : list StudySession) : Z :=
  JS.mathRound (totalMins sessions / 60).

(** [stats.avgSession]. *)
Definition avgSession (sessions : list StudySession) : Z :=
  if (0 <? length sessions)%nat
  then JS.mathRound (totalMins sessions / inject_Z (Z.of_nat (length sessions)))
  else 0.

(** A square of the heatmap. *)
Record HeatCell : Type := mkCell {
  cellDate : string;
  mins : Q;
  intensity : Z
}.

(** The minutes of the sessions logged under [dateStr]. *)
Definition dayMinsVal (dateStr : string) (sessions : list StudySession) : Q :=
  foldl (λ sum s, sum + durationMinutes s)%Q 0%Q
        (filter (λ s, JS.strEq (sdate s) dateStr) sessions).

Definition intensityOf (v : Q) : Z :=
  if Qeq_bool v 0 then 0
  else if JSNum.lt v 60 then 1
  else if JSNum.lt v 120 then 2
  else if JSNum.lt v 240 then 3
  else 4.

(** [heatmapArr] after [for (let i = 29; i >= 0; i--)]. *)
Definition heatmapData (z : Clock.zone) (now : Clock.instant)
    (sessions : list StudySession) : option (list HeatCell) :=
  mapM (λ c, dateStr ← JSDate.toISODate c;
             Some (mkCell dateStr (dayMinsVal dateStr sessions)
                          (intensityOf (dayMinsVal dateStr sessions))))
       (Analytics.windowDays z 30 now).

(** [new Date(s.date).getDay()]: a date-only string is read as midnight
    UTC, and the day of the week is the local one, which west of Greenwich is
    that of the day before.  [None]: no valid date. *)
Definition getDay (z : Clock.zone) (date : string) : option Z :=
  c ← JSDate.parseISODate date;
  Some (Clock.weekday (Clock.localDay z (Clock.mkInstant c 0))).

(** [dayMins] after the [forEach]: one array of durations for each day of
    the week.  [None]: a session carries no valid date, and [push] on
    [dayMins[NaN]] throws. *)
Definition dayMins (z : Clock.zone) (sessions : list StudySession)
  : option (list (list Q)) :=
  foldl (λ acc s, m ← acc; day ← getDay z (sdate s);
                  Some (alter (λ l, l ++ [durationMinutes s]) (Z.to_nat day) m))
        (Some (replicate 7 [])) sessions.

(** The loop over [Object.keys(dayMins)], which come in ascending order;
    the state is [(maxTotal, bestDayIndex)]. *)
Definition bestDayStep (st : Q * nat) (idx : nat) (day : list Q) : Q * nat :=
  let total := JS.sum day in
  if JSNum.gt total st.1 then (total, idx) else st.

Definition bestDayIndex (dayMins : list (list Q)) : nat :=
  (foldl (λ st p, bestDayStep st p.1 p.2) (0%Q, 0%nat) (imap pair dayMins)).2.

Definition dayNames : list string :=
  ["Sunday"; "Monday"; "Tuesday"; "Wednesday"; "Thursday"; "Friday"; "Saturday"].

(** [stats.bestDay]. *)
Definition bestDay (z : Clock.zone) (sessions : list StudySession)
  : option string :=
  m ← dayMins z sessions; dayNames !! bestDayIndex m.

(** An entry of the daily log, and the line of a subject within it. *)
Record SubjectLog : Type := mkSubjectLog {
  logName : Subject;
  topics : list string;
  duration : Z
}.

Record DailyLogEntry : Type := mkLogEntry {
  logDate : string;
  subjects : list SubjectLog;
  logTotalMins : Z
}.

(** [topics.add(t)] on a [Set]: the elements in the order of insertion. *)
Definition setAdd (ts : list string) (t : string) : list string :=
  if decide (t ∈ ts) then ts else ts ++ [t].

(** [logMap[s.date]] after a session: the subjects of the day in the order
    of their first session, each with its topics and its minutes. *)
Fixpoint logSession (day : list (Subject * (list string * Q))) (s : StudySession)
  : list (Subject * (list string * Q)) :=
  match day with
  | [] => [(ssubject s, (setAdd [] (topic s), (0 + durationMinutes s)%Q))]
  | (k, (ts, d)) :: rest =>
      if decide (k = ssubject s)
      then (k, (setAdd ts (topic s), (d + durationMinutes s)%Q)) :: rest
      else (k, (ts, d)) :: logSession rest s
  end.

(** The body of [sessions.forEach] over [logMap].  For a date that is a
    name every object inherits, [logMap[s.date]] is that inherited object and
    the loop writes into it: [None]. *)
Definition addToLog (m : gmap string (list (Subject * (list string * Q))))
    (s : StudySession) : option (gmap string (list (Subject * (list string * Q)))) :=
  match m !! sdate s with
  | Some day => Some (<[sdate s := logSession day s]> m)
  | None =>
      if JS.inherited (sdate s) then None
      else Some (<[sdate s := logSession [] s]> m)
  end.

Definition logMap (sessions : list StudySession)
  : option (gmap string (list (Subject * (list string * Q)))) :=
  foldl (λ acc s, m ← acc; addToLog m s) (Some ∅) sessions.

(** [logArr]: the days in descending order of their dates. *)
Definition dailyLog (sessions : list StudySession) : option (list DailyLogEntry) :=
  m ← logMap sessions;
  Some ((λ date,
           let subjects :=
             (λ e, mkSubjectLog e.1 e.2.1 (JS.mathRound e.2.2))
             <$> default [] (m !! date) in
           mkLogEntry date subjects (foldl (λ sum s, sum + duration s) 0 subjects))
        <$> reverse (JS.sort JS.defaultCompare (map_to_list m).*1)).

End Insights.

(** ** components/SessionTracker.tsx *)
Module SessionTracker.

(** The state of the component that the handlers read and write:
    the selected goal, the subject and topic taken from it (no subject is
    ['']), and the start of the running timer. *)
Record Tracker : Type := mkTracker {
  selectedGoalId : string;
  subject : option Subject;
  topic : string;
  startTimeRef : option Z
}.

(** [handleGoalSelect]. *)
Definition handleGoalSelect (activeGoals : list DailyGoal) (gId : string)
    (t : Tracker) : Tracker :=
  match list_find (λ g, id g = Some gId) activeGoals with
  | Some (_, goal) =>
      mkTracker gId (Some (Types.subject goal)) (title goal) (startTimeRef t)
  | None => mkTracker gId None "" (startTimeRef t)
  end.

(** [startTimer] at the clock value [now]. *)
Definition startTimer (now : Z) (t : Tracker) : Tracker :=
  if JS.truthy (selectedGoalId t)
  then mkTracker (selectedGoalId t) (subject t) (topic t) (Some now)
  else t.

(** [saveSession]: the session handed to [addSession].  A session without
    a subject is no [StudySession] of this model: [None]. *)
Definition saveSession (t : Tracker) (uid today : string) (start finish : Z)
    (duration : Q) : option StudySession :=
  sb ← subject t; Some (mkSession None uid sb (topic t) start finish duration today).

(** [stopTimer] at the clock value [now]: the state left behind, and the
    session saved, if one is. *)
Definition stopTimer (now : Z) (uid today : string) (t : Tracker)
  : Tracker * option StudySession :=
  match startTimeRef t with
  | None => (t, None)
  | Some start =>
      let elapsedSeconds := (inject_Z (now - start) / 1000)%Q in
      (mkTracker (selectedGoalId t) (subject t) (topic t) None,
       if Qle_bool 5 elapsedSeconds
       then saveSession t uid today start now (elapsedSeconds / 60)
       else None)
  end.

(** [new Date(x)] for a number: the fraction of a millisecond is cut. *)
Definition timeClip (x : Q) : Z := if Qle_bool 0 x then Qfloor x else Qceiling x.

(** [handleManualSubmit]; [durationInput] is [None] when [parseFloat] gives
    no number. *)
Definition handleManualSubmit (now : Z) (uid today : string)
    (durationInput : option Q) (t : Tracker) : option StudySession :=
  if JS.truthy (selectedGoalId t) then
    match durationInput with
    | None => None
    | Some d =>
        if Qle_bool d 0 then None
        else saveSession t uid today (timeClip (inject_Z now - d * 60000)) now d
    end
  else None.

(** [padStart(2, '0')]. *)
Definition padStart2 (s : string) : string :=
  if (String.length s <? 2)%nat then "0" +:+ s else s.

(** [formatTime] of a whole number of seconds. *)
Definition formatTime (totalSeconds : Z) : string :=
  let h := totalSeconds / 3600 in
  let m := Z.rem totalSeconds 3600 / 60 in
  let s := Z.rem totalSeconds 60 in
  padStart2 (JS.showInt h) +:+ ":" +:+ padStart2 (JS.showInt m) +:+ ":"
  +:+ padStart2 (JS.showInt s).

End SessionTracker.

(** ** App.tsx *)
Module App.

(** [updateHeaderStats]: the pair [(total, completed)] of the header. *)
Definition updateHeaderStats (providedStats : option (nat * nat))
    (all : list DailyGoal) (today : string) : nat * nat :=
  match providedStats with
  | Some stats => stats
  | None =>
      let goals := Api.getGoals all today in
      (length goals, length (filter (λ g, completed g = true) goals))
  end.

(** [dayOfYear]: whole days since [new Date(year, 0, 0)], the local
    midnight that begins the last day of the year before. *)
Definition dayOfYear (z : Clock.zone) (now : Clock.instant) : Z :=
  let start := JSDate.mkCivil (JSDate.year (Clock.localDay z now) - 1) 12 31 in
  Qfloor (inject_Z (Clock.getTime now - Clock.localMidnight z start)
          / 1000 / 60 / 60 / 24).

(** [MOTIVATIONAL_QUOTES[dayOfYear % MOTIVATIONAL_QUOTES.length]]; [None] is
    [undefined]. *)
Definition todaysQuote (z : Clock.zone) (now : Clock.instant) : option string :=
  let i := Z.rem (dayOfYear z now) (Z.of_nat (length Constants.MOTIVATIONAL_QUOTES)) in
  if 0 <=? i then Constants.MOTIVATIONAL_QUOTES !! Z.to_nat i else None.

(** [ordinal] inside [getFormattedHeader]. *)
Definition ordinal (day : Z) : string :=
  if (3 <? day) && (day <? 21) then "th"
  else match Z.rem day 10 with
       | 1 => "st"
       | 2 => "nd"
       | 3 => "rd"
       | _ => "th"
       end.

End App.

(** ** Vocabulary of the further properties *)

(** The minutes logged under a subject, added in session order. *)
Definition minutesOfSubject (k : Subject) (sessions : list StudySession) : Q :=
  foldl (λ acc s, acc + durationMinutes s)%Q 0%Q
        (filter (λ s, ssubject s = k) sessions).

(** The elements of a list in the order of their first occurrence. *)
Definition firstOccurrences {A} `{EqDecision A} (l : list A) : list A :=
  reverse (remove_dups (reverse l)).


(** The ending of an English ordinal number. *)
Definition englishSuffix (n : Z) : string :=
  if (n mod 100 =? 11) || (n mod 100 =? 12) || (n mod 100 =? 13) then "th"
  else if n mod 10 =? 1 then "st"
  else if n mod 10 =? 2 then "nd"
  else if n mod 10 =? 3 then "rd"
  else "th".




(** At the local midnight that begins the day [c], the offset from UTC is
    the one in force at the time value [t]: no change of the clocks lies
    between the two that is not undone. *)
Definition midnightOffset (z : Clock.zone) (t : Z) (c : JSDate.civil) : Prop :=
  Clock.offsetOfLocal z (Clock.midnight c) = Clock.offsetAt z t.

(** The last day of the year before the local year of a [Date], which
    [new Date(year, 0, 0)] names. *)
Definition yearStart (z : Clock.zone) (t : Clock.instant) : JSDate.civil :=
  JSDate.mkCivil (JSDate.year (Clock.localDay z t) - 1) 12 31.

(** * Properties *)

(** Case analysis on every test of a conditional left in the goal. *)
Ltac case_ifs :=
  repeat match goal with |- context [if ?b then _ else _] => destruct b end.

(** ** Goal visibility *)

Lemma strLt_irrefl (s : string) : JS.strLt s s = false.
Proof.
  unfold JS.strLt, String.ltb.
  destruct (String.compare s s) eqn:E; try reflexivity.
  pose proof (String.compare_antisym s s) as H. rewrite E in H. discriminate.
Qed.

Lemma strEq_true (a b : string) : JS.strEq a b = true ↔ a = b.
Proof. apply String.eqb_eq. Qed.

Lemma nullableIs_true (x : JS.Nullable string) (s : string) :
  JS.nullableIs x s = true ↔ x = JS.Val s.
Proof.
  destruct x; simpl; try (split; [discriminate | discriminate]).
  rewrite strEq_true. split; [intros ->; reflexivity | intros [= ->]; reflexivity].
Qed.

Lemma shouldIncludeGoal_iff (today : string) (g : DailyGoal) :
  Api.shouldIncludeGoal today g = true ↔
  createdToday today g ∨ rolledOver today g ∨ completedToday today g.
Proof.
  unfold Api.shouldIncludeGoal, createdToday, rolledOver, completedToday.
  rewrite !orb_true_iff, !andb_true_iff, negb_true_iff, strEq_true, nullableIs_true.
  tauto.
Qed.

(** C1: a goal is in the result of getGoals exactly when it is stored and
    is dated today, or is past and incomplete, or is past and was completed
    today; no two of the three conditions hold together. *)
Theorem getGoals_visibility (all : list DailyGoal) (today : string) (g : DailyGoal) :
  (g ∈ Api.getGoals all today ↔
     g ∈ all ∧ (createdToday today g ∨ rolledOver today g ∨ completedToday today g))
  ∧ ¬ (createdToday today g ∧ rolledOver today g)
  ∧ ¬ (createdToday today g ∧ completedToday today g)
  ∧ ¬ (rolledOver today g ∧ completedToday today g).
Proof.
  split; [|split; [|split]].
  - unfold Api.getGoals. rewrite list_elem_of_filter, Is_true_true, shouldIncludeGoal_iff.
    tauto.
  - intros [Hd [Hlt _]]. unfold createdToday in Hd. rewrite Hd, strLt_irrefl in Hlt.
    discriminate.
  - intros [Hd [Hlt _]]. unfold createdToday in Hd. rewrite Hd, strLt_irrefl in Hlt.
    discriminate.
  - intros [[_ Hc] [_ [Hc' _]]]. congruence.
Qed.

(** ** Completion toggle *)

(** What the two fields of [updates] do to a goal; nothing else moves. *)
Lemma applyUpdates_fields (g : DailyGoal) (currentStatus : bool) (today : string) :
  let g' := Api.applyUpdates g (Api.toggleUpdates currentStatus today) in
  completed g' = negb currentStatus
  ∧ completedAt g' = (if currentStatus then JS.Null else JS.Val today)
  ∧ id g' = id g ∧ userId g' = userId g ∧ date g' = date g ∧ title g' = title g
  ∧ subject g' = subject g ∧ targetHours g' = targetHours g
  ∧ priority g' = priority g ∧ createdAt g' = createdAt g.
Proof. destruct currentStatus; simpl; repeat split; reflexivity. Qed.

Lemma applyUpdates_invariant (g : DailyGoal) (currentStatus : bool) (today : string) :
  completionInvariant (Api.applyUpdates g (Api.toggleUpdates currentStatus today)).
Proof.
  unfold completionInvariant. destruct currentStatus; simpl; split.
  - intros [d Hd]. discriminate.
  - discriminate.
  - reflexivity.
  - intros _. exists today. reflexivity.
Qed.

Lemma findGoal_Some (all : list DailyGoal) (goalId : string) (idx : nat) (g : DailyGoal) :
  Api.findGoal all goalId = Some (idx, g) →
  all !! idx = Some g ∧ id g = Some goalId
  ∧ ∀ j y, all !! j = Some y → (j < idx)%nat → id y ≠ Some goalId.
Proof. unfold Api.findGoal. intros H. apply list_find_Some in H. exact H. Qed.

(** A goal rewritten in place keeps its identifier, so it is found again
    at the same index. *)
Lemma findGoal_insert (all : list DailyGoal) (goalId : string) (idx : nat)
    (g g' : DailyGoal) :
  Api.findGoal all goalId = Some (idx, g) → id g' = id g →
  Api.findGoal (<[idx := g']> all) goalId = Some (idx, g').
Proof.
  intros H Hid. destruct (findGoal_Some _ _ _ _ H) as (Hl & Hg & Hmin).
  unfold Api.findGoal. apply list_find_Some. split; [|split].
  - apply list_lookup_insert_eq. eapply lookup_lt_Some, Hl.
  - congruence.
  - intros j y Hj Hlt. rewrite list_lookup_insert_ne in Hj by lia. eauto.
Qed.

Lemma toggleGoal_found (all : list DailyGoal) (goalId today : string)
    (currentStatus : bool) (idx : nat) (g : DailyGoal) :
  Api.findGoal all goalId = Some (idx, g) →
  Api.toggleGoal all goalId currentStatus today
  = <[idx := Api.applyUpdates g (Api.toggleUpdates currentStatus today)]> all.
Proof. intros H. unfold Api.toggleGoal. rewrite H. reflexivity. Qed.

(** The dashboard hands [toggleGoal] the flag of the goal that was clicked. *)
Lemma toggleGoalCompletion_eq (all : list DailyGoal) (g : DailyGoal)
    (goalId today : string) :
  id g = Some goalId → goalId ≠ "" →
  Dashboard.toggleGoalCompletion all g today
  = Api.toggleGoal all goalId (completed g) today.
Proof.
  intros Hid Hne. unfold Dashboard.toggleGoalCompletion, JS.truthy. rewrite Hid.
  destruct (String.eqb_spec goalId ""); [contradiction | reflexivity].
Qed.

Lemma toggleGoal_Forall_invariant (all : list DailyGoal) (goalId today : string)
    (currentStatus : bool) :
  Forall completionInvariant all →
  Forall completionInvariant (Api.toggleGoal all goalId currentStatus today).
Proof.
  intros Hall. unfold Api.toggleGoal.
  destruct (Api.findGoal all goalId) as [[idx g]|]; [|exact Hall].
  apply Forall_insert; [exact Hall | apply applyUpdates_invariant].
Qed.

(** C6: toggleGoal keeps "completedAt is set iff completed": the goal
    found under the identifier gets both fields in one update, completed and
    dated today when it was incomplete, incomplete and dated null when it was
    complete; every other goal is untouched. *)
Theorem toggleGoal_completion_invariant (all : list DailyGoal)
    (goalId today : string) (idx : nat) (g : DailyGoal) :
  Api.findGoal all goalId = Some (idx, g) →
  ∃ g' : DailyGoal,
    Api.toggleGoal all goalId (completed g) today = <[idx := g']> all
    ∧ completionInvariant g'
    ∧ (completed g = false → completed g' = true ∧ completedAt g' = JS.Val today)
    ∧ (completed g = true → completed g' = false ∧ completedAt g' = JS.Null)
    ∧ (∀ currentStatus,
         Forall completionInvariant all →
         Forall completionInvariant (Api.toggleGoal all goalId currentStatus today)).
Proof.
  intros H.
  exists (Api.applyUpdates g (Api.toggleUpdates (completed g) today)).
  split; [apply toggleGoal_found, H|].
  split; [apply applyUpdates_invariant|].
  split; [intros Hc; rewrite Hc; simpl; auto|].
  split; [intros Hc; rewrite Hc; simpl; auto|].
  intros cs. apply toggleGoal_Forall_invariant.
Qed.

(** C10: two toggles on the same day, each passing the flag the goal has
    at that moment.  A goal that started incomplete with no completion date
    ([null], or the field missing as on a goal just created) is incomplete
    again with a completion date of [null], every other field and every other
    goal as before, and it is listed on the same days as before; when the
    field was [null] the store is the original one.  A goal that started
    complete with an earlier completion date is complete again, dated today. *)
Theorem toggleGoal_twice (all : list DailyGoal) (goalId today : string)
    (idx : nat) (g : DailyGoal) :
  Api.findGoal all goalId = Some (idx, g) →
  ∃ g' : DailyGoal,
    Api.toggleGoal all goalId (completed g) today !! idx = Some g'
    ∧ let twice :=
        Api.toggleGoal (Api.toggleGoal all goalId (completed g) today)
                       goalId (completed g') today in
      (completed g = false → JS.isNullish (completedAt g) = true →
       ∃ g'', twice = <[idx := g'']> all
              ∧ completed g'' = false ∧ completedAt g'' = JS.Null
              ∧ id g'' = id g ∧ userId g'' = userId g ∧ date g'' = date g
              ∧ title g'' = title g ∧ subject g'' = subject g
              ∧ targetHours g'' = targetHours g ∧ priority g'' = priority g
              ∧ createdAt g'' = createdAt g
              ∧ (∀ day, Api.shouldIncludeGoal day g'' = Api.shouldIncludeGoal day g)
              ∧ (completedAt g = JS.Null → twice = all))
      ∧ (∀ d0, completed g = true → completedAt g = JS.Val d0 →
               JS.strLt d0 today = true →
               ∃ g'', twice !! idx = Some g''
                      ∧ completed g'' = true
                      ∧ completedAt g'' = JS.Val today
                      ∧ completedAt g'' ≠ completedAt g).
Proof.
  intros H. destruct (findGoal_Some _ _ _ _ H) as (Hl & Hg & _).
  assert (Hlen : (idx < length all)%nat) by (eapply lookup_lt_Some, Hl).
  set (g1 := Api.applyUpdates g (Api.toggleUpdates (completed g) today)).
  exists g1. rewrite (toggleGoal_found _ _ _ _ _ _ H). fold g1.
  split; [apply list_lookup_insert_eq, Hlen|].
  assert (H1 : Api.findGoal (<[idx := g1]> all) goalId = Some (idx, g1))
    by (apply findGoal_insert with g; [exact H | reflexivity]).
  cbv zeta. rewrite (toggleGoal_found _ _ _ _ _ _ H1), list_insert_insert_eq.
  split.
  - intros Hc Hd.
    exists (Api.applyUpdates g1 (Api.toggleUpdates (completed g1) today)).
    split; [reflexivity|]. subst g1. rewrite Hc. simpl.
    repeat (split; [reflexivity|]). split.
    + intros day. unfold Api.shouldIncludeGoal. simpl. rewrite Hc.
      destruct (completedAt g); [reflexivity | reflexivity | discriminate].
    + intros Hn. apply list_insert_id.
      rewrite Hl. f_equal. destruct g; simpl in *; subst. reflexivity.
  - intros d0 Hc Hd Hlt.
    exists (Api.applyUpdates g1 (Api.toggleUpdates (completed g1) today)).
    split; [apply list_lookup_insert_eq, Hlen|].
    subst g1. rewrite Hc, Hd. simpl. repeat split.
    intros [= E]. rewrite E, strLt_irrefl in Hlt. discriminate.
Qed.

(** ** Array.prototype.sort *)

Section sort.
Context {A : Type} (cmp : A → A → Z).

Lemma sortInsert_Permutation (x : A) (l : list A) :
  JS.sortInsert cmp x l ≡ₚ x :: l.
Proof.
  induction l as [|y l IH]; simpl; [reflexivity|].
  destruct (cmp x y <=? 0); [reflexivity|].
  rewrite IH. apply Permutation_swap.
Qed.

Lemma sort_Permutation (l : list A) : JS.sort cmp l ≡ₚ l.
Proof.
  induction l as [|x l IH]; simpl; [reflexivity|].
  unfold JS.sort in *. simpl. rewrite sortInsert_Permutation, IH. reflexivity.
Qed.

Lemma sort_length (l : list A) : length (JS.sort cmp l) = length l.
Proof. apply Permutation_length, sort_Permutation. Qed.

Lemma sort_elem_of (x : A) (l : list A) : x ∈ JS.sort cmp l ↔ x ∈ l.
Proof. rewrite sort_Permutation. reflexivity. Qed.

(** A comparator that is consistent in the sense of the language
    specification: any two elements are comparable, transitively. *)
Hypothesis cmp_total : ∀ a b, cmp a b ≤ 0 ∨ cmp b a ≤ 0.
Hypothesis cmp_trans : ∀ a b c, cmp a b ≤ 0 → cmp b c ≤ 0 → cmp a c ≤ 0.

Lemma sortInsert_sorted (x : A) (l : list A) :
  StronglySorted (cmpLe cmp) l → StronglySorted (cmpLe cmp) (JS.sortInsert cmp x l).
Proof.
  induction 1 as [|y l Hs IH Hy]; simpl.
  - repeat constructor.
  - destruct (Z.leb_spec (cmp x y) 0) as [Hle|Hgt].
    + constructor; [constructor; assumption|].
      constructor; [exact Hle|].
      eapply Forall_impl; [exact Hy|]. intros z Hz. unfold cmpLe in *. eauto.
    + constructor; [exact IH|].
      rewrite sortInsert_Permutation. constructor; [|exact Hy].
      unfold cmpLe. destruct (cmp_total x y); lia.
Qed.

Lemma sort_sorted (l : list A) : StronglySorted (cmpLe cmp) (JS.sort cmp l).
Proof.
  induction l as [|x l IH]; [constructor|].
  unfold JS.sort in *. simpl. apply sortInsert_sorted, IH.
Qed.

End sort.

(** Any two positions of a strongly sorted list are in order. *)
Lemma StronglySorted_lookup {A} (R : relation A) (l : list A) (i j : nat) (a b : A) :
  StronglySorted R l → (i < j)%nat → l !! i = Some a → l !! j = Some b → R a b.
Proof.
  intros Hs. revert i j. induction Hs as [|x l Hs IH Hx]; intros i j Hij Hi Hj.
  - rewrite lookup_nil in Hi. discriminate.
  - destruct j as [|j]; [lia|]. destruct i as [|i]; simpl in *.
    + injection Hi as <-. rewrite Forall_forall in Hx. apply Hx.
      eapply list_elem_of_lookup_2, Hj.
    + apply (IH i j); [lia|assumption..].
Qed.

(** ** Order of the goals on screen *)

Lemma compareGoals_total (a b : Dashboard.GoalWithProgress) :
  Dashboard.compareGoals a b ≤ 0 ∨ Dashboard.compareGoals b a ≤ 0.
Proof.
  unfold Dashboard.compareGoals.
  destruct (completed (Dashboard.goal a)), (completed (Dashboard.goal b)),
    (priority (Dashboard.goal a)), (priority (Dashboard.goal b)); simpl; lia.
Qed.

Lemma compareGoals_trans (a b c : Dashboard.GoalWithProgress) :
  Dashboard.compareGoals a b ≤ 0 → Dashboard.compareGoals b c ≤ 0 →
  Dashboard.compareGoals a c ≤ 0.
Proof.
  unfold Dashboard.compareGoals.
  destruct (completed (Dashboard.goal a)), (completed (Dashboard.goal b)),
    (completed (Dashboard.goal c)), (priority (Dashboard.goal a)),
    (priority (Dashboard.goal b)), (priority (Dashboard.goal c)); simpl; lia.
Qed.

Lemma compareGoals_goalOrder (a b : Dashboard.GoalWithProgress) :
  cmpLe Dashboard.compareGoals a b → goalOrder a b.
Proof.
  unfold cmpLe, goalOrder, Dashboard.compareGoals.
  destruct (completed (Dashboard.goal a)), (completed (Dashboard.goal b));
    simpl; intros H; split; intros; try congruence; lia.
Qed.

(** C9: the goal list on screen is a rearrangement of the progress
    records of the visible goals in which every incomplete goal stands before
    every complete one and, within one completion state, priorities descend
    (High, then Medium, then Low). *)
Theorem displayedGoals_order (backend : Api.Backend) (goals : list DailyGoal)
    (sessions : list StudySession) (today : string) :
  let shown := Dashboard.displayedGoals backend goals sessions today in
  shown ≡ₚ Dashboard.goalsWithProgress (Api.getGoals goals today)
             (Dashboard.todaysSessions today (Api.getSessions backend sessions None))
  ∧ (∀ i j a b, (i < j)%nat → shown !! i = Some a → shown !! j = Some b →
                goalOrder a b)
  ∧ Dashboard.pMap Low < Dashboard.pMap Medium < Dashboard.pMap High.
Proof.
  cbv zeta. unfold Dashboard.displayedGoals. split; [apply sort_Permutation|].
  split; [|simpl; lia].
  intros i j a b Hij Hi Hj. apply compareGoals_goalOrder.
  eapply StronglySorted_lookup; [|exact Hij|exact Hi|exact Hj].
  apply sort_sorted; [apply compareGoals_total | apply compareGoals_trans].
Qed.

(** ** Session queries *)

Lemma byEndTimeDesc_sorted (all : list StudySession) :
  StronglySorted newestFirst (JS.sort Api.byEndTimeDesc all).
Proof.
  assert (H : StronglySorted (cmpLe Api.byEndTimeDesc) (JS.sort Api.byEndTimeDesc all)).
  { apply sort_sorted; unfold Api.byEndTimeDesc; intros; lia. }
  clear -H. induction H as [|x l Hs IH Hx]; constructor; [exact IH|].
  eapply Forall_impl; [exact Hx|].
  intros y. unfold cmpLe, Api.byEndTimeDesc, newestFirst. lia.
Qed.

Lemma dateFilter_truthy (d : string) : d ≠ "" → Api.dateFilter (Some d) = Some d.
Proof.
  intros Hd. unfold Api.dateFilter, JS.truthy.
  destruct (String.eqb_spec d ""); [contradiction | reflexivity].
Qed.

(** C8: only the Firestore query is capped.  From a mock store of 201
    sessions the unfiltered call returns all 201, above the page size of 200
    that bounds the answer of Firestore to the same call.  On both stores the
    answer comes newest end time first; the mock store returns every session
    it holds, Firestore the first 200 of that order; and a call with a date
    returns exactly the sessions of that date. *)
Theorem getSessions_mock_not_capped :
  length (Api.getSessions Api.Mock Sample.manySessions None) = 201%nat
  ∧ length (Api.getSessions Api.Firebase Sample.manySessions None) = 200%nat
  ∧ Api.pageSize = 200%nat
  ∧ (∀ all, Api.getSessions Api.Mock all None ≡ₚ all)
  ∧ (∀ all, Api.getSessions Api.Firebase all None
            = take Api.pageSize (Api.getSessions Api.Mock all None))
  ∧ (∀ backend all, StronglySorted newestFirst (Api.getSessions backend all None))
  ∧ (∀ backend all d, d ≠ "" →
       Api.getSessions backend all (Some d) = filter (λ s, sdate s = d) all).
Proof.
  assert (Hperm : ∀ all, Api.getSessions Api.Mock all None ≡ₚ all)
    by (intros all; apply sort_Permutation).
  assert (Hfire : ∀ all, Api.getSessions Api.Firebase all None
                         = take Api.pageSize (Api.getSessions Api.Mock all None))
    by reflexivity.
  split; [rewrite Hperm; reflexivity|].
  split; [rewrite Hfire, length_take, Hperm; reflexivity|].
  split; [reflexivity|]. split; [exact Hperm|]. split; [exact Hfire|]. split.
  - intros backend all. unfold Api.getSessions. simpl.
    destruct backend; [|apply byEndTimeDesc_sorted].
    apply (StronglySorted_app_1_l _ _ (drop Api.pageSize (JS.sort Api.byEndTimeDesc all))).
    rewrite take_drop. apply byEndTimeDesc_sorted.
  - intros backend all d Hd. unfold Api.getSessions.
    rewrite dateFilter_truthy by exact Hd.
    apply list_filter_iff. intros s. rewrite Is_true_true. apply strEq_true.
Qed.

(** ** Per-goal progress *)

Lemma matchingSessions_attributed (today : string) (g : DailyGoal)
    (allSessions : list StudySession) :
  Dashboard.matchingSessions (Dashboard.todaysSessions today allSessions) g
  = attributedSessions today g allSessions.
Proof.
  unfold Dashboard.matchingSessions, Dashboard.todaysSessions, attributedSessions.
  rewrite list_filter_filter. apply list_filter_iff. intros s.
  rewrite !Is_true_true, andb_true_iff, bool_decide_eq_true, !strEq_true. tauto.
Qed.

Lemma goalSpecificMinutes_sum (todays : list StudySession) (g : DailyGoal) :
  Dashboard.goalSpecificMinutes todays g
  = JS.sum (durationMinutes <$> Dashboard.matchingSessions todays g).
Proof. unfold Dashboard.goalSpecificMinutes, JS.sum. rewrite foldl_fmap. reflexivity. Qed.

(** Every record on screen pairs a visible goal with the rounded hours of
    the sessions attributed to it. *)
Lemma displayedGoals_elem (backend : Api.Backend) (goals : list DailyGoal)
    (sessions : list StudySession) (today : string) (gp : Dashboard.GoalWithProgress) :
  gp ∈ Dashboard.displayedGoals backend goals sessions today ↔
  Dashboard.goal gp ∈ Api.getGoals goals today
  ∧ gp = Dashboard.mkProgress (Dashboard.goal gp)
           (JS.toFixed1 (exactHours today (Dashboard.goal gp)
                           (Api.getSessions backend sessions None))).
Proof.
  unfold Dashboard.displayedGoals, Dashboard.goalsWithProgress, exactHours.
  rewrite sort_elem_of, list_elem_of_fmap. split.
  - intros (g & -> & Hg). simpl.
    rewrite goalSpecificMinutes_sum, matchingSessions_attributed. auto.
  - intros [Hg Heq]. exists (Dashboard.goal gp). split; [|exact Hg].
    rewrite goalSpecificMinutes_sum, matchingSessions_attributed. exact Heq.
Qed.


(** *** The double nearest to a number *)

Lemma pow2_pos (e : Z) : (0 < JS.pow2 e)%Q.
Proof. apply Qpower_0_lt. reflexivity. Qed.

Lemma pow2_plus (a b : Z) : (JS.pow2 (a + b) == JS.pow2 a * JS.pow2 b)%Q.
Proof. apply Qpower_plus. discriminate. Qed.

Lemma pow2_inject (n : Z) : 0 ≤ n → (inject_Z (2 ^ n) == JS.pow2 n)%Q.
Proof. intros Hn. apply (Zpower_Qpower 2 n Hn). Qed.

(** The power of two that [floorLog2] names is not above the number. *)
Lemma floorLog2_le (x : Q) : (0 < x)%Q → (JS.pow2 (JS.floorLog2 x) <= x)%Q.
Proof.
  intros Hx. unfold JS.floorLog2.
  set (k := Z.log2 (Qnum x) - Z.log2 (Z.pos (Qden x))).
  destruct (Qle_bool (JS.pow2 k) x) eqn:E; [apply Qle_bool_iff, E|].
  destruct x as [a b]. unfold Qlt in Hx. simpl in Hx. cbn [Qnum Qden] in k.
  assert (Ha : 0 < a) by lia.
  destruct (Z.log2_spec a Ha) as [Hlo _].
  destruct (Z.log2_spec (Z.pos b) ltac:(lia)) as [_ Hhi].
  pose proof (Z.log2_nonneg a). pose proof (Z.log2_nonneg (Z.pos b)).
  replace (k - 1) with (Z.log2 a + - (Z.succ (Z.log2 (Z.pos b)))) by (unfold k; lia).
  rewrite pow2_plus. unfold JS.pow2 at 2. rewrite Qpower_opp.
  fold (JS.pow2 (Z.succ (Z.log2 (Z.pos b)))).
  rewrite <- !pow2_inject by lia.
  set (A := 2 ^ Z.log2 a) in *. set (B := 2 ^ Z.succ (Z.log2 (Z.pos b))) in *.
  assert (HB : 0 < B) by lia.
  apply Qle_shift_div_r; [change 0%Q with (inject_Z 0); rewrite <- Zlt_Qlt; exact HB|].
  unfold Qle, Qmult, inject_Z. simpl. nia.
Qed.

Lemma roundHalfEven_close (y : Q) :
  (Qabs (inject_Z (JS.roundHalfEven y) - y) <= 1 # 2)%Q.
Proof.
  unfold JS.roundHalfEven.
  pose proof (Qfloor_le y) as Hlo. pose proof (Qlt_floor y) as Hhi.
  set (n := Qfloor y) in *. rewrite inject_Z_plus in Hhi.
  change (inject_Z 1) with 1%Q in Hhi.
  destruct (Qcompare (y - inject_Z n) (1 # 2)) eqn:E.
  - apply Qeq_alt in E.
    destruct (Z.even n); [|rewrite inject_Z_plus; change (inject_Z 1) with 1%Q];
      apply Qabs_case; intros; lra.
  - apply Qlt_alt in E. apply Qabs_case; intros; lra.
  - apply Qgt_alt in E. rewrite inject_Z_plus. change (inject_Z 1) with 1%Q.
    apply Qabs_case; intros; lra.
Qed.

(** A double is off the number it holds by at most half a unit in the last
    of its 53 bits, or by half of [2 ** -1074] for the smallest numbers. *)
Lemma double_error (x : Q) :
  (Qabs (JS.double x - x) <= Qabs x * JS.pow2 (-53) + JS.pow2 (-1075))%Q.
Proof.
  pose proof (pow2_pos (-53)) as P53. pose proof (pow2_pos (-1075)) as P1075.
  pose proof (Qabs_nonneg x) as Hx.
  unfold JS.double. destruct (Qeq_bool x 0) eqn:E0.
  - apply Qeq_bool_iff in E0. apply Qabs_case; intros; nra.
  - assert (Hne : ¬ (x == 0)%Q) by (intros H; apply Qeq_bool_iff in H; congruence).
    assert (Hpos : (0 < Qabs x)%Q).
    { revert Hne. apply Qabs_case; intros; lra. }
    pose proof (floorLog2_le _ Hpos) as Hfl.
    set (fl := JS.floorLog2 (Qabs x)) in *.
    set (e := Z.max (fl - 52) (-1074)).
    pose proof (pow2_pos e) as Pe.
    pose proof (roundHalfEven_close (x / JS.pow2 e)) as Hr.
    set (r := inject_Z (JS.roundHalfEven (x / JS.pow2 e))) in *.
    assert (Hd : (r * JS.pow2 e - x == (r - x / JS.pow2 e) * JS.pow2 e)%Q)
      by (field; lra).
    rewrite Hd, Qabs_Qmult, (Qabs_pos (JS.pow2 e)) by lra.
    assert (He : (JS.pow2 e * (1 # 2)
                  <= Qabs x * JS.pow2 (-53) + JS.pow2 (-1075))%Q).
    { destruct (Z.max_spec (fl - 52) (-1074)) as [[_ Hm]|[_ Hm]]; fold e in Hm;
        rewrite Hm.
      - change (JS.pow2 (-1074) * (1 # 2))%Q with (JS.pow2 (-1074) * JS.pow2 (-1))%Q.
        rewrite <- pow2_plus. change (-1074 + -1) with (-1075). nra.
      - replace (fl - 52) with (fl + -52) by lia. rewrite pow2_plus.
        assert (H52 : (JS.pow2 (-52) * (1 # 2) == JS.pow2 (-53))%Q).
        { change (1 # 2) with (JS.pow2 (-1)). rewrite <- pow2_plus. reflexivity. }
        rewrite <- Qmult_assoc, H52. nra. }
    set (u := Qabs (r - x / JS.pow2 e)) in *. clearbody u.
    set (p := JS.pow2 e) in *. clearbody p. nra.
Qed.




(** C7: two goals on screen with one subject and one title are credited
    with the same sessions, each at its full duration, so both show the same
    hours. *)
Theorem same_subject_title_double_counted (backend : Api.Backend)
    (goals : list DailyGoal) (sessions : list StudySession) (today : string)
    (gp1 gp2 : Dashboard.GoalWithProgress) :
  gp1 ∈ Dashboard.displayedGoals backend goals sessions today →
  gp2 ∈ Dashboard.displayedGoals backend goals sessions today →
  subject (Dashboard.goal gp1) = subject (Dashboard.goal gp2) →
  title (Dashboard.goal gp1) = title (Dashboard.goal gp2) →
  let allSessions := Api.getSessions backend sessions None in
  let counted := attributedSessions today (Dashboard.goal gp1) allSessions in
  attributedSessions today (Dashboard.goal gp2) allSessions = counted
  ∧ Dashboard.actualHours gp1
    = JS.toFixed1 (JS.sum (durationMinutes <$> counted) / 60)
  ∧ Dashboard.actualHours gp2
    = JS.toFixed1 (JS.sum (durationMinutes <$> counted) / 60).
Proof.
  intros H1 H2 Hs Ht. cbv zeta.
  apply displayedGoals_elem in H1 as [_ E1]. apply displayedGoals_elem in H2 as [_ E2].
  assert (Hc : attributedSessions today (Dashboard.goal gp2)
                 (Api.getSessions backend sessions None)
               = attributedSessions today (Dashboard.goal gp1)
                   (Api.getSessions backend sessions None)).
  { unfold attributedSessions. apply list_filter_iff. intros s. rewrite Hs, Ht. tauto. }
  split; [exact Hc|]. split.
  - rewrite E1 at 1. reflexivity.
  - rewrite E2 at 1. unfold exactHours. rewrite Hc. reflexivity.
Qed.

(** ** Average confidence *)

(** C5: with no confidence entry the analytics view computes the
    average 0 and prints it as 0%, where the dashboard keeps null and prints
    a dash.  With entries both views compute the rounded mean. *)
Theorem avgConf_empty_is_zero :
  Analytics.avgConf [] = 0
  ∧ Analytics.renderAvgConfidence (Analytics.avgConf []) = "0%"
  ∧ meanConfidence [] = None
  ∧ Dashboard.avgConfidence [] = meanConfidence []
  ∧ Dashboard.renderAvgConfidence (Dashboard.avgConfidence []) = "-"
  ∧ (∀ allConf, allConf ≠ [] →
       Some (Analytics.avgConf allConf) = meanConfidence allConf
       ∧ Dashboard.avgConfidence allConf = meanConfidence allConf).
Proof.
  repeat split; try reflexivity.
  - destruct allConf as [|x l]; [contradiction|]. reflexivity.
  - destruct allConf as [|x l]; [contradiction|]. reflexivity.
Qed.

(** ** Printing and parsing dates *)

Lemma digitVal_digit (n : Z) : 0 ≤ n ≤ 9 → JSDate.digitVal (JSDate.digit n) = Some n.
Proof.
  intros Hn. unfold JSDate.digitVal, JSDate.digit.
  rewrite N_ascii_embedding by lia.
  replace (Z.of_N (48 + Z.to_N n)) with (48 + n) by lia.
  destruct (Z.leb_spec 48 (48 + n)); [|lia].
  destruct (Z.leb_spec (48 + n) 57); [|lia].
  simpl. f_equal. lia.
Qed.

Lemma digit_compare (a b : Z) :
  0 ≤ a ≤ 9 → 0 ≤ b ≤ 9 → Ascii.compare (JSDate.digit a) (JSDate.digit b) = (a ?= b).
Proof.
  intros Ha Hb. unfold Ascii.compare, JSDate.digit.
  rewrite !N_ascii_embedding by lia.
  rewrite <- N2Z.inj_compare, !N2Z.inj_add, !Z2N.id by lia.
  apply Z.add_compare_mono_l.
Qed.

(** Decimal digits of numbers below 10000 and below 100. *)
Lemma digits4 (y : Z) :
  0 ≤ y ≤ 9999 →
  0 ≤ y / 1000 ≤ 9 ∧ 0 ≤ y / 100 mod 10 ≤ 9
  ∧ 0 ≤ y mod 100 / 10 ≤ 9 ∧ 0 ≤ y mod 100 mod 10 ≤ 9
  ∧ y = 1000 * (y / 1000) + 100 * (y / 100 mod 10)
        + 10 * (y mod 100 / 10) + y mod 100 mod 10.
Proof. intros Hy. Z.div_mod_to_equations. lia. Qed.

Lemma digits2 (m : Z) :
  0 ≤ m ≤ 99 →
  0 ≤ m / 10 ≤ 9 ∧ 0 ≤ m mod 10 ≤ 9 ∧ m = 10 * (m / 10) + m mod 10.
Proof. intros Hm. Z.div_mod_to_equations. lia. Qed.

Lemma validDate_bounds (c : JSDate.civil) :
  JSDate.validDate c = true →
  1 ≤ JSDate.month c ≤ 12 ∧ 1 ≤ JSDate.day c ≤ 31
  ∧ JSDate.day c ≤ JSDate.daysInMonth (JSDate.year c) (JSDate.month c).
Proof.
  unfold JSDate.validDate. rewrite !andb_true_iff, !Z.leb_le.
  intros [[[? ?] ?] Hd]. repeat split; try lia.
  revert Hd. unfold JSDate.daysInMonth.
  case_ifs; lia.
Qed.

(** The printed form of a date, character by character. *)
Lemma toISODate_chars (c : JSDate.civil) :
  0 ≤ JSDate.year c ≤ 9999 →
  JSDate.toISODate c
  = Some (String (JSDate.digit (JSDate.year c / 1000))
         (String (JSDate.digit (JSDate.year c / 100 mod 10))
         (String (JSDate.digit (JSDate.year c mod 100 / 10))
         (String (JSDate.digit (JSDate.year c mod 100 mod 10))
         (String "-"
         (String (JSDate.digit (JSDate.month c / 10))
         (String (JSDate.digit (JSDate.month c mod 10))
         (String "-"
         (String (JSDate.digit (JSDate.day c / 10))
         (String (JSDate.digit (JSDate.day c mod 10)) "")))))))))).
Proof.
  intros Hy. unfold JSDate.toISODate.
  destruct (Z.leb_spec 0 (JSDate.year c)); [|lia].
  destruct (Z.leb_spec (JSDate.year c) 9999); [|lia].
  reflexivity.
Qed.

Lemma compare_digit_strings (a1 a2 a3 a4 a5 a6 a7 a8 b1 b2 b3 b4 b5 b6 b7 b8 : Z) :
  0 ≤ a1 ≤ 9 → 0 ≤ a2 ≤ 9 → 0 ≤ a3 ≤ 9 → 0 ≤ a4 ≤ 9 →
  0 ≤ a5 ≤ 9 → 0 ≤ a6 ≤ 9 → 0 ≤ a7 ≤ 9 → 0 ≤ a8 ≤ 9 →
  0 ≤ b1 ≤ 9 → 0 ≤ b2 ≤ 9 → 0 ≤ b3 ≤ 9 → 0 ≤ b4 ≤ 9 →
  0 ≤ b5 ≤ 9 → 0 ≤ b6 ≤ 9 → 0 ≤ b7 ≤ 9 → 0 ≤ b8 ≤ 9 →
  String.compare
    (String (JSDate.digit a1) (String (JSDate.digit a2) (String (JSDate.digit a3)
    (String (JSDate.digit a4) (String "-" (String (JSDate.digit a5)
    (String (JSDate.digit a6) (String "-" (String (JSDate.digit a7)
    (String (JSDate.digit a8) ""))))))))))
    (String (JSDate.digit b1) (String (JSDate.digit b2) (String (JSDate.digit b3)
    (String (JSDate.digit b4) (String "-" (String (JSDate.digit b5)
    (String (JSDate.digit b6) (String "-" (String (JSDate.digit b7)
    (String (JSDate.digit b8) ""))))))))))
  = ((1000 * a1 + 100 * a2 + 10 * a3 + a4) * 10000 + (10 * a5 + a6) * 100
     + (10 * a7 + a8)
     ?= (1000 * b1 + 100 * b2 + 10 * b3 + b4) * 10000 + (10 * b5 + b6) * 100
        + (10 * b7 + b8)).
Proof.
  intros. cbn [String.compare].
  rewrite !digit_compare by assumption.
  change (Ascii.compare "-" "-") with Eq. cbv iota.
  repeat (match goal with
          | |- context [?x ?= ?y] =>
              is_var x; is_var y; destruct (Z.compare_spec x y); [subst x|..]
          end);
    symmetry;
    first [ apply Z.compare_eq_iff; lia
          | apply Z.compare_lt_iff; lia
          | apply Z.compare_gt_iff; lia ].
Qed.

(** Only years 0000 to 9999 are printed. *)
Lemma toISODate_range (c : JSDate.civil) (s : string) :
  JSDate.toISODate c = Some s → 0 ≤ JSDate.year c ≤ 9999.
Proof.
  unfold JSDate.toISODate.
  destruct (Z.leb_spec 0 (JSDate.year c)), (Z.leb_spec (JSDate.year c) 9999);
    simpl; intros; try discriminate; lia.
Qed.

(** Printed dates compare as their keys do. *)
Lemma compare_iso (a b : JSDate.civil) (sa sb : string) :
  JSDate.validDate a = true → JSDate.validDate b = true →
  JSDate.toISODate a = Some sa → JSDate.toISODate b = Some sb →
  String.compare sa sb = (dateKey a ?= dateKey b).
Proof.
  intros Va Vb Ha Hb.
  pose proof (toISODate_range _ _ Ha) as Ra.
  pose proof (toISODate_range _ _ Hb) as Rb.
  rewrite toISODate_chars in Ha, Hb by assumption.
  injection Ha as <-. injection Hb as <-.
  apply validDate_bounds in Va as (Ma & Da & _), Vb as (Mb & Db & _).
  destruct (digits4 _ Ra) as (? & ? & ? & ? & Ea).
  destruct (digits4 _ Rb) as (? & ? & ? & ? & Eb).
  destruct (digits2 (JSDate.month a)) as (? & ? & Ema); [lia|].
  destruct (digits2 (JSDate.month b)) as (? & ? & Emb); [lia|].
  destruct (digits2 (JSDate.day a)) as (? & ? & Eda); [lia|].
  destruct (digits2 (JSDate.day b)) as (? & ? & Edb); [lia|].
  rewrite compare_digit_strings by assumption.
  unfold dateKey. rewrite <- Ea, <- Eb, <- Ema, <- Emb, <- Eda, <- Edb.
  reflexivity.
Qed.

Lemma toISODate_is_Some (c : JSDate.civil) :
  0 ≤ JSDate.year c ≤ 9999 → is_Some (JSDate.toISODate c).
Proof. intros H. rewrite toISODate_chars by exact H. eauto. Qed.

(** Parsing gives back the date that was printed. *)
Lemma parse_toISODate (c : JSDate.civil) (s : string) :
  JSDate.validDate c = true → JSDate.toISODate c = Some s →
  JSDate.parseISODate s = Some c.
Proof.
  intros V H. pose proof (toISODate_range _ _ H) as R.
  rewrite toISODate_chars in H by exact R. injection H as <-.
  pose proof (validDate_bounds _ V) as (M & D & _).
  destruct (digits4 _ R) as (? & ? & ? & ? & Ey).
  destruct (digits2 (JSDate.month c)) as (? & ? & Em); [lia|].
  destruct (digits2 (JSDate.day c)) as (? & ? & Ed); [lia|].
  unfold JSDate.parseISODate.
  rewrite !digitVal_digit by assumption. simpl.
  rewrite <- Ey, <- Em, <- Ed.
  destruct c as [y m d]; simpl in *. rewrite V. reflexivity.
Qed.

(** ** One day back *)

Lemma prevDay_valid (c : JSDate.civil) :
  JSDate.validDate c = true → JSDate.validDate (JSDate.prevDay c) = true.
Proof.
  intros V. pose proof (validDate_bounds _ V) as (M & D & Hd).
  unfold JSDate.prevDay.
  destruct (Z.ltb_spec 1 (JSDate.day c)).
  - unfold JSDate.validDate in *. simpl.
    rewrite !andb_true_iff, !Z.leb_le in *. lia.
  - destruct (Z.ltb_spec 1 (JSDate.month c)); [|reflexivity].
    unfold JSDate.validDate. simpl.
    rewrite !andb_true_iff, !Z.leb_le. repeat split; try lia.
    unfold JSDate.daysInMonth.
    case_ifs; lia.
Qed.

Lemma prevDay_dateKey (c : JSDate.civil) :
  JSDate.validDate c = true → dateKey (JSDate.prevDay c) < dateKey c.
Proof.
  intros V. pose proof (validDate_bounds _ V) as (M & D & Hd).
  unfold JSDate.prevDay, dateKey.
  destruct (Z.ltb_spec 1 (JSDate.day c)); simpl; [lia|].
  destruct (Z.ltb_spec 1 (JSDate.month c)); simpl; [|lia].
  assert (JSDate.daysInMonth (JSDate.year c) (JSDate.month c - 1) ≤ 31).
  { unfold JSDate.daysInMonth.
    case_ifs; lia. }
  lia.
Qed.

Lemma daysBeforeYear_succ (y : Z) :
  daysBeforeYear (y + 1) = daysBeforeYear y + 365 + (if JSDate.isLeap y then 1 else 0).
Proof.
  unfold daysBeforeYear, JSDate.isLeap.
  destruct (Z.eqb_spec (y mod 4) 0), (Z.eqb_spec (y mod 100) 0),
    (Z.eqb_spec (y mod 400) 0); simpl; Z.div_mod_to_equations; lia.
Qed.

Lemma prevDay_dayNumber (c : JSDate.civil) :
  JSDate.validDate c = true → dayNumber (JSDate.prevDay c) = dayNumber c - 1.
Proof.
  intros V. pose proof (validDate_bounds _ V) as (M & D & Hd).
  unfold JSDate.prevDay, dayNumber.
  destruct (Z.ltb_spec 1 (JSDate.day c)); simpl; [lia|].
  destruct (Z.ltb_spec 1 (JSDate.month c)); simpl.
  - assert (Hm : daysBeforeMonth (JSDate.year c) (JSDate.month c)
                 = daysBeforeMonth (JSDate.year c) (JSDate.month c - 1)
                   + JSDate.daysInMonth (JSDate.year c) (JSDate.month c - 1)).
    { assert (Hcases : JSDate.month c = 2 ∨ JSDate.month c = 3 ∨ JSDate.month c = 4
                       ∨ JSDate.month c = 5 ∨ JSDate.month c = 6 ∨ JSDate.month c = 7
                       ∨ JSDate.month c = 8 ∨ JSDate.month c = 9 ∨ JSDate.month c = 10
                       ∨ JSDate.month c = 11 ∨ JSDate.month c = 12) by lia.
      unfold daysBeforeMonth, JSDate.daysInMonth.
      repeat destruct Hcases as [-> | Hcases]; try rewrite Hcases; simpl;
        destruct (JSDate.isLeap (JSDate.year c)); reflexivity. }
    lia.
  - replace (JSDate.month c) with 1 by lia.
    pose proof (daysBeforeYear_succ (JSDate.year c - 1)) as Hy.
    replace (JSDate.year c - 1 + 1) with (JSDate.year c) in Hy by lia.
    unfold daysBeforeMonth. simpl.
    destruct (JSDate.isLeap (JSDate.year c - 1)); lia.
Qed.

Lemma prevDay_year (c : JSDate.civil) :
  JSDate.validDate c = true → 0 ≤ JSDate.year c → 2 ≤ dayNumber c →
  0 ≤ JSDate.year (JSDate.prevDay c) ≤ JSDate.year c.
Proof.
  intros V Hy Hn. pose proof (validDate_bounds _ V) as (M & D & _).
  unfold JSDate.prevDay.
  destruct (Z.ltb_spec 1 (JSDate.day c)); simpl; [lia|].
  destruct (Z.ltb_spec 1 (JSDate.month c)); simpl; [lia|].
  assert (JSDate.year c ≠ 0); [|lia].
  intros E. unfold dayNumber in Hn. rewrite E in Hn.
  replace (JSDate.month c) with 1 in Hn by lia.
  replace (JSDate.day c) with 1 in Hn by lia.
  vm_compute in Hn. apply Hn. reflexivity.
Qed.

Lemma minusDays_S (i : nat) (c : JSDate.civil) :
  JSDate.minusDays (S i) c = JSDate.prevDay (JSDate.minusDays i c).
Proof. reflexivity. Qed.

Lemma minusDays_prevDay (i : nat) (c : JSDate.civil) :
  JSDate.minusDays i (JSDate.prevDay c) = JSDate.minusDays (S i) c.
Proof. unfold JSDate.minusDays. rewrite Nat.iter_succ_r. reflexivity. Qed.

(** Going [i] days back stays on the calendar as long as day 1 is not
    passed, and lowers the ordinal by [i]. *)
Lemma minusDays_calendarDay (c : JSDate.civil) (i : nat) :
  calendarDay c → Z.of_nat i + 1 ≤ dayNumber c →
  calendarDay (JSDate.minusDays i c)
  ∧ dayNumber (JSDate.minusDays i c) = dayNumber c - Z.of_nat i.
Proof.
  intros [V R]. induction i as [|i IH]; intros Hn.
  - simpl. split; [split; assumption | lia].
  - destruct IH as [[Vi Ri] Ni]; [lia|]. rewrite minusDays_S.
    pose proof (prevDay_year _ Vi) as Hy.
    split; [split|].
    + apply prevDay_valid, Vi.
    + lia.
    + rewrite prevDay_dayNumber by exact Vi. lia.
Qed.

Lemma minusDays_is_Some (c : JSDate.civil) (i : nat) :
  calendarDay c → Z.of_nat i + 1 ≤ dayNumber c →
  is_Some (JSDate.toISODate (JSDate.minusDays i c)).
Proof.
  intros Hc Hn. destruct (minusDays_calendarDay c i Hc Hn) as [[_ R] _].
  apply toISODate_is_Some, R.
Qed.

(** Two printed dates are equal only if the dates are. *)
Lemma toISODate_inj (a b : JSDate.civil) (s : string) :
  JSDate.validDate a = true → JSDate.validDate b = true →
  JSDate.toISODate a = Some s → JSDate.toISODate b = Some s → a = b.
Proof.
  intros Va Vb Ha Hb.
  apply parse_toISODate in Ha, Hb; try assumption. congruence.
Qed.

(** Days back from one day are different days. *)
Lemma minusDays_inj (c : JSDate.civil) (i j : nat) :
  calendarDay c → Z.of_nat i + 1 ≤ dayNumber c → Z.of_nat j + 1 ≤ dayNumber c →
  JSDate.minusDays i c = JSDate.minusDays j c → i = j.
Proof.
  intros Hc Hi Hj E.
  destruct (minusDays_calendarDay c i Hc Hi) as [_ Ni].
  destruct (minusDays_calendarDay c j Hc Hj) as [_ Nj].
  rewrite E in Ni. lia.
Qed.

(** ** One day on *)

Lemma minusDays_valid (c : JSDate.civil) (i : nat) :
  JSDate.validDate c = true → JSDate.validDate (JSDate.minusDays i c) = true.
Proof.
  intros V. induction i as [|i IH]; [exact V|].
  rewrite minusDays_S. apply prevDay_valid, IH.
Qed.

Lemma daysInMonth_bounds (y m : Z) : 28 ≤ JSDate.daysInMonth y m ≤ 31.
Proof. unfold JSDate.daysInMonth. case_ifs; lia. Qed.

Lemma nextDay_valid (c : JSDate.civil) :
  JSDate.validDate c = true → JSDate.validDate (JSDate.nextDay c) = true.
Proof.
  intros V. pose proof (validDate_bounds _ V) as (M & D & Hd).
  unfold JSDate.nextDay.
  destruct (Z.ltb_spec (JSDate.day c) (JSDate.daysInMonth (JSDate.year c) (JSDate.month c))).
  - unfold JSDate.validDate in *. simpl.
    rewrite !andb_true_iff, !Z.leb_le in *. lia.
  - destruct (Z.ltb_spec (JSDate.month c) 12); [|reflexivity].
    unfold JSDate.validDate. simpl.
    pose proof (daysInMonth_bounds (JSDate.year c) (JSDate.month c + 1)).
    rewrite !andb_true_iff, !Z.leb_le. lia.
Qed.

Lemma nextDay_dayNumber (c : JSDate.civil) :
  JSDate.validDate c = true → dayNumber (JSDate.nextDay c) = dayNumber c + 1.
Proof.
  intros V. pose proof (nextDay_valid c V) as V'.
  pose proof (prevDay_dayNumber _ V') as H.
  assert (E : JSDate.prevDay (JSDate.nextDay c) = c).
  { pose proof (validDate_bounds _ V) as (M & D & Hd).
    destruct c as [y m d]. unfold JSDate.prevDay, JSDate.nextDay. simpl in *.
    destruct (Z.ltb_spec d (JSDate.daysInMonth y m)); simpl.
    - destruct (Z.ltb_spec 1 (d + 1)); [|lia]. f_equal. lia.
    - destruct (Z.ltb_spec m 12); simpl.
      + destruct (Z.ltb_spec 1 (m + 1)); [|lia].
        replace (m + 1 - 1) with m by lia. f_equal. lia.
      + replace (y + 1 - 1) with y by lia. replace m with 12 in * by lia.
        change (JSDate.daysInMonth y 12) with 31 in *. f_equal. lia. }
  rewrite E in H. lia.
Qed.

Lemma minusDays_dayNumber (c : JSDate.civil) (i : nat) :
  JSDate.validDate c = true →
  dayNumber (JSDate.minusDays i c) = dayNumber c - Z.of_nat i.
Proof.
  intros V. induction i as [|i IH]; [simpl; lia|].
  rewrite minusDays_S, prevDay_dayNumber by (apply minusDays_valid, V). lia.
Qed.

Lemma iter_nextDay (c : JSDate.civil) (n : nat) :
  JSDate.validDate c = true →
  JSDate.validDate (Nat.iter n JSDate.nextDay c) = true
  ∧ dayNumber (Nat.iter n JSDate.nextDay c) = dayNumber c + Z.of_nat n.
Proof.
  intros V. induction n as [|n [IHv IHn]]; [simpl; split; [exact V | lia]|].
  change (Nat.iter (S n) JSDate.nextDay c)
    with (JSDate.nextDay (Nat.iter n JSDate.nextDay c)).
  split; [apply nextDay_valid, IHv|].
  rewrite nextDay_dayNumber by exact IHv. lia.
Qed.

(** [plusDays] moves the ordinal of a day by the number of days. *)
Lemma plusDays_dayNumber (k : Z) (c : JSDate.civil) :
  JSDate.validDate c = true →
  JSDate.validDate (JSDate.plusDays k c) = true
  ∧ dayNumber (JSDate.plusDays k c) = dayNumber c + k.
Proof.
  intros V. unfold JSDate.plusDays. destruct (Z.leb_spec 0 k).
  - destruct (iter_nextDay c (Z.to_nat k) V) as [Hv Hn]. split; [exact Hv|]. lia.
  - split; [apply minusDays_valid, V|]. rewrite minusDays_dayNumber by exact V. lia.
Qed.

(** ** Time values *)

Lemma msPerDay_eq : Clock.msPerDay = 86400000.
Proof. reflexivity. Qed.

(** Whole days back from a [Date] keep its time of day. *)
Lemma addMs_days_back (t : Clock.instant) (i : nat) :
  0 ≤ Clock.msOfDay t < Clock.msPerDay →
  Clock.addMs t (- Z.of_nat i * Clock.msPerDay)
  = Clock.mkInstant (JSDate.minusDays i (Clock.utcDay t)) (Clock.msOfDay t).
Proof.
  intros Hms. unfold Clock.addMs. cbv zeta. rewrite msPerDay_eq in *.
  assert (Hq : (Clock.msOfDay t + - Z.of_nat i * 86400000) / 86400000 = - Z.of_nat i)
    by (Z.div_mod_to_equations; lia).
  assert (Hr : (Clock.msOfDay t + - Z.of_nat i * 86400000) mod 86400000
               = Clock.msOfDay t)
    by (Z.div_mod_to_equations; lia).
  rewrite Hq, Hr. f_equal. unfold JSDate.plusDays.
  destruct (Z.leb_spec 0 (- Z.of_nat i)).
  - replace i with 0%nat by lia. reflexivity.
  - f_equal. lia.
Qed.

(** The time value of a [Date] moved by some milliseconds. *)
Lemma getTime_addMs (t : Clock.instant) (delta : Z) :
  JSDate.validDate (Clock.utcDay t) = true →
  Clock.getTime (Clock.addMs t delta) = Clock.getTime t + delta
  ∧ JSDate.validDate (Clock.utcDay (Clock.addMs t delta)) = true
  ∧ 0 ≤ Clock.msOfDay (Clock.addMs t delta) < Clock.msPerDay.
Proof.
  intros V. unfold Clock.getTime, Clock.addMs, Clock.midnight. cbv zeta.
  cbn [Clock.utcDay Clock.msOfDay].
  destruct (plusDays_dayNumber ((Clock.msOfDay t + delta) / Clock.msPerDay) _ V)
    as [Hv Hn].
  rewrite Hn, msPerDay_eq. split; [|split; [exact Hv|]];
    Z.div_mod_to_equations; lia.
Qed.

(** Where no change of the clocks is felt, [setDate] moves the UTC day as
    it moves the local one. *)
Lemma setDateBack_sameOffset (z : Clock.zone) (t : Clock.instant) (i : nat) :
  0 ≤ Clock.msOfDay t < Clock.msPerDay →
  sameOffset z (Clock.getTime t) i →
  Clock.setDateBack z t i
  = Clock.mkInstant (JSDate.minusDays i (Clock.utcDay t)) (Clock.msOfDay t).
Proof.
  intros Hms Hz. unfold Clock.setDateBack. cbv zeta.
  unfold sameOffset in Hz. rewrite Hz.
  rewrite <- (addMs_days_back t i Hms). f_equal. lia.
Qed.

Lemma fixedOffset_sameOffset (z : Clock.zone) (t : Z) (i : nat) :
  fixedOffset z → sameOffset z t i.
Proof.
  intros [o Ho]. unfold sameOffset.
  rewrite (proj2 (Ho _)), (proj1 (Ho _)). reflexivity.
Qed.

(** ** The streak loop *)

Lemma isoPrevDay_toISODate (z : Clock.zone) (c : JSDate.civil) (s : string) :
  JSDate.validDate c = true → JSDate.toISODate c = Some s →
  sameOffset z (Clock.midnight c) 1 →
  Analytics.isoPrevDay z s = JSDate.toISODate (JSDate.prevDay c).
Proof.
  intros V H Hz. unfold Analytics.isoPrevDay.
  rewrite (parse_toISODate _ _ V H). cbn [mbind option_bind].
  rewrite setDateBack_sameOffset; [reflexivity | simpl; rewrite msPerDay_eq; lia |].
  unfold Clock.getTime. cbn [Clock.utcDay Clock.msOfDay]. rewrite Z.add_0_r. exact Hz.
Qed.

Lemma streakLoop_run (z : Clock.zone) (dates : gset string) (k : nat) :
  ∀ (fuel : nat) (c : JSDate.civil) (s : string) (acc : nat),
    JSDate.validDate c = true → JSDate.toISODate c = Some s →
    (∀ i, (i < k)%nat → sameOffset z (Clock.midnight (JSDate.minusDays i c)) 1) →
    (∀ i, (i < k)%nat → visited dates c i) →
    (∃ sk, JSDate.toISODate (JSDate.minusDays k c) = Some sk ∧ sk ∉ dates) →
    (k < fuel)%nat →
    Analytics.streakLoop fuel z dates s acc = Some (acc + k)%nat.
Proof.
  induction k as [|k IH]; intros fuel c s acc V Hs Hz Hrun Hend Hfuel.
  - destruct fuel as [|fuel]; [lia|]. destruct Hend as (sk & Hsk & Hnot).
    simpl in Hsk. rewrite Hs in Hsk. injection Hsk as <-.
    simpl. rewrite decide_False by exact Hnot. f_equal. lia.
  - destruct fuel as [|fuel]; [lia|].
    destruct (Hrun 0%nat) as (s0 & Hs0 & Hin); [lia|].
    simpl in Hs0. rewrite Hs in Hs0. injection Hs0 as <-.
    simpl. rewrite decide_True by exact Hin.
    rewrite (isoPrevDay_toISODate z _ _ V Hs) by (apply (Hz 0%nat); lia).
    assert (Hnext : is_Some (JSDate.toISODate (JSDate.prevDay c))).
    { destruct k as [|k].
      - destruct Hend as (sk & Hsk & _). simpl in Hsk. eauto.
      - destruct (Hrun 1%nat) as (s1 & Hs1 & _); [lia|]. simpl in Hs1. eauto. }
    destruct Hnext as [s' Hs']. rewrite Hs'. simpl.
    rewrite (IH fuel (JSDate.prevDay c) s' (S acc)).
    + f_equal. lia.
    + apply prevDay_valid, V.
    + exact Hs'.
    + intros i Hi. rewrite minusDays_prevDay. apply Hz. lia.
    + intros i Hi. destruct (Hrun (S i)) as (si & Hsi & Hini); [lia|].
      exists si. rewrite minusDays_prevDay. auto.
    + destruct Hend as (sk & Hsk & Hnot). exists sk. rewrite minusDays_prevDay. auto.
    + lia.
Qed.

(** The first index at which a decidable property fails. *)
Lemma first_failure_below (P : nat → Prop) `{∀ i, Decision (P i)} (n : nat) :
  (∀ i, (i < n)%nat → P i)
  ∨ ∃ k, (k < n)%nat ∧ (∀ i, (i < k)%nat → P i) ∧ ¬ P k.
Proof.
  induction n as [|n [IH|(k & Hk & Hrun & Hnot)]].
  - left. intros i Hi. lia.
  - destruct (decide (P n)) as [Hn|Hn].
    + left. intros i Hi. destruct (decide (i = n)) as [->|]; [exact Hn|].
      apply IH. lia.
    + right. exists n. auto.
  - right. exists k. split; [lia|auto].
Qed.

Global Instance visited_dec (dates : gset string) (c : JSDate.civil) (i : nat) :
  Decision (visited dates c i).
Proof.
  unfold visited. destruct (JSDate.toISODate (JSDate.minusDays i c)) as [s|] eqn:E.
  - destruct (decide (s ∈ dates)) as [Hin|Hnot].
    + left. eauto.
    + right. intros (s' & [= <-] & Hin). contradiction.
  - right. intros (s' & [=] & _).
Qed.

Lemma elem_of_sessionDatesSet (sessions : list StudySession) (s : string) :
  s ∈ Analytics.sessionDatesSet sessions ↔ ∃ x, x ∈ sessions ∧ sdate x = s.
Proof.
  unfold Analytics.sessionDatesSet. rewrite elem_of_list_to_set, list_elem_of_fmap.
  split; intros (x & H1 & H2); exists x; auto.
Qed.

Lemma visited_sessionOn (sessions : list StudySession) (c : JSDate.civil) (i : nat) :
  visited (Analytics.sessionDatesSet sessions) c i
  ↔ sessionOn sessions (JSDate.minusDays i c).
Proof.
  unfold visited, sessionOn. split.
  - intros (s & Hs & Hin). apply elem_of_sessionDatesSet in Hin as (x & Hx & <-). eauto.
  - intros (x & Hx & Hs). exists (sdate x). split; [exact Hs|].
    apply elem_of_sessionDatesSet. eauto.
Qed.

(** More consecutive days than there are sessions cannot all have one. *)
Lemma visited_not_all (sessions : list StudySession) (c : JSDate.civil) :
  calendarDay c → Z.of_nat (length sessions) + 1 ≤ dayNumber c →
  ¬ ∀ i, (i ≤ length sessions)%nat →
         visited (Analytics.sessionDatesSet sessions) c i.
Proof.
  intros Hc Hn Hall.
  set (n := length sessions) in *.
  assert (Hs : ∀ i, (i ≤ n)%nat →
                    ∃ s, JSDate.toISODate (JSDate.minusDays i c) = Some s
                         ∧ s ∈ sdate <$> sessions).
  { intros i Hi. destruct (Hall i Hi) as (s & Hs & Hin). exists s. split; [exact Hs|].
    apply elem_of_sessionDatesSet in Hin as (x & Hx & <-).
    apply list_elem_of_fmap. eauto. }
  clear Hall.
  set (f := λ i, default "" (JSDate.toISODate (JSDate.minusDays i c))).
  assert (Hf : ∀ i, (i ≤ n)%nat →
                    JSDate.toISODate (JSDate.minusDays i c) = Some (f i)).
  { intros i Hi. unfold f. destruct (Hs i Hi) as (s & -> & _). reflexivity. }
  assert (Hnd : NoDup (f <$> seq 0 (S n))).
  { apply NoDup_fmap_2_strong; [|apply NoDup_seq].
    intros i j Hi Hj E. apply elem_of_seq in Hi, Hj.
    destruct (minusDays_calendarDay c i Hc) as [[Vi _] _]; [lia|].
    destruct (minusDays_calendarDay c j Hc) as [[Vj _] _]; [lia|].
    apply (minusDays_inj c i j Hc); [lia..|].
    apply (toISODate_inj _ _ (f i)); [assumption..|apply Hf; lia|].
    rewrite E. apply Hf. lia. }
  assert (Hle : (length (f <$> seq 0 (S n)) ≤ length (sdate <$> sessions))%nat).
  { apply submseteq_length, NoDup_submseteq; [exact Hnd|].
    intros s Hin. apply list_elem_of_fmap in Hin as (i & -> & Hi).
    apply elem_of_seq in Hi. destruct (Hs i) as (s' & Hs' & Hin'); [lia|].
    rewrite Hf in Hs' by lia. congruence. }
  rewrite !length_fmap, length_seq in Hle. lia.
Qed.

(** From a day on the calendar the loop counts the run of days with
    sessions that ends there, and stops. *)
Lemma streakLoop_from (z : Clock.zone) (sessions : list StudySession)
    (c : JSDate.civil) (s : string) :
  calendarDay c → Z.of_nat (length sessions) + 1 ≤ dayNumber c →
  JSDate.toISODate c = Some s →
  (∀ i, (i < length sessions)%nat →
        sameOffset z (Clock.midnight (JSDate.minusDays i c)) 1) →
  ∃ k : nat,
    (k ≤ length sessions)%nat
    ∧ (∀ fuel acc, (k < fuel)%nat →
         Analytics.streakLoop fuel z (Analytics.sessionDatesSet sessions) s acc
         = Some (acc + k)%nat)
    ∧ (∀ i, (i < k)%nat → sessionOn sessions (JSDate.minusDays i c))
    ∧ ¬ sessionOn sessions (JSDate.minusDays k c).
Proof.
  intros Hc Hn Hs Hz. set (dates := Analytics.sessionDatesSet sessions).
  destruct (first_failure_below (visited dates c) (S (length sessions)))
    as [Hall|(k & Hk & Hrun & Hnot)].
  { exfalso. apply (visited_not_all sessions c Hc Hn). intros i Hi. apply Hall. lia. }
  exists k. split; [lia|]. split; [|split].
  - intros fuel acc Hfuel. destruct Hc as [V R].
    apply (streakLoop_run z dates k fuel c s acc V Hs); [|exact Hrun| |exact Hfuel].
    { intros i Hi. apply Hz. lia. }
    destruct (minusDays_is_Some c k (conj V R)) as [sk Hsk]; [lia|].
    exists sk. split; [exact Hsk|]. intros Hin. apply Hnot. exists sk. auto.
  - intros i Hi. apply visited_sessionOn, Hrun, Hi.
  - intros Hon. apply Hnot, visited_sessionOn, Hon.
Qed.

(** Where no change of the clocks is felt on the days the loop walks over,
    the streak is the length of the run of consecutive days with sessions that
    ends today, or yesterday when today has none, and 0 when neither day has
    one; the loop reaches it with fuel beyond the number of sessions. *)
Lemma currentStreak_calendar (z : Clock.zone) (now : Clock.instant)
    (sessions : list StudySession) :
  let today := Clock.utcDay now in
  calendarDay today →
  0 ≤ Clock.msOfDay now < Clock.msPerDay →
  Z.of_nat (length sessions) + 2 ≤ dayNumber today →
  (∀ i, (i ≤ length sessions)%nat →
        sameOffset z (Clock.midnight (JSDate.minusDays i today)) 1) →
  ∃ n : nat,
    (∀ fuel, (length sessions < fuel)%nat →
       Analytics.currentStreak fuel z now sessions = Some n)
    ∧ streakIs sessions today n.
Proof.
  intros today Hc Hms Hn Hz.
  destruct (minusDays_is_Some today 0 Hc) as [td Ht]; [lia|].
  destruct (minusDays_is_Some today 1 Hc) as [yesterday Hy]; [lia|].
  destruct (minusDays_calendarDay today 1 Hc) as [Hc1 Hn1]; [lia|].
  simpl in Ht, Hy.
  assert (Ht' : td ∈ Analytics.sessionDatesSet sessions ↔ sessionOn sessions today).
  { rewrite <- (visited_sessionOn sessions today 0). unfold visited. simpl.
    rewrite Ht. split; [eauto|]. intros (s & [= <-] & H). exact H. }
  assert (Hy' : yesterday ∈ Analytics.sessionDatesSet sessions
                ↔ sessionOn sessions (JSDate.minusDays 1 today)).
  { rewrite <- (visited_sessionOn sessions today 1). unfold visited. simpl.
    rewrite Hy. split; [eauto|]. intros (s & [= <-] & H). exact H. }
  unfold Analytics.currentStreak. fold today.
  change (- 86400000) with (- Z.of_nat 1 * Clock.msPerDay).
  rewrite (addMs_days_back now 1 Hms). cbn [Clock.utcDay]. fold today.
  change (JSDate.minusDays 1 today) with (JSDate.prevDay today) in *.
  rewrite Ht, Hy. simpl.
  destruct (decide (td ∈ Analytics.sessionDatesSet sessions)) as [Hin|Hout].
  - destruct (streakLoop_from z sessions today td Hc) as (k & Hk & Hloop & Hrun & Hend);
      [lia|exact Ht|intros i Hi; apply Hz; lia|].
    exists k. split; [intros fuel Hf; apply (Hloop fuel 0%nat); lia|].
    split; [|split].
    + intros _. split; assumption.
    + intros Hno. exfalso. apply Hno, Ht', Hin.
    + intros Hno. exfalso. apply Hno, Ht', Hin.
  - destruct (decide (yesterday ∈ Analytics.sessionDatesSet sessions)) as [Hin|Hout'].
    + destruct (streakLoop_from z sessions (JSDate.prevDay today) yesterday)
        as (k & Hk & Hloop & Hrun & Hend);
        [exact Hc1|simpl in Hn1; lia|exact Hy|
         intros i Hi; rewrite minusDays_prevDay; apply Hz; lia|].
      exists k. split; [intros fuel Hf; apply (Hloop fuel 0%nat); lia|].
      split; [|split].
      * intros Hon. exfalso. apply Hout, Ht', Hon.
      * intros _ _. split.
        -- intros i Hi. rewrite <- minusDays_prevDay. apply Hrun, Hi.
        -- rewrite <- minusDays_prevDay. exact Hend.
      * intros _ Hno. exfalso. apply Hno, Hy', Hin.
    + exists 0%nat. split; [reflexivity|]. split; [|split].
      * intros Hon. exfalso. apply Hout, Ht', Hon.
      * intros _ Hon. exfalso. apply Hout', Hy', Hon.
      * reflexivity.
Qed.

(** The streak of the specification on its two examples: sessions on the
    two days before an empty today give 2, a lone session seven days ago
    gives 0. *)
Lemma streakIs_examples (sessions : list StudySession) (today : JSDate.civil) (n : nat) :
  streakIs sessions today n →
  (¬ sessionOn sessions today →
   sessionOn sessions (JSDate.minusDays 1 today) →
   sessionOn sessions (JSDate.minusDays 2 today) →
   ¬ sessionOn sessions (JSDate.minusDays 3 today) → n = 2%nat)
  ∧ ((∀ i, sessionOn sessions (JSDate.minusDays i today) → i = 7%nat) → n = 0%nat).
Proof.
  intros (H0 & H1 & Hnone). split.
  - intros Hno Hon1 Hon2 Hno3. destruct (H1 Hno Hon1) as [Hdays Hstop].
    destruct (decide (n = 2%nat)) as [|Hne]; [assumption|]. exfalso.
    destruct (decide (n < 2)%nat) as [Hlt|Hge].
    + destruct n as [|[|n]]; [apply Hstop, Hon1 | apply Hstop, Hon2 | lia].
    + apply Hno3. apply (Hdays 2%nat). lia.
  - intros Hlone. apply Hnone.
    + intros Hon. specialize (Hlone 0%nat Hon). discriminate.
    + intros Hon. specialize (Hlone 1%nat Hon). discriminate.
Qed.

(** ** The trend series *)

Lemma toISODate_isoOf (c : JSDate.civil) :
  0 ≤ JSDate.year c ≤ 9999 → JSDate.toISODate c = Some (isoOf c).
Proof.
  intros R. unfold isoOf. destruct (toISODate_is_Some c R) as [s ->]. reflexivity.
Qed.

Lemma initTrendMap_fold (cs : list JSDate.civil) (m : gmap string Q) :
  Forall (λ c, 0 ≤ JSDate.year c ≤ 9999) cs →
  foldl (λ acc c, m ← acc; k ← JSDate.toISODate c; Some (<[k := 0%Q]> m))
        (Some m) cs
  = Some (foldl (λ m k, <[k := 0%Q]> m) m (isoOf <$> cs)).
Proof.
  intros H. revert m. induction H as [|c cs Hc _ IH]; intros m; [reflexivity|].
  simpl. rewrite (toISODate_isoOf c Hc). simpl. apply IH.
Qed.

Lemma lookup_zeroed (ks : list string) (m : gmap string Q) (k : string) :
  foldl (λ m k, <[k := 0%Q]> m) m ks !! k
  = if decide (k ∈ ks) then Some 0%Q else m !! k.
Proof.
  revert m. induction ks as [|k' ks IH]; intros m; cbn [foldl].
  - destruct (decide (k ∈ [])) as [H|_]; [|reflexivity].
    apply elem_of_nil in H. contradiction.
  - rewrite IH. destruct (decide (k ∈ ks)) as [Hin|Hout].
    + rewrite decide_True by (right; exact Hin). reflexivity.
    + destruct (decide (k = k')) as [->|Hne].
      * rewrite decide_True by left. apply lookup_insert_eq.
      * rewrite decide_False by (rewrite elem_of_cons; tauto).
        apply lookup_insert_ne. congruence.
Qed.

(** After the sessions are added, a key of the map holds its old value plus
    the minutes of the sessions of that date, in session order; no key is
    added. *)
Lemma lookup_addToTrend (sessions : list StudySession) (m : gmap string Q) :
  Forall (λ s, JS.inherited (sdate s) = false) sessions →
  ∃ m' : gmap string Q,
    foldl (λ acc s, m ← acc; Analytics.addToTrend m s) (Some m) sessions = Some m'
    ∧ ∀ k, m' !! k
           = (λ v, foldl (λ acc s, acc + durationMinutes s)%Q v
                     (filter (λ s, sdate s = k) sessions)) <$> m !! k.
Proof.
  intros H. revert m. induction H as [|s sessions Hs _ IH]; intros m; cbn [foldl].
  - exists m. split; [reflexivity|]. intros k. rewrite filter_nil.
    destruct (m !! k); reflexivity.
  - cbn [mbind option_bind]. unfold Analytics.addToTrend at 2. rewrite Hs.
    destruct (m !! sdate s) as [v|] eqn:E.
    + destruct (IH (<[sdate s := (v + durationMinutes s)%Q]> m)) as (m' & Hm' & Hk).
      exists m'. split; [exact Hm'|]. intros k. rewrite Hk.
      destruct (decide (sdate s = k)) as [<-|Hne].
      * rewrite filter_cons_True by reflexivity.
        rewrite lookup_insert_eq, E. reflexivity.
      * rewrite filter_cons_False by exact Hne.
        rewrite lookup_insert_ne by exact Hne. reflexivity.
    + destruct (IH m) as (m' & Hm' & Hk).
      exists m'. split; [exact Hm'|]. intros k. rewrite Hk.
      destruct (decide (sdate s = k)) as [<-|Hne].
      * rewrite E. reflexivity.
      * rewrite filter_cons_False by exact Hne. reflexivity.
Qed.

Lemma elem_of_objectKeys (m : gmap string Q) (k : string) :
  k ∈ Analytics.objectKeys m ↔ is_Some (m !! k).
Proof.
  unfold Analytics.objectKeys. rewrite list_elem_of_fmap. split.
  - intros ([k' v] & -> & H). apply elem_of_map_to_list in H. eauto.
  - intros [v H]. exists (k, v). split; [reflexivity|]. apply elem_of_map_to_list, H.
Qed.

Lemma defaultCompare_le (a b : string) :
  cmpLe JS.defaultCompare a b ↔ String.le a b.
Proof.
  unfold cmpLe, JS.defaultCompare, String.le, String.leb.
  destruct (String.compare a b); simpl; split; intros; try lia; try done.
Qed.

(** The default sort puts strings in ascending order. *)
Lemma sort_strings_sorted (l : list string) :
  StronglySorted String.le (JS.sort JS.defaultCompare l).
Proof.
  assert (H : StronglySorted (cmpLe JS.defaultCompare) (JS.sort JS.defaultCompare l)).
  { apply sort_sorted.
    - intros a b. destruct (String.le_total a b) as [H|H];
        apply defaultCompare_le in H; unfold cmpLe in H; auto.
    - intros a b c Hab Hbc. apply defaultCompare_le.
      transitivity b; apply defaultCompare_le; assumption. }
  clear -H. induction H as [|x l' Hs IH Hx]; constructor; [exact IH|].
  eapply Forall_impl; [exact Hx|]. intros y. apply defaultCompare_le.
Qed.

(** A list whose positions are pairwise in order is strongly sorted. *)
Lemma StronglySorted_lookup_2 {A} (R : relation A) (l : list A) :
  (∀ i j a b, (i < j)%nat → l !! i = Some a → l !! j = Some b → R a b) →
  StronglySorted R l.
Proof.
  induction l as [|x l IH]; intros H; constructor.
  - apply IH. intros i j a b Hij Hi Hj. apply (H (S i) (S j)); [lia|assumption..].
  - apply Forall_forall. intros y Hy. apply list_elem_of_lookup in Hy as [j Hj].
    apply (H 0%nat (S j)); [lia|reflexivity|exact Hj].
Qed.

(** Sorting the keys of a map whose keys are those of an ascending list
    without repetition gives that list. *)
Lemma sort_objectKeys (m : gmap string Q) (ks : list string) :
  StronglySorted String.le ks → NoDup ks →
  (∀ k, is_Some (m !! k) ↔ k ∈ ks) →
  JS.sort JS.defaultCompare (Analytics.objectKeys m) = ks.
Proof.
  intros Hs Hnd Hdom. apply (StronglySorted_unique String.le).
  - apply sort_strings_sorted.
  - exact Hs.
  - rewrite sort_Permutation. apply NoDup_Permutation.
    + apply NoDup_fst_map_to_list.
    + exact Hnd.
    + intros k. rewrite elem_of_objectKeys. apply Hdom.
Qed.

Lemma lastDays_lookup (n : nat) (now : JSDate.civil) (i : nat) :
  (i < n)%nat →
  lastDays n now !! i = Some (JSDate.minusDays (n - 1 - i) now).
Proof.
  intros Hi. unfold lastDays.
  rewrite list_lookup_fmap, reverse_lookup by (rewrite length_seq; exact Hi).
  rewrite length_seq, lookup_seq_lt by lia. simpl. do 2 f_equal. lia.
Qed.

Lemma lastDays_length (n : nat) (now : JSDate.civil) : length (lastDays n now) = n.
Proof. unfold lastDays. rewrite length_fmap, length_reverse, length_seq. reflexivity. Qed.

(** Where no change of the clocks is felt within the window, the days
    written are the last [n] days of the calendar in UTC. *)
Lemma windowDays_lastDays (z : Clock.zone) (n : nat) (now : Clock.instant) :
  0 ≤ Clock.msOfDay now < Clock.msPerDay →
  (∀ i, (i < n)%nat → sameOffset z (Clock.getTime now) i) →
  Analytics.windowDays z n now = lastDays n (Clock.utcDay now).
Proof.
  intros Hms Hz. unfold Analytics.windowDays, lastDays.
  apply list_fmap_ext. intros k i Hk.
  rewrite setDateBack_sameOffset; [reflexivity | exact Hms |].
  apply Hz. apply list_elem_of_lookup_2, elem_of_reverse, elem_of_seq in Hk. lia.
Qed.

(** More days back is an earlier date. *)
Lemma minusDays_dateKey_lt (c : JSDate.civil) (a b : nat) :
  JSDate.validDate c = true → (a < b)%nat →
  dateKey (JSDate.minusDays b c) < dateKey (JSDate.minusDays a c).
Proof.
  intros V Hab. induction b as [|b IH]; [lia|].
  rewrite minusDays_S.
  pose proof (prevDay_dateKey _ (minusDays_valid c b V)) as Hstep.
  destruct (decide (a = b)) as [->|Hne]; [exact Hstep|].
  etransitivity; [exact Hstep|]. apply IH. lia.
Qed.

Lemma daysBeforeMonth_bounds (y m : Z) : 0 ≤ daysBeforeMonth y m ≤ 335.
Proof.
  unfold daysBeforeMonth.
  case_ifs; lia.
Qed.

Lemma dayNumber_year_pos (c : JSDate.civil) :
  JSDate.validDate c = true → 1 ≤ JSDate.year c → 367 ≤ dayNumber c.
Proof.
  intros V Hy. pose proof (validDate_bounds _ V) as (_ & D & _).
  pose proof (daysBeforeMonth_bounds (JSDate.year c) (JSDate.month c)).
  unfold dayNumber.
  assert (366 ≤ daysBeforeYear (JSDate.year c)); [|lia].
  unfold daysBeforeYear. Z.div_mod_to_equations. lia.
Qed.

(** The label of a day: its month and day of the month. *)
Lemma substring5_isoOf (c : JSDate.civil) :
  0 ≤ JSDate.year c ≤ 9999 →
  Analytics.substring5 (isoOf c)
  = String (JSDate.digit (JSDate.month c / 10))
     (String (JSDate.digit (JSDate.month c mod 10))
     (String "-"
     (String (JSDate.digit (JSDate.day c / 10))
     (String (JSDate.digit (JSDate.day c mod 10)) "")))).
Proof. intros R. unfold isoOf. rewrite toISODate_chars by exact R. reflexivity. Qed.

Lemma digit_inj (a b : Z) :
  0 ≤ a ≤ 9 → 0 ≤ b ≤ 9 → JSDate.digit a = JSDate.digit b → a = b.
Proof.
  intros Ha Hb E. pose proof (digitVal_digit a Ha) as Va.
  rewrite E, (digitVal_digit b Hb) in Va. congruence.
Qed.

Lemma label_month_day (a b : JSDate.civil) :
  calendarDay a → calendarDay b →
  Analytics.substring5 (isoOf a) = Analytics.substring5 (isoOf b) →
  JSDate.month a = JSDate.month b ∧ JSDate.day a = JSDate.day b.
Proof.
  intros [Va Ra] [Vb Rb] E. rewrite !substring5_isoOf in E by assumption.
  pose proof (validDate_bounds _ Va) as (Ma & Da & _).
  pose proof (validDate_bounds _ Vb) as (Mb & Db & _).
  destruct (digits2 (JSDate.month a)) as (? & ? & Ema); [lia|].
  destruct (digits2 (JSDate.month b)) as (? & ? & Emb); [lia|].
  destruct (digits2 (JSDate.day a)) as (? & ? & Eda); [lia|].
  destruct (digits2 (JSDate.day b)) as (? & ? & Edb); [lia|].
  injection E as E1 E2 E3 E4.
  apply digit_inj in E1, E2, E3, E4; try assumption.
  rewrite Ema, Emb, Eda, Edb, E1, E2, E3, E4. split; reflexivity.
Qed.

Lemma daysBeforeYear_gap (y : Z) (n : nat) :
  daysBeforeYear y + 365 * Z.of_nat n ≤ daysBeforeYear (y + Z.of_nat n).
Proof.
  induction n as [|n IH]; [replace (y + Z.of_nat 0) with y by lia; lia|].
  replace (y + Z.of_nat (S n)) with (y + Z.of_nat n + 1) by lia.
  rewrite daysBeforeYear_succ. destruct (JSDate.isLeap (y + Z.of_nat n)); lia.
Qed.

Lemma daysBeforeMonth_leap (y y' m : Z) :
  daysBeforeMonth y m - 1 ≤ daysBeforeMonth y' m ≤ daysBeforeMonth y m + 1.
Proof.
  unfold daysBeforeMonth.
  destruct (m <=? 1); [lia|]. destruct (m =? 2); [lia|].
  destruct (JSDate.isLeap y), (JSDate.isLeap y'); lia.
Qed.

(** Two days with one month and one day of the month are a year apart
    unless they are one day. *)
Lemma same_month_day (a b : JSDate.civil) :
  JSDate.month a = JSDate.month b → JSDate.day a = JSDate.day b →
  JSDate.year a < JSDate.year b → dayNumber a + 364 ≤ dayNumber b.
Proof.
  intros Hm Hd Hy. unfold dayNumber. rewrite Hm, Hd.
  pose proof (daysBeforeYear_gap (JSDate.year a)
                (Z.to_nat (JSDate.year b - JSDate.year a))) as Hgap.
  rewrite Z2Nat.id in Hgap by lia.
  replace (JSDate.year a + (JSDate.year b - JSDate.year a)) with (JSDate.year b)
    in Hgap by lia.
  pose proof (daysBeforeMonth_leap (JSDate.year a) (JSDate.year b) (JSDate.month b)).
  lia.
Qed.

Lemma minutesOn_none (iso : string) (sessions : list StudySession) :
  (∀ s, s ∈ sessions → sdate s ≠ iso) → minutesOn iso sessions = 0%Q.
Proof.
  intros H. unfold minutesOn.
  replace (filter (λ s, sdate s = iso) sessions) with (@nil StudySession); [reflexivity|].
  symmetry. induction sessions as [|s sessions IH]; [reflexivity|].
  rewrite filter_cons_False by (apply H; left).
  apply IH. intros s' Hs'. apply H. right. exact Hs'.
Qed.

(** *** The window of a day in the years 0001 to 9999 *)

Section window.
Context (now : JSDate.civil).
Hypothesis now_calendarDay : calendarDay now.
Hypothesis now_year : 1 ≤ JSDate.year now.

Lemma window_dayNumber : 367 ≤ dayNumber now.
Proof. apply dayNumber_year_pos; [apply now_calendarDay | exact now_year]. Qed.

(** The fourteen days of the window are on the calendar. *)
Lemma window_calendarDay (i : nat) :
  (i < 14)%nat →
  calendarDay (JSDate.minusDays i now)
  ∧ JSDate.toISODate (JSDate.minusDays i now) = Some (isoOf (JSDate.minusDays i now)).
Proof.
  intros Hi. pose proof window_dayNumber.
  destruct (minusDays_calendarDay now i now_calendarDay) as [Hci _]; [lia|].
  split; [exact Hci|]. apply toISODate_isoOf, Hci.
Qed.

Lemma window_isoOf_inj (i j : nat) :
  (i < 14)%nat → (j < 14)%nat →
  isoOf (JSDate.minusDays i now) = isoOf (JSDate.minusDays j now) → i = j.
Proof.
  intros Hi Hj E. pose proof window_dayNumber.
  destruct (window_calendarDay i Hi) as [[Vi _] Si].
  destruct (window_calendarDay j Hj) as [[Vj _] Sj].
  apply (minusDays_inj now i j now_calendarDay); [lia..|].
  apply (toISODate_inj _ _ (isoOf (JSDate.minusDays i now))); try assumption.
  rewrite E. exact Sj.
Qed.

(** The keys written by the first loop: ascending and without repetition. *)
Lemma window_keys_sorted :
  StronglySorted String.le (isoOf <$> lastDays 14 now)
  ∧ NoDup (isoOf <$> lastDays 14 now).
Proof.
  split.
  - apply StronglySorted_lookup_2. intros i j a b Hij Hi Hj.
    assert (Hj' : (j < 14)%nat).
    { apply lookup_lt_Some in Hj. rewrite length_fmap, lastDays_length in Hj. exact Hj. }
    rewrite list_lookup_fmap, lastDays_lookup in Hi, Hj by lia.
    injection Hi as <-. injection Hj as <-.
    change (14 - 1 - i)%nat with (13 - i)%nat. change (14 - 1 - j)%nat with (13 - j)%nat.
    destruct (window_calendarDay (13 - i)) as [[Vi _] Si]; [lia|].
    destruct (window_calendarDay (13 - j)) as [[Vj _] Sj]; [lia|].
    unfold String.le, String.leb. rewrite (compare_iso _ _ _ _ Vi Vj Si Sj).
    assert (Hlt : dateKey (JSDate.minusDays (13 - i) now)
                  < dateKey (JSDate.minusDays (13 - j) now))
      by (apply minusDays_dateKey_lt; [apply now_calendarDay|lia]).
    apply Z.compare_lt_iff in Hlt. rewrite Hlt. exact I.
  - unfold lastDays. rewrite <- list_fmap_compose.
    apply NoDup_fmap_2_strong; [|rewrite reverse_Permutation; apply NoDup_seq].
    intros i j Hi Hj E. apply elem_of_reverse, elem_of_seq in Hi, Hj.
    apply (window_isoOf_inj i j); [lia..|exact E].
Qed.

(** No two days of the window have one label. *)
Lemma window_label_inj (i j : nat) :
  (i < 14)%nat → (j < 14)%nat →
  Analytics.substring5 (isoOf (JSDate.minusDays i now))
  = Analytics.substring5 (isoOf (JSDate.minusDays j now)) → i = j.
Proof.
  intros Hi Hj E. pose proof window_dayNumber.
  destruct (minusDays_calendarDay now i now_calendarDay) as [Ci Ni]; [lia|].
  destruct (minusDays_calendarDay now j now_calendarDay) as [Cj Nj]; [lia|].
  destruct (label_month_day _ _ Ci Cj E) as [Hm Hd].
  destruct (Z.lt_trichotomy (JSDate.year (JSDate.minusDays i now))
              (JSDate.year (JSDate.minusDays j now))) as [Hlt|[Heq|Hgt]].
  - pose proof (same_month_day _ _ Hm Hd Hlt). lia.
  - apply (minusDays_inj now i j now_calendarDay); [lia..|].
    destruct (JSDate.minusDays i now), (JSDate.minusDays j now).
    simpl in *. congruence.
  - pose proof (same_month_day _ _ (eq_sym Hm) (eq_sym Hd) Hgt). lia.
Qed.

(** The series as a function of the window. *)
Lemma trendChartData_eq (z : Clock.zone) (t : Clock.instant)
    (sessions : list StudySession) :
  Clock.utcDay t = now →
  0 ≤ Clock.msOfDay t < Clock.msPerDay →
  (∀ i, (i < 14)%nat → sameOffset z (Clock.getTime t) i) →
  Forall (λ s, JS.inherited (sdate s) = false) sessions →
  Analytics.trendChartData z t sessions
  = Some ((λ c, Analytics.mkPoint (Analytics.substring5 (isoOf c))
                  (JS.toFixed1 (minutesOn (isoOf c) sessions / 60)))
          <$> lastDays 14 now).
Proof.
  intros Hday Hms Hz Hown. unfold Analytics.trendChartData, Analytics.initTrendMap.
  rewrite (windowDays_lastDays z 14 t Hms Hz), Hday.
  rewrite initTrendMap_fold.
  2:{ apply Forall_forall. intros c Hin. apply list_elem_of_lookup in Hin as [i Hi].
      assert (Hi' : (i < 14)%nat)
        by (apply lookup_lt_Some in Hi; rewrite lastDays_length in Hi; exact Hi).
      rewrite lastDays_lookup in Hi by exact Hi'. injection Hi as <-.
      apply window_calendarDay. lia. }
  cbn [mbind option_bind].
  set (ks := isoOf <$> lastDays 14 now).
  destruct (lookup_addToTrend sessions (foldl (λ m k, <[k := 0%Q]> m) ∅ ks) Hown)
    as (m & -> & Hlook).
  cbn [mbind option_bind]. f_equal.
  destruct window_keys_sorted as [Hs Hnd]. fold ks in Hs, Hnd.
  assert (Hm : ∀ k, m !! k = if decide (k ∈ ks)
                             then Some (minutesOn k sessions) else None).
  { intros k. rewrite Hlook, lookup_zeroed, lookup_empty.
    destruct (decide (k ∈ ks)); reflexivity. }
  rewrite (sort_objectKeys m ks Hs Hnd).
  2:{ intros k. rewrite Hm. destruct (decide (k ∈ ks)) as [Hin|Hout].
      - split; [intros _; exact Hin | eauto].
      - split; [intros [? [=]] | contradiction]. }
  unfold ks. rewrite <- list_fmap_compose. apply list_fmap_ext.
  intros i c Hi. simpl. rewrite Hm.
  rewrite decide_True; [reflexivity|].
  apply list_elem_of_fmap. exists c. split; [reflexivity|].
  eapply list_elem_of_lookup_2, Hi.
Qed.

End window.

(** Where no change of the clocks is felt within the last fourteen days,
    and whatever sessions are logged (their dates being dates, not property
    names of [Object.prototype]), the trend series has fourteen entries; entry
    [i] stands for the day [13 - i] days before today, labelled with its month
    and day, so the days of the window come once each and in calendar order;
    its value is the hours of that day's sessions printed with one decimal,
    zero for a day without sessions. *)
Lemma trendChartData_calendar (z : Clock.zone) (now : Clock.instant)
    (sessions : list StudySession) :
  let today := Clock.utcDay now in
  calendarDay today → 1 ≤ JSDate.year today →
  0 ≤ Clock.msOfDay now < Clock.msPerDay →
  (∀ i, (i < 14)%nat → sameOffset z (Clock.getTime now) i) →
  Forall (λ s, JS.inherited (sdate s) = false) sessions →
  ∃ data : list Analytics.TrendPoint,
    Analytics.trendChartData z now sessions = Some data
    ∧ length data = 14%nat
    ∧ (∀ i, (i < 14)%nat →
         ∃ iso, JSDate.toISODate (JSDate.minusDays (13 - i) today) = Some iso
                ∧ dayNumber (JSDate.minusDays (13 - i) today)
                  = dayNumber today - 13 + Z.of_nat i
                ∧ data !! i
                  = Some (Analytics.mkPoint (Analytics.substring5 iso)
                            (JS.toFixed1 (minutesOn iso sessions / 60))))
    ∧ NoDup (Analytics.label <$> data)
    ∧ (∀ i p, data !! i = Some p →
              ¬ sessionOn sessions (JSDate.minusDays (13 - i) today) →
              (Analytics.hours p == 0)%Q).
Proof.
  intros today Hc Hy Hms Hz Hown. pose proof (window_dayNumber today Hc Hy) as Hn.
  eexists. split; [apply (trendChartData_eq today Hc Hy); auto|].
  split; [rewrite length_fmap; apply lastDays_length|].
  split; [|split].
  - intros i Hi. exists (isoOf (JSDate.minusDays (13 - i) today)).
    destruct (window_calendarDay today Hc Hy (13 - i)) as [_ Hs]; [lia|].
    destruct (minusDays_calendarDay today (13 - i) Hc) as [_ Hd]; [lia|].
    split; [exact Hs|]. split; [lia|].
    rewrite list_lookup_fmap, lastDays_lookup by exact Hi. reflexivity.
  - unfold lastDays. rewrite <- !list_fmap_compose.
    apply NoDup_fmap_2_strong; [|rewrite reverse_Permutation; apply NoDup_seq].
    intros i j Hi Hj E. apply elem_of_reverse, elem_of_seq in Hi, Hj.
    apply (window_label_inj today Hc Hy i j); [lia..|exact E].
  - intros i p Hp Hno.
    assert (Hi : (i < 14)%nat).
    { apply lookup_lt_Some in Hp. rewrite length_fmap, lastDays_length in Hp. exact Hp. }
    rewrite list_lookup_fmap, lastDays_lookup in Hp by exact Hi.
    injection Hp as <-. simpl.
    destruct (window_calendarDay today Hc Hy (13 - i)) as [_ Hs]; [lia|].
    rewrite minutesOn_none; [reflexivity|].
    intros s Hin E. apply Hno. exists s. split; [exact Hin|].
    change (14 - 1 - i)%nat with (13 - i)%nat in E. rewrite E. exact Hs.
Qed.

(** ** Instances *)

Lemma toggleGoal_completion_invariant_witness :
  ∃ g' : DailyGoal,
    Api.toggleGoal [Sample.ohm; Sample.doneEarlier] "g3" true Sample.today
    = [Sample.ohm; g']
    ∧ completed g' = false ∧ completedAt g' = JS.Null.
Proof.
  destruct (toggleGoal_completion_invariant [Sample.ohm; Sample.doneEarlier]
              "g3" Sample.today 1 Sample.doneEarlier)
    as (g' & Heq & _ & _ & Hdone & _); [reflexivity|].
  exists g'. split; [exact Heq | apply Hdone; reflexivity].
Defined.

Lemma toggleGoal_twice_witness :
  ∃ g'' : DailyGoal,
    Api.toggleGoal
      (Api.toggleGoal [Sample.ohm; Sample.untouched] "g1" false Sample.today)
      "g1" true Sample.today
    = [g''; Sample.untouched]
    ∧ completed g'' = false ∧ completedAt g'' = JS.Null
    ∧ title g'' = "Ohm's Law".
Proof.
  destruct (toggleGoal_twice [Sample.ohm; Sample.untouched] "g1" Sample.today 0
              Sample.ohm) as (g' & Hg' & Hback & _); [reflexivity|].
  injection Hg' as <-.
  destruct Hback as (g'' & Htwice & Hc & Hd & _ & _ & _ & Ht & _);
    [reflexivity | reflexivity |].
  exists g''. split; [exact Htwice|]. split; [exact Hc|]. split; [exact Hd | exact Ht].
Defined.


Lemma same_subject_title_double_counted_witness :
  Dashboard.displayedGoals Api.Mock [Sample.ohm; Sample.ohmAgain]
    Sample.ohmSessions Sample.today
  = [Dashboard.mkProgress Sample.ohm (13 # 10);
     Dashboard.mkProgress Sample.ohmAgain (13 # 10)]
  ∧ attributedSessions Sample.today Sample.ohmAgain
      (Api.getSessions Api.Mock Sample.ohmSessions None)
    = attributedSessions Sample.today Sample.ohm
        (Api.getSessions Api.Mock Sample.ohmSessions None).
Proof.
  assert (E : Dashboard.displayedGoals Api.Mock [Sample.ohm; Sample.ohmAgain]
                Sample.ohmSessions Sample.today
              = [Dashboard.mkProgress Sample.ohm (13 # 10);
                 Dashboard.mkProgress Sample.ohmAgain (13 # 10)])
    by (vm_compute; reflexivity).
  split; [exact E|].
  refine (proj1 (same_subject_title_double_counted Api.Mock
                   [Sample.ohm; Sample.ohmAgain] Sample.ohmSessions Sample.today
                   (Dashboard.mkProgress Sample.ohm (13 # 10))
                   (Dashboard.mkProgress Sample.ohmAgain (13 # 10)) _ _ _ _)).
  - rewrite E. constructor.
  - rewrite E. constructor. constructor.
  - reflexivity.
  - reflexivity.
Defined.

(** The streak lemma in New York in February, far from a change of the
    clocks. *)
Example currentStreak_calendar_example :
  ∃ n : nat,
    Analytics.currentStreak 3 Sample.newYork Sample.noon Sample.twoDays = Some n
    ∧ streakIs Sample.twoDays Sample.now n.
Proof.
  destruct (currentStreak_calendar Sample.newYork Sample.noon Sample.twoDays)
    as (n & Hrun & Hs).
  - split; [reflexivity | simpl; lia].
  - vm_compute. split; [discriminate | reflexivity].
  - vm_compute. discriminate.
  - intros i Hi. simpl in Hi.
    assert (Hcases : i = 0%nat ∨ i = 1%nat ∨ i = 2%nat) by lia.
    destruct Hcases as [-> | [-> | ->]]; vm_compute; reflexivity.
  - exists n. split; [apply Hrun; simpl; lia | exact Hs].
Qed.

(** The trend lemma in Kolkata. *)
Example trendChartData_calendar_example :
  ∃ data : list Analytics.TrendPoint,
    Analytics.trendChartData Sample.kolkata Sample.noon Sample.twoDays = Some data
    ∧ length data = 14%nat
    ∧ NoDup (Analytics.label <$> data).
Proof.
  destruct (trendChartData_calendar Sample.kolkata Sample.noon Sample.twoDays)
    as (data & Hd & Hlen & _ & Hnd & _).
  - split; [reflexivity | simpl; lia].
  - simpl. lia.
  - vm_compute. split; [discriminate | reflexivity].
  - intros i _. apply fixedOffset_sameOffset. exists 19800000. intros t. split; reflexivity.
  - repeat constructor.
  - exists data. auto.
Qed.

(** The worked examples of the specification. *)

(** A goal of 2026-01-01 left incomplete is shown on 2026-02-17; completed
    on 2026-01-02 it is not. *)
Example rollover_example :
  Api.shouldIncludeGoal Sample.today
    (Sample.goalOn "g" "2026-01-01" "Optics" 1 false High JS.Undefined) = true
  ∧ Api.shouldIncludeGoal Sample.today
      (Sample.goalOn "g" "2026-01-01" "Optics" 1 true High (JS.Val "2026-01-02"))
    = false.
Proof. split; reflexivity. Qed.

(** A past goal completed today is shown today and no longer tomorrow. *)
Example completed_today_example :
  Api.shouldIncludeGoal Sample.today
    (Sample.goalOn "g" "2026-02-10" "Optics" 1 true High (JS.Val Sample.today)) = true
  ∧ Api.shouldIncludeGoal "2026-02-18"
      (Sample.goalOn "g" "2026-02-10" "Optics" 1 true High (JS.Val Sample.today))
    = false.
Proof. split; reflexivity. Qed.

(** A lone session on 2026-02-10 gives no streak on 2026-02-17. *)
Example lone_session_example :
  Analytics.currentStreak 2 Sample.kolkata Sample.noon Sample.weekAgo = Some 0%nat.
Proof. vm_compute. reflexivity. Qed.

(** Sessions of 30 and 45 minutes under the goal's title are shown as 1.3
    hours, whatever is logged under another title. *)
Example ohm_example :
  Dashboard.actualHours
  <$> Dashboard.displayedGoals Api.Mock [Sample.ohm] Sample.ohmSessions Sample.today
  = [13 # 10].
Proof. vm_compute. reflexivity. Qed.

(** ** Where the code departs from the specification *)


(** C3: the loop goes one day back on the local calendar and reads the
    date in UTC.  In New York on 3 November 2026, with sessions on that day,
    on the day before and on 31 October but none on 1 November, it steps from
    2 November to 31 October and counts 3, where the run of consecutive days
    with sessions that ends today has length 2.  Where no change of the clocks
    is felt on the days walked over, the count is the streak of the
    specification, and its two examples come out as 2 and 0. *)
Theorem currentStreak_skips_a_day :
  Analytics.isoPrevDay Sample.newYork "2026-11-02" = Some "2026-10-31"
  ∧ Analytics.currentStreak 4 Sample.newYork Sample.novemberNoon Sample.aroundTheChange
    = Some 3%nat
  ∧ streakIs Sample.aroundTheChange (Clock.utcDay Sample.novemberNoon) 2
  ∧ ¬ streakIs Sample.aroundTheChange (Clock.utcDay Sample.novemberNoon) 3
  ∧ (∀ (z : Clock.zone) (now : Clock.instant) (sessions : list StudySession),
       calendarDay (Clock.utcDay now) →
       0 ≤ Clock.msOfDay now < Clock.msPerDay →
       Z.of_nat (length sessions) + 2 ≤ dayNumber (Clock.utcDay now) →
       (∀ i, (i ≤ length sessions)%nat →
             sameOffset z (Clock.midnight (JSDate.minusDays i (Clock.utcDay now))) 1) →
       ∃ n : nat,
         (∀ fuel, (length sessions < fuel)%nat →
            Analytics.currentStreak fuel z now sessions = Some n)
         ∧ streakIs sessions (Clock.utcDay now) n
         ∧ (¬ sessionOn sessions (Clock.utcDay now) →
            sessionOn sessions (JSDate.minusDays 1 (Clock.utcDay now)) →
            sessionOn sessions (JSDate.minusDays 2 (Clock.utcDay now)) →
            ¬ sessionOn sessions (JSDate.minusDays 3 (Clock.utcDay now)) → n = 2%nat)
         ∧ ((∀ i, sessionOn sessions (JSDate.minusDays i (Clock.utcDay now)) → i = 7%nat)
            → n = 0%nat)).
Proof.
  assert (Hon : ∀ d t m e c, JSDate.toISODate c = Some d →
            Sample.session d t m e ∈ Sample.aroundTheChange →
            sessionOn Sample.aroundTheChange c).
  { intros d t m e c Hc Hin. exists (Sample.session d t m e). split; [exact Hin | exact Hc]. }
  assert (Hoff : ¬ sessionOn Sample.aroundTheChange (JSDate.mkCivil 2026 11 1)).
  { intros (s & Hin & Hs). unfold Sample.aroundTheChange in Hin.
    repeat (apply elem_of_cons in Hin as [->|Hin]; [vm_compute in Hs; discriminate|]).
    apply elem_of_nil in Hin as []. }
  assert (H3 : sessionOn Sample.aroundTheChange (JSDate.mkCivil 2026 11 3)).
  { apply (Hon "2026-11-03" "Optics" 30%Q 300); [reflexivity|]. repeat constructor. }
  assert (H2 : sessionOn Sample.aroundTheChange (JSDate.mkCivil 2026 11 2)).
  { apply (Hon "2026-11-02" "Optics" 50%Q 200); [reflexivity|]. repeat constructor. }
  split; [vm_compute; reflexivity|]. split; [vm_compute; reflexivity|].
  split; [|split].
  - split; [|split].
    + intros _. split; [|exact Hoff].
      intros i Hi. assert (Hcases : i = 0%nat ∨ i = 1%nat) by lia.
      destruct Hcases as [-> | ->]; [exact H3 | exact H2].
    + intros Hno. contradiction.
    + intros Hno. contradiction.
  - intros (Hrun & _). destruct (Hrun H3) as [Hdays _].
    apply Hoff, (Hdays 2%nat). lia.
  - intros z now sessions Hc Hms Hn Hz.
    destruct (currentStreak_calendar z now sessions Hc Hms Hn Hz) as (n & Hrun & Hs).
    exists n. split; [exact Hrun|]. split; [exact Hs|].
    apply streakIs_examples, Hs.
Qed.

(** C4: the window goes back by days of the local calendar and is keyed by
    dates in UTC.  In New York at 23:30 UTC on 9 March 2026 the days 1 and 2
    local days back are both 8 March in UTC, and the series has thirteen
    entries.  Where no change of the clocks is felt within the last fourteen
    days the series has fourteen entries, one for each day of the window in
    calendar order, a day without sessions at zero. *)
Theorem trendChartData_doubles_a_day :
  Analytics.windowDays Sample.newYork 14 Sample.marchEvening !! 11%nat
  = Some (JSDate.mkCivil 2026 3 8)
  ∧ Analytics.windowDays Sample.newYork 14 Sample.marchEvening !! 12%nat
    = Some (JSDate.mkCivil 2026 3 8)
  ∧ length <$> Analytics.trendChartData Sample.newYork Sample.marchEvening []
    = Some 13%nat
  ∧ (∀ (z : Clock.zone) (now : Clock.instant) (sessions : list StudySession),
       calendarDay (Clock.utcDay now) → 1 ≤ JSDate.year (Clock.utcDay now) →
       0 ≤ Clock.msOfDay now < Clock.msPerDay →
       (∀ i, (i < 14)%nat → sameOffset z (Clock.getTime now) i) →
       Forall (λ s, JS.inherited (sdate s) = false) sessions →
       ∃ data : list Analytics.TrendPoint,
         Analytics.trendChartData z now sessions = Some data
         ∧ length data = 14%nat
         ∧ (∀ i, (i < 14)%nat →
              ∃ iso,
                JSDate.toISODate (JSDate.minusDays (13 - i) (Clock.utcDay now)) = Some iso
                ∧ dayNumber (JSDate.minusDays (13 - i) (Clock.utcDay now))
                  = dayNumber (Clock.utcDay now) - 13 + Z.of_nat i
                ∧ data !! i
                  = Some (Analytics.mkPoint (Analytics.substring5 iso)
                            (JS.toFixed1 (minutesOn iso sessions / 60))))
         ∧ NoDup (Analytics.label <$> data)
         ∧ (∀ i p, data !! i = Some p →
                   ¬ sessionOn sessions (JSDate.minusDays (13 - i) (Clock.utcDay now)) →
                   (Analytics.hours p == 0)%Q)).
Proof.
  split; [vm_compute; reflexivity|]. split; [vm_compute; reflexivity|].
  split; [vm_compute; reflexivity|].
  intros z now sessions. apply trendChartData_calendar.
Qed.

(** * Further properties *)

(** ** Order of date strings *)

Lemma strLt_le (a b : string) : JS.strLt a b = true ↔ String.le a b ∧ a ≠ b.
Proof.
  unfold JS.strLt, String.ltb, String.le, String.leb.
  destruct (String.compare a b) eqn:E; simpl.
  - apply String.compare_eq_iff in E. subst. split; [discriminate|]. intros [_ H]. congruence.
  - split; [|reflexivity]. intros _. split; [exact I|].
    intros ->. pose proof (strLt_irrefl b) as H.
    unfold JS.strLt, String.ltb in H. rewrite E in H. discriminate.
  - split; [discriminate|]. intros [[] _].
Qed.

Lemma strLt_trans (a b c : string) :
  JS.strLt a b = true → JS.strLt b c = true → JS.strLt a c = true.
Proof.
  rewrite !strLt_le. intros [Hab Nab] [Hbc Nbc]. split.
  - etransitivity; eassumption.
  - intros ->. apply Nbc. apply (anti_symm String.le); assumption.
Qed.

Lemma strLt_asym (a b : string) : JS.strLt a b = true → JS.strLt b a = false.
Proof.
  intros H. destruct (JS.strLt b a) eqn:E; [|reflexivity].
  pose proof (strLt_trans _ _ _ H E) as H'. rewrite strLt_irrefl in H'. discriminate.
Qed.

(** ** Goals across days *)

Lemma shouldIncludeGoal_false (today : string) (g : DailyGoal) :
  Api.shouldIncludeGoal today g = false ↔
  ¬ (createdToday today g ∨ rolledOver today g ∨ completedToday today g).
Proof. rewrite <- shouldIncludeGoal_iff. destruct (Api.shouldIncludeGoal today g); split; congruence. Qed.

(** X1: an incomplete goal that is on today's list is on the list of every
    later day, a goal dated later than today is not on today's list, and a
    goal completed on a day before today is on no list from today on. *)
Theorem rollover_never_expires (all : list DailyGoal) (g : DailyGoal)
    (today later : string) :
  JS.strLt today later = true →
  (g ∈ Api.getGoals all today → completed g = false → g ∈ Api.getGoals all later)
  ∧ (JS.strLt today (date g) = true → g ∉ Api.getGoals all today)
  ∧ (∀ d0, completed g = true → completedAt g = JS.Val d0 →
           JS.strLt (date g) today = true → JS.strLt d0 today = true →
           (g ∉ Api.getGoals all today) ∧ (g ∉ Api.getGoals all later)).
Proof.
  intros Hlt. unfold Api.getGoals. split; [|split].
  - rewrite !list_elem_of_filter, !Is_true_true, !shouldIncludeGoal_iff.
    intros [Hvis Hin] Hc. split; [|exact Hin]. right. left. split; [|exact Hc].
    destruct Hvis as [Hd|[[Hd _]|[Hd _]]].
    + unfold createdToday in Hd. rewrite Hd. exact Hlt.
    + eapply strLt_trans; eassumption.
    + eapply strLt_trans; eassumption.
  - intros Hfut. rewrite list_elem_of_filter, Is_true_true, shouldIncludeGoal_iff.
    intros [[Hd|[[Hd _]|[Hd _]]] _].
    + unfold createdToday in Hd. rewrite Hd, strLt_irrefl in Hfut. discriminate.
    + rewrite (strLt_asym _ _ Hfut) in Hd. discriminate.
    + rewrite (strLt_asym _ _ Hfut) in Hd. discriminate.
  - intros d0 Hc Hat Hpast Hd0.
    assert (Hno : ∀ d, JS.strLt (date g) d = true → JS.strLt d0 d = true →
                       Api.shouldIncludeGoal d g = false).
    { intros d H1 H2. apply shouldIncludeGoal_false.
      intros [Hd|[[_ Hd]|(_ & _ & Hd)]].
      - unfold createdToday in Hd. rewrite Hd, strLt_irrefl in H1. discriminate.
      - congruence.
      - rewrite Hat in Hd. injection Hd as ->. rewrite strLt_irrefl in H2. discriminate. }
    rewrite !list_elem_of_filter, !Is_true_true. split.
    + intros [H _]. rewrite Hno in H by assumption. discriminate.
    + intros [H _]. rewrite Hno in H; [discriminate| |]; eapply strLt_trans; eassumption.
Qed.

Lemma rollover_never_expires_witness :
  Sample.goalOn "g" "2026-01-01" "Optics" 1 false High JS.Undefined
  ∈ Api.getGoals [Sample.goalOn "g" "2026-01-01" "Optics" 1 false High JS.Undefined]
      "2026-12-31".
Proof.
  refine (proj1 (rollover_never_expires
                   [Sample.goalOn "g" "2026-01-01" "Optics" 1 false High JS.Undefined]
                   (Sample.goalOn "g" "2026-01-01" "Optics" 1 false High JS.Undefined)
                   Sample.today "2026-12-31" _) _ _).
  - reflexivity.
  - vm_compute. constructor.
  - reflexivity.
Defined.

Lemma toggled_visible_today (today : string) (g : DailyGoal) (currentStatus : bool) :
  Api.shouldIncludeGoal today g = true →
  Api.shouldIncludeGoal today
    (Api.applyUpdates g (Api.toggleUpdates currentStatus today)) = true.
Proof.
  rewrite !shouldIncludeGoal_iff. intros Hvis.
  assert (Hdate : date g = today ∨ JS.strLt (date g) today = true).
  { destruct Hvis as [Hd|[[Hd _]|[Hd _]]]; auto. }
  destruct Hdate as [Hd|Hd]; [left; exact Hd|]. right.
  destruct currentStatus; [left|right]; repeat split; assumption.
Qed.

(** X2: a goal on today's list stays on it when it is toggled today; on
    every later day it is listed exactly if the toggle left it incomplete. *)
Theorem toggled_goal_stays_today (all : list DailyGoal) (goalId today : string)
    (currentStatus : bool) (idx : nat) (g : DailyGoal) :
  Api.findGoal all goalId = Some (idx, g) →
  g ∈ Api.getGoals all today →
  ∃ g' : DailyGoal,
    Api.toggleGoal all goalId currentStatus today !! idx = Some g'
    ∧ g' ∈ Api.getGoals (Api.toggleGoal all goalId currentStatus today) today
    ∧ ∀ later, JS.strLt today later = true →
        (g' ∈ Api.getGoals (Api.toggleGoal all goalId currentStatus today) later
         ↔ currentStatus = true).
Proof.
  intros Hfind Hvis. destruct (findGoal_Some _ _ _ _ Hfind) as (Hl & _ & _).
  assert (Hlen : (idx < length all)%nat) by (eapply lookup_lt_Some, Hl).
  set (g' := Api.applyUpdates g (Api.toggleUpdates currentStatus today)).
  exists g'. rewrite (toggleGoal_found _ _ _ _ _ _ Hfind). fold g'.
  assert (Hat : <[idx := g']> all !! idx = Some g') by (apply list_lookup_insert_eq, Hlen).
  assert (Hin : g' ∈ <[idx := g']> all) by (eapply list_elem_of_lookup_2, Hat).
  unfold Api.getGoals in *.
  apply list_elem_of_filter in Hvis as [Hvis _].
  apply Is_true_true, shouldIncludeGoal_iff in Hvis.
  assert (Hdate : date g = today ∨ JS.strLt (date g) today = true).
  { destruct Hvis as [Hd|[[Hd _]|[Hd _]]]; auto. }
  split; [exact Hat|]. split.
  - apply list_elem_of_filter. split; [|exact Hin].
    apply Is_true_true, toggled_visible_today, shouldIncludeGoal_iff, Hvis.
  - intros later Hlt.
    assert (Hpast : JS.strLt (date g') later = true).
    { destruct Hdate as [Hd|Hd]; simpl; [rewrite Hd; exact Hlt|].
      eapply strLt_trans; eassumption. }
    rewrite list_elem_of_filter, Is_true_true, shouldIncludeGoal_iff. split.
    + intros [[Hd|[[_ Hc]|(_ & _ & Hd)]] _].
      * unfold createdToday in Hd. rewrite Hd, strLt_irrefl in Hpast. discriminate.
      * destruct currentStatus; [reflexivity|discriminate].
      * destruct currentStatus; [discriminate|].
        simpl in Hd. injection Hd as Hd. rewrite Hd, strLt_irrefl in Hlt. discriminate.
    + intros ->. split; [|exact Hin]. right. left. split; [exact Hpast|reflexivity].
Qed.

Lemma toggled_goal_stays_today_witness :
  ∃ g' : DailyGoal,
    g' ∈ Api.getGoals
           (Api.toggleGoal [Sample.ohm; Sample.untouched] "g4" false Sample.today)
           Sample.today
    ∧ g' ∉ Api.getGoals
             (Api.toggleGoal [Sample.ohm; Sample.untouched] "g4" false Sample.today)
             "2026-02-18".
Proof.
  destruct (toggled_goal_stays_today [Sample.ohm; Sample.untouched] "g4" Sample.today
              false 1 Sample.untouched) as (g' & _ & Htoday & Hlater).
  - reflexivity.
  - vm_compute. constructor. constructor.
  - exists g'. split; [exact Htoday|].
    intros H. apply (Hlater "2026-02-18") in H; [discriminate|reflexivity].
Defined.

(** ** The goal store *)

Lemma findGoal_None (all : list DailyGoal) (goalId : string) :
  Api.findGoal all goalId = None ↔ Forall (λ g, id g ≠ Some goalId) all.
Proof. unfold Api.findGoal. apply list_find_None. Qed.

(** X3: deleting removes every goal stored under the identifier and nothing
    else, keeps the order of the rest, finds nothing to delete a second time,
    and commutes with the visibility filter. *)
Theorem deleteGoal_removes_all (all : list DailyGoal) (goalId : string) :
  (∀ g, g ∈ Store.deleteGoal all goalId ↔ g ∈ all ∧ id g ≠ Some goalId)
  ∧ Store.deleteGoal all goalId `sublist_of` all
  ∧ Api.findGoal (Store.deleteGoal all goalId) goalId = None
  ∧ Store.deleteGoal (Store.deleteGoal all goalId) goalId = Store.deleteGoal all goalId
  ∧ (Api.findGoal all goalId = None → Store.deleteGoal all goalId = all)
  ∧ (∀ today, Api.getGoals (Store.deleteGoal all goalId) today
              = Store.deleteGoal (Api.getGoals all today) goalId).
Proof.
  unfold Store.deleteGoal. split; [|split; [|split; [|split; [|split]]]].
  - intros g. rewrite list_elem_of_filter. tauto.
  - apply sublist_filter.
  - apply findGoal_None, Forall_forall. intros g Hg.
    apply list_elem_of_filter in Hg as [Hg _]. exact Hg.
  - apply list_filter_filter_l. auto.
  - intros H. apply findGoal_None in H.
    induction H as [|g l Hg _ IH]; [reflexivity|].
    rewrite filter_cons_True by exact Hg. f_equal. exact IH.
  - intros today. unfold Api.getGoals. rewrite !list_filter_filter.
    apply list_filter_iff. tauto.
Qed.

(** X4: an update rewrites the first goal stored under the identifier and
    no other position, writes nothing when there is none, and never changes
    the number of goals; the completion toggle is the update of the two
    completion fields. *)
Theorem updateGoal_first_match (all : list DailyGoal) (goalId : string)
    (updates : Store.GoalUpdates) :
  length (Store.updateGoal all goalId updates) = length all
  ∧ (Api.findGoal all goalId = None → Store.updateGoal all goalId updates = all)
  ∧ (∀ idx g, Api.findGoal all goalId = Some (idx, g) →
       Store.updateGoal all goalId updates !! idx = Some (Store.spread g updates)
       ∧ ∀ j, j ≠ idx → Store.updateGoal all goalId updates !! j = all !! j)
  ∧ (∀ currentStatus today,
       Api.toggleGoal all goalId currentStatus today
       = Store.updateGoal all goalId
           {| Store.uId := None; Store.uUserId := None; Store.uDate := None;
              Store.uTitle := None; Store.uSubject := None;
              Store.uTargetHours := None;
              Store.uCompleted := Some (negb currentStatus);
              Store.uPriority := None; Store.uCreatedAt := None;
              Store.uCompletedAt :=
                Some (if negb currentStatus then JS.Val today else JS.Null) |}).
Proof.
  unfold Store.updateGoal, Api.toggleGoal. split; [|split; [|split]].
  - destruct (Api.findGoal all goalId) as [[idx g]|]; [apply length_insert|reflexivity].
  - intros ->. reflexivity.
  - intros idx g Hf. rewrite Hf. destruct (findGoal_Some _ _ _ _ Hf) as (Hl & _ & _).
    split; [apply list_lookup_insert_eq; eapply lookup_lt_Some, Hl|].
    intros j Hj. apply list_lookup_insert_ne. congruence.
  - intros cs today. destruct (Api.findGoal all goalId) as [[idx g]|]; reflexivity.
Qed.

(** A document enters a collection among the documents that were there. *)
Lemma insertDoc_Permutation (g : DailyGoal) (all : list DailyGoal) :
  Store.insertDoc g all ≡ₚ all ++ [g].
Proof.
  induction all as [|y l IH]; simpl; [reflexivity|].
  destruct (JS.strLt (Store.docId g) (Store.docId y)).
  - change (y :: l ++ [g]) with ((y :: l) ++ [g]).
    rewrite (Permutation_app_comm (y :: l) [g]). reflexivity.
  - rewrite IH. reflexivity.
Qed.

Lemma filter_Forall_id {A} (P : A → Prop) `{!∀ x, Decision (P x)} (l : list A) :
  Forall P l → filter P l = l.
Proof.
  induction 1 as [|a l Ha _ IH]; [reflexivity|].
  rewrite filter_cons_True by exact Ha. f_equal. exact IH.
Qed.

(** Taking the new document out again leaves the documents that were
    there, in their order. *)
Lemma filter_insertDoc (P : DailyGoal → Prop) `{!∀ x, Decision (P x)}
    (g : DailyGoal) (all : list DailyGoal) :
  ¬ P g → Forall P all → filter P (Store.insertDoc g all) = all.
Proof.
  intros Hg Hall. induction Hall as [|y l Hy Hl IH]; cbn [Store.insertDoc].
  - rewrite filter_cons_False by exact Hg. reflexivity.
  - destruct (JS.strLt (Store.docId g) (Store.docId y)).
    + rewrite filter_cons_False by exact Hg.
      rewrite filter_cons_True by exact Hy. f_equal.
      apply filter_Forall_id, Hl.
    + rewrite filter_cons_True by exact Hy. f_equal. exact IH.
Qed.

(** X5: a goal sent by the planner's form is stored under the new
    identifier, dated today and incomplete with no completion date.  On both
    stores it is on today's list together with the goals that were there, and
    the completion invariant of the store is kept; on the mock store it stands
    behind them.  When no stored goal has the new identifier, deleting the
    goal again gives back the store as it was. *)
Theorem addGoal_visible_today (backend : Api.Backend) (all : list DailyGoal)
    (uid today title newId : string) (subject : Subject)
    (hoursInput minutesInput stamp : Z) (priority : Priority) :
  let stored :=
    Store.addGoal backend all
      (Planner.newGoal uid today title subject hoursInput minutesInput priority)
      newId stamp in
  ∃ g' : DailyGoal,
    id g' = Some newId ∧ date g' = today ∧ completed g' = false
    ∧ completedAt g' = JS.Undefined
    ∧ stored ≡ₚ all ++ [g']
    ∧ g' ∈ Api.getGoals stored today
    ∧ Api.getGoals stored today ≡ₚ Api.getGoals all today ++ [g']
    ∧ (backend = Api.Mock →
       Api.getGoals stored today = Api.getGoals all today ++ [g'])
    ∧ (Forall completionInvariant all → Forall completionInvariant stored)
    ∧ ((∀ g, g ∈ all → id g ≠ Some newId) → Store.deleteGoal stored newId = all).
Proof.
  cbv zeta.
  set (g' := Store.spread
               (Planner.newGoal uid today title subject hoursInput minutesInput priority)
               {| Store.uId := Some newId; Store.uUserId := None; Store.uDate := None;
                  Store.uTitle := None; Store.uSubject := None;
                  Store.uTargetHours := None; Store.uCompleted := None;
                  Store.uPriority := None; Store.uCreatedAt := Some stamp;
                  Store.uCompletedAt := None |}).
  exists g'.
  split; [reflexivity|]. split; [reflexivity|]. split; [reflexivity|].
  split; [reflexivity|].
  assert (Hshown : Api.shouldIncludeGoal today g' = true)
    by (apply shouldIncludeGoal_iff; left; reflexivity).
  assert (Hperm : Store.addGoal backend all
                    (Planner.newGoal uid today title subject hoursInput minutesInput
                       priority) newId stamp ≡ₚ all ++ [g']).
  { unfold Store.addGoal. cbv zeta. fold g'.
    destruct backend; [apply insertDoc_Permutation | reflexivity]. }
  assert (Hlist : Api.getGoals (all ++ [g']) today = Api.getGoals all today ++ [g']).
  { unfold Api.getGoals. rewrite filter_app. f_equal.
    rewrite filter_cons_True, filter_nil; [reflexivity|]. apply Is_true_true, Hshown. }
  assert (Hget : Api.getGoals (Store.addGoal backend all
                    (Planner.newGoal uid today title subject hoursInput minutesInput
                       priority) newId stamp) today
                 ≡ₚ Api.getGoals all today ++ [g']).
  { rewrite <- Hlist. unfold Api.getGoals. rewrite Hperm. reflexivity. }
  split; [exact Hperm|]. split; [|split; [exact Hget|split; [|split]]].
  - rewrite Hget. apply elem_of_app. right. left.
  - intros ->. exact Hlist.
  - intros H. rewrite Hperm. apply Forall_app. split; [exact H|].
    constructor; [|constructor].
    unfold completionInvariant. simpl. split; [intros [d Hd]|]; discriminate.
  - intros Hfresh. unfold Store.deleteGoal, Store.addGoal. cbv zeta. fold g'.
    assert (Hall : Forall (λ g, id g ≠ Some newId) all)
      by (apply Forall_forall; exact Hfresh).
    destruct backend.
    + apply filter_insertDoc; [intros H; apply H; reflexivity | exact Hall].
    + rewrite filter_app, filter_cons_False, filter_nil, app_nil_r
        by (intros H; apply H; reflexivity).
      apply filter_Forall_id, Hall.
Qed.

(** X6: two goals the mock store received at one clock value share their
    identifier; a toggle then reaches the first of them only, and a delete
    removes both. *)
Theorem mock_ids_collide (all : list DailyGoal) (g1 g2 : DailyGoal) (clock : Z)
    (currentStatus : bool) (today : string) :
  Api.findGoal all (Store.mockGoalId clock) = None →
  let i := Store.mockGoalId clock in
  let all2 := Store.addGoal Api.Mock (Store.addGoal Api.Mock all g1 i clock) g2 i clock in
  ∃ a b : DailyGoal,
    all2 = all ++ [a; b] ∧ id a = Some i ∧ id b = Some i
    ∧ Api.toggleGoal all2 i currentStatus today
      = all ++ [Api.applyUpdates a (Api.toggleUpdates currentStatus today); b]
    ∧ Store.deleteGoal all2 i = all.
Proof.
  intros Hnone. cbv zeta. unfold Store.addGoal. rewrite <- app_assoc. simpl.
  eexists _, _. split; [reflexivity|]. split; [reflexivity|]. split; [reflexivity|].
  pose proof Hnone as Hall. apply findGoal_None in Hall. split.
  - match goal with |- Api.toggleGoal (all ++ [?a; ?b]) _ _ _ = _ =>
      assert (Hf : Api.findGoal (all ++ [a; b]) (Store.mockGoalId clock)
                   = Some (length all, a))
    end.
    { unfold Api.findGoal. apply list_find_Some. split; [|split].
      - rewrite lookup_app_r, Nat.sub_diag by lia. reflexivity.
      - reflexivity.
      - intros j y Hj Hlt. rewrite lookup_app_l in Hj by exact Hlt.
        rewrite Forall_forall in Hall. apply Hall. eapply list_elem_of_lookup_2, Hj. }
    rewrite (toggleGoal_found _ _ _ _ _ _ Hf).
    rewrite insert_app_r_alt, Nat.sub_diag by lia. reflexivity.
  - unfold Store.deleteGoal. rewrite filter_app.
    rewrite filter_cons_False by (simpl; intros H; apply H; reflexivity).
    rewrite filter_cons_False by (simpl; intros H; apply H; reflexivity).
    rewrite filter_nil, app_nil_r.
    clear Hnone. induction Hall as [|g l Hg _ IH]; [reflexivity|].
    rewrite filter_cons_True by exact Hg. f_equal. exact IH.
Qed.

Lemma mock_ids_collide_witness :
  Store.deleteGoal
    (Store.addGoal Api.Mock
       (Store.addGoal Api.Mock [Sample.ohm] Sample.untouched
          (Store.mockGoalId 1771286400000) 1771286400000)
       Sample.doneEarlier (Store.mockGoalId 1771286400000) 1771286400000)
    (Store.mockGoalId 1771286400000)
  = [Sample.ohm].
Proof.
  destruct (mock_ids_collide [Sample.ohm] Sample.untouched Sample.doneEarlier
              1771286400000 false Sample.today) as (a & b & _ & _ & _ & _ & Hdel).
  - vm_compute. reflexivity.
  - exact Hdel.
Defined.

Lemma filter_insert_same {A} (P : A → Prop) `{!∀ x, Decision (P x)}
    (l : list A) (i : nat) (x y : A) :
  l !! i = Some x → (P x ↔ P y) →
  filter P (<[i := y]> l)
  = if decide (P x) then <[length (filter P (take i l)) := y]> (filter P l)
    else filter P l.
Proof.
  revert i. induction l as [|a l IH]; intros i Hl Hxy; [discriminate|].
  destruct i as [|i]; simpl in Hl.
  - injection Hl as ->. simpl. rewrite !filter_cons.
    destruct (decide (P x)) as [Hx|Hx], (decide (P y)) as [Hy|Hy];
      try tauto; reflexivity.
  - simpl. rewrite !filter_cons, (IH i Hl Hxy).
    destruct (decide (P x)), (decide (P a)); reflexivity.
Qed.

(** X7: an edit in the planner changes title, subject, target and priority
    of the goal and leaves the days on which it is listed, its completion
    state and the completion invariant as they were. *)
Theorem planner_edit_keeps_listing (all : list DailyGoal) (goalId title : string)
    (subject : Subject) (hoursInput minutesInput : Z) (priority : Priority)
    (idx : nat) (g : DailyGoal) :
  Api.findGoal all goalId = Some (idx, g) →
  ∃ g' : DailyGoal,
    Store.updateGoal all goalId
      (Planner.editUpdates title subject hoursInput minutesInput priority)
    = <[idx := g']> all
    ∧ (∀ today, Api.shouldIncludeGoal today g' = Api.shouldIncludeGoal today g)
    ∧ (∀ today,
         Api.getGoals (<[idx := g']> all) today
         = if Api.shouldIncludeGoal today g
           then <[length (Api.getGoals (take idx all) today) := g']>
                  (Api.getGoals all today)
           else Api.getGoals all today)
    ∧ completed g' = completed g ∧ completedAt g' = completedAt g
    ∧ (completionInvariant g → completionInvariant g')
    ∧ id g' = id g ∧ Types.title g' = title ∧ Types.subject g' = subject
    ∧ Types.priority g' = priority
    ∧ (targetHours g' == inject_Z hoursInput + inject_Z minutesInput / 60)%Q.
Proof.
  intros Hf. unfold Store.updateGoal. rewrite Hf. eexists. split; [reflexivity|].
  destruct (findGoal_Some _ _ _ _ Hf) as (Hl & _ & _).
  simpl. split; [reflexivity|]. split.
  { intros today. unfold Api.getGoals.
    rewrite (filter_insert_same _ all idx g _ Hl) by reflexivity.
    destruct (Api.shouldIncludeGoal today g); reflexivity. }
  split; [reflexivity|]. split; [reflexivity|].
  split; [intros H; exact H|]. repeat split; reflexivity.
Qed.

Lemma planner_edit_keeps_listing_witness :
  ∃ g' : DailyGoal,
    Store.updateGoal [Sample.ohm; Sample.doneEarlier] "g3"
      (Planner.editUpdates "Lenses" Science 2 15 Low)
    = [Sample.ohm; g']
    ∧ Api.shouldIncludeGoal Sample.today g'
      = Api.shouldIncludeGoal Sample.today Sample.doneEarlier.
Proof.
  destruct (planner_edit_keeps_listing [Sample.ohm; Sample.doneEarlier] "g3" "Lenses"
              Science 2 15 Low 1 Sample.doneEarlier) as (g' & Heq & Hvis & _).
  - reflexivity.
  - exists g'. split; [exact Heq | apply Hvis].
Defined.

(** ** The planner's form *)

Lemma Qfloor_unique (x : Q) (n : Z) :
  (inject_Z n <= x)%Q → (x < inject_Z (n + 1))%Q → Qfloor x = n.
Proof.
  intros Hlo Hhi.
  pose proof (Qfloor_le x) as H1. pose proof (Qlt_floor x) as H2.
  assert (Ha : (inject_Z (Qfloor x) < inject_Z (n + 1))%Q) by lra.
  assert (Hb : (inject_Z n < inject_Z (Qfloor x + 1))%Q) by lra.
  rewrite <- Zlt_Qlt in Ha, Hb. lia.
Qed.

Lemma mathRound_inject_Z (k : Z) (x : Q) : (x == inject_Z k)%Q → JS.mathRound x = k.
Proof.
  intros Hx. unfold JS.mathRound. apply Qfloor_unique.
  - rewrite Hx. lra.
  - rewrite Hx, inject_Z_plus. change (inject_Z 1) with 1%Q. lra.
Qed.

Lemma hours_minutes_split (h m : Z) :
  (inject_Z h + inject_Z m / 60
   == inject_Z (h + m / 60) + inject_Z (m mod 60) / 60)%Q.
Proof.
  rewrite (Z.div_mod m 60) at 1 by lia.
  rewrite !inject_Z_plus, inject_Z_mult. change (inject_Z 60) with 60%Q. field.
Qed.

Lemma floor_and_minutes (x : Q) (a b : Z) :
  0 ≤ b < 60 → (x == inject_Z a + inject_Z b / 60)%Q →
  Qfloor x = a ∧ JS.mathRound ((x - inject_Z (Qfloor x)) * 60) = b.
Proof.
  intros Hb Hx.
  assert (Hq : (0 <= inject_Z b < 60)%Q).
  { unfold Qle, Qlt, inject_Z. simpl. lia. }
  assert (Hd : (inject_Z b / 60 == inject_Z b * (1 # 60))%Q) by (field; lra).
  rewrite Hd in Hx.
  assert (Hfl : Qfloor x = a).
  { apply Qfloor_unique.
    - rewrite Hx. lra.
    - rewrite Hx, (inject_Z_plus _ 1). change (inject_Z 1) with 1%Q. lra. }
  split; [exact Hfl|]. rewrite Hfl.
  apply mathRound_inject_Z. rewrite Hx. field.
Qed.

(** X8: opening the editor on a target that the form stored as [h] hours
    and [m] minutes shows the same duration with the minutes carried into the
    hours: [h + m / 60] hours and [m mod 60] minutes; in particular the
    entered values themselves when the minutes are below sixty. *)
Theorem startEdit_roundtrip (h m : Z) (totalHours : Q) :
  (totalHours == inject_Z h + inject_Z m / 60)%Q →
  Planner.startEdit totalHours = (h + m / 60, m mod 60)
  ∧ (0 ≤ m < 60 → Planner.startEdit totalHours = (h, m)).
Proof.
  intros Ht.
  assert (Hgen : Planner.startEdit totalHours = (h + m / 60, m mod 60)).
  { assert (Hmod : 0 ≤ m mod 60 < 60) by (apply Z.mod_pos_bound; lia).
    rewrite hours_minutes_split in Ht.
    destruct (floor_and_minutes _ _ _ Hmod Ht) as [Hfl Hm].
    unfold Planner.startEdit. cbv zeta. rewrite Hm, Hfl. reflexivity. }
  split; [exact Hgen|].
  intros Hm. rewrite Hgen, Z.div_small, Z.mod_small by lia. f_equal. lia.
Qed.

Lemma startEdit_roundtrip_witness :
  Planner.startEdit (targetHours (Planner.newGoal "u" "2026-02-17" "t" Maths 1 75 High))
  = (2, 15).
Proof.
  apply (startEdit_roundtrip 1 75). reflexivity.
Defined.

(** ** The note *)

(** X9: a note that was saved is the note read back, on both stores and
    whatever the settings held before, and the other settings are kept; the
    dashboard shows it unless it is empty, and shows its standard line for an
    empty note and when nothing was ever saved. *)
Theorem note_roundtrip (backend : Api.Backend) (settings : option (gmap string string))
    (note : string) :
  Store.getNote backend (Store.saveNote settings note) = Some note
  ∧ (∀ k, k ≠ Store.noteKey →
       default ∅ (Store.saveNote settings note) !! k = default ∅ settings !! k)
  ∧ (note ≠ "" →
       Summary.motivationalNote (Store.getNote backend (Store.saveNote settings note)) = note)
  ∧ Summary.motivationalNote (Store.getNote backend (Store.saveNote settings ""))
    = "I will not compromise on Science"
  ∧ Summary.motivationalNote (Store.getNote backend None) = "I will not compromise on Science".
Proof.
  assert (Hget : ∀ n, Store.getNote backend (Store.saveNote settings n) = Some n).
  { intros n. unfold Store.getNote, Store.saveNote. destruct backend; simpl.
    - apply lookup_insert_eq.
    - rewrite lookup_insert_eq. destruct n; reflexivity. }
  split; [apply Hget|]. split; [|split; [|split]].
  - intros k Hk. simpl. apply lookup_insert_ne. congruence.
  - intros Hn. rewrite Hget. destruct note; [congruence | reflexivity].
  - rewrite Hget. reflexivity.
  - destruct backend; reflexivity.
Qed.

(** ** Sums of durations *)

Lemma foldl_Qplus_shift {A} (f : A → Q) (l : list A) (a : Q) :
  (foldl (λ acc x, acc + f x) a l == a + foldl (λ acc x, acc + f x) 0 l)%Q.
Proof.
  revert a. induction l as [|x l IH]; intros a; simpl.
  - lra.
  - rewrite (IH (a + f x)%Q), (IH (0 + f x)%Q). lra.
Qed.

Lemma foldl_Qplus_cons {A} (f : A → Q) (l : list A) (x : A) :
  (foldl (λ acc x, acc + f x) 0 (x :: l) == f x + foldl (λ acc x, acc + f x) 0 l)%Q.
Proof. simpl. rewrite foldl_Qplus_shift. lra. Qed.

Lemma foldl_Qplus_app {A} (f : A → Q) (l1 l2 : list A) :
  (foldl (λ acc x, acc + f x) 0 (l1 ++ l2)
   == foldl (λ acc x, acc + f x) 0 l1 + foldl (λ acc x, acc + f x) 0 l2)%Q.
Proof. rewrite foldl_app, foldl_Qplus_shift. reflexivity. Qed.

Lemma foldl_Qplus_Permutation {A} (f : A → Q) (l1 l2 : list A) :
  l1 ≡ₚ l2 →
  (foldl (λ acc x, acc + f x) 0 l1 == foldl (λ acc x, acc + f x) 0 l2)%Q.
Proof.
  induction 1 as [|x l1 l2 _ IH|x y l|l1 l2 l3 _ IH1 _ IH2].
  - reflexivity.
  - rewrite !foldl_Qplus_cons, IH. reflexivity.
  - rewrite !foldl_Qplus_cons. lra.
  - rewrite IH1. exact IH2.
Qed.

Lemma foldl_Qplus_nonneg {A} (f : A → Q) (l : list A) :
  Forall (λ x, 0 <= f x)%Q l → (0 <= foldl (λ acc x, acc + f x) 0 l)%Q.
Proof.
  induction 1 as [|x l Hx _ IH]; [simpl; lra|].
  rewrite foldl_Qplus_cons. lra.
Qed.

Lemma orZero_eq (v : Q) : (Summary.orZero v == v)%Q.
Proof.
  unfold Summary.orZero. destruct (Qeq_bool v 0) eqn:E; [|reflexivity].
  apply Qeq_bool_eq in E. rewrite E. reflexivity.
Qed.

(** ** The subject chart *)

Lemma addMinutes_keys (rec : list (Subject * Q)) (k : Subject) (v : Q) :
  (Summary.addMinutes rec k v).*1
  = if decide (k ∈ rec.*1) then rec.*1 else rec.*1 ++ [k].
Proof.
  induction rec as [|[k' w] rec IH]; cbn [Summary.addMinutes fmap list_fmap fst].
  - destruct (decide (k ∈ [])) as [H|H]; [|reflexivity]. apply elem_of_nil in H as [].
  - destruct (decide (k' = k)) as [->|Hne]; cbn [fmap list_fmap fst].
    + rewrite decide_True by left. reflexivity.
    + rewrite IH. destruct (decide (k ∈ rec.*1)) as [Hin|Hin].
      * rewrite decide_True by (right; exact Hin). reflexivity.
      * rewrite decide_False; [reflexivity|].
        intros H. apply elem_of_cons in H as [H|H]; [congruence | tauto].
Qed.

Lemma addMinutes_sum (rec : list (Subject * Q)) (k : Subject) (v : Q) :
  (JS.sum (Summary.addMinutes rec k v).*2 == JS.sum rec.*2 + v)%Q.
Proof.
  unfold JS.sum.
  change Qplus with (λ acc x : Q, (acc + (λ y, y) x)%Q).
  induction rec as [|[k' w] rec IH].
  - simpl. lra.
  - simpl Summary.addMinutes. destruct (decide (k' = k)) as [->|Hne].
    + rewrite !fmap_cons, !foldl_Qplus_cons. simpl. rewrite orZero_eq. lra.
    + rewrite !fmap_cons, !foldl_Qplus_cons, IH. simpl. lra.
Qed.

Lemma addMinutes_values (rec : list (Subject * Q)) (k : Subject) (v : Q)
    (spec : Subject → Q) :
  NoDup rec.*1 →
  Forall (λ kv, kv.2 == spec kv.1)%Q rec →
  (k ∉ rec.*1 → spec k == 0)%Q →
  Forall (λ kv, kv.2 == spec kv.1 + (if decide (kv.1 = k) then v else 0))%Q
         (Summary.addMinutes rec k v).
Proof.
  induction rec as [|[k' w] rec IH]; intros Hnd Hrec Hnew; simpl.
  - constructor; [|constructor]. simpl. rewrite decide_True by reflexivity.
    rewrite Hnew by apply not_elem_of_nil. reflexivity.
  - apply Forall_cons in Hrec as [Hw Hrec]. simpl in Hw, Hnd.
    apply NoDup_cons in Hnd as [Hk' Hnd].
    destruct (decide (k' = k)) as [->|Hne].
    + constructor.
      * simpl. rewrite decide_True by reflexivity. rewrite orZero_eq, Hw. reflexivity.
      * rewrite Forall_forall in Hrec. apply Forall_forall. intros [k2 w2] H2.
        simpl. rewrite decide_False.
        -- rewrite (Hrec _ H2). simpl. lra.
        -- intros ->. apply Hk'. apply list_elem_of_fmap. exists (k, w2). auto.
    + constructor.
      * simpl. rewrite decide_False by exact Hne. rewrite Hw. lra.
      * apply IH; [exact Hnd | exact Hrec |].
        intros Hk. apply Hnew. intros H. apply elem_of_cons in H as [H|H];
          [simpl in H; congruence | tauto].
Qed.

Lemma firstOccurrences_snoc {A} `{EqDecision A} (l : list A) (x : A) :
  firstOccurrences (l ++ [x])
  = if decide (x ∈ firstOccurrences l) then firstOccurrences l
    else firstOccurrences l ++ [x].
Proof.
  unfold firstOccurrences. rewrite reverse_snoc. simpl.
  destruct (decide_rel elem_of x (reverse l)) as [Hin|Hin].
  - rewrite decide_True; [reflexivity|].
    rewrite elem_of_reverse, elem_of_remove_dups. exact Hin.
  - rewrite decide_False; [rewrite reverse_cons; reflexivity|].
    rewrite elem_of_reverse, elem_of_remove_dups. exact Hin.
Qed.

Lemma elem_of_firstOccurrences {A} `{EqDecision A} (l : list A) (x : A) :
  x ∈ firstOccurrences l ↔ x ∈ l.
Proof.
  unfold firstOccurrences.
  rewrite elem_of_reverse, elem_of_remove_dups, elem_of_reverse. reflexivity.
Qed.

Lemma NoDup_firstOccurrences {A} `{EqDecision A} (l : list A) :
  NoDup (firstOccurrences l).
Proof.
  unfold firstOccurrences. rewrite reverse_Permutation. apply NoDup_remove_dups.
Qed.

Lemma subjectMins_snoc (l : list StudySession) (s : StudySession) :
  Summary.subjectMins (l ++ [s])
  = Summary.addMinutes (Summary.subjectMins l) (ssubject s) (durationMinutes s).
Proof. unfold Summary.subjectMins. rewrite foldl_app. reflexivity. Qed.

Lemma subjectMins_keys (todays : list StudySession) :
  (Summary.subjectMins todays).*1 = firstOccurrences (ssubject <$> todays).
Proof.
  induction todays as [|s l IH] using rev_ind; [reflexivity|].
  rewrite subjectMins_snoc, addMinutes_keys, fmap_app.
  change (ssubject <$> [s]) with [ssubject s].
  rewrite firstOccurrences_snoc, IH. reflexivity.
Qed.

Lemma minutesOfSubject_snoc (k : Subject) (l : list StudySession) (s : StudySession) :
  (minutesOfSubject k (l ++ [s])
   == minutesOfSubject k l + (if decide (ssubject s = k) then durationMinutes s else 0))%Q.
Proof.
  unfold minutesOfSubject. rewrite filter_app, foldl_Qplus_app.
  destruct (decide (ssubject s = k)) as [Hk|Hk].
  - rewrite filter_cons_True, filter_nil by exact Hk. simpl. lra.
  - rewrite filter_cons_False, filter_nil by exact Hk. simpl. lra.
Qed.

Lemma minutesOfSubject_absent (k : Subject) (l : list StudySession) :
  k ∉ ssubject <$> l → minutesOfSubject k l = 0%Q.
Proof.
  intros Hk. unfold minutesOfSubject.
  replace (filter (λ s, ssubject s = k) l) with (@nil StudySession); [reflexivity|].
  symmetry. induction l as [|s l IH]; [reflexivity|].
  rewrite fmap_cons, not_elem_of_cons in Hk. destruct Hk as [Hs Hl].
  rewrite filter_cons_False by congruence. apply IH, Hl.
Qed.

Lemma subjectMins_values (todays : list StudySession) :
  Forall (λ kv, kv.2 == minutesOfSubject kv.1 todays)%Q (Summary.subjectMins todays).
Proof.
  induction todays as [|s l IH] using rev_ind; [constructor|].
  rewrite subjectMins_snoc.
  eapply Forall_impl.
  - apply (addMinutes_values _ _ _ (λ k, minutesOfSubject k l)).
    + rewrite subjectMins_keys. apply NoDup_firstOccurrences.
    + exact IH.
    + rewrite subjectMins_keys, elem_of_firstOccurrences.
      intros Hk. rewrite minutesOfSubject_absent by exact Hk. reflexivity.
  - intros [k w] Hw. simpl in *. rewrite Hw, minutesOfSubject_snoc.
    destruct (decide (k = ssubject s)) as [->|Hne].
    + rewrite decide_True by reflexivity. reflexivity.
    + rewrite decide_False by congruence. reflexivity.
Qed.

Lemma subjectMins_total (todays : list StudySession) :
  (JS.sum (Summary.subjectMins todays).*2 == Summary.totalMinutesStudied todays)%Q.
Proof.
  induction todays as [|s l IH] using rev_ind; [reflexivity|].
  rewrite subjectMins_snoc, addMinutes_sum, IH.
  unfold Summary.totalMinutesStudied. rewrite foldl_app. reflexivity.
Qed.

Lemma chartData_subjectMins (todays : list StudySession) :
  Summary.chartData todays = Summary.subjectMins todays.
Proof.
  unfold Summary.chartData. induction (Summary.subjectMins todays) as [|[k v] l IH];
    [reflexivity|].
  rewrite fmap_cons, IH. reflexivity.
Qed.

(** X10: the subject chart of the dashboard has one slice for each subject
    studied today, in the order in which the subjects first occur among
    today's sessions; a slice carries the minutes of that subject's sessions,
    and the slices add up to the minutes studied today. *)
Theorem chartData_by_subject (todays : list StudySession) :
  (Summary.chartData todays).*1 = firstOccurrences (ssubject <$> todays)
  ∧ NoDup (Summary.chartData todays).*1
  ∧ (∀ k, k ∈ (Summary.chartData todays).*1 ↔ ∃ s, s ∈ todays ∧ ssubject s = k)
  ∧ Forall (λ kv, kv.2 == minutesOfSubject kv.1 todays)%Q (Summary.chartData todays)
  ∧ (JS.sum (Summary.chartData todays).*2 == Summary.totalMinutesStudied todays)%Q.
Proof.
  rewrite chartData_subjectMins, subjectMins_keys.
  split; [reflexivity|]. split; [apply NoDup_firstOccurrences|]. split; [|split].
  - intros k. rewrite elem_of_firstOccurrences, list_elem_of_fmap.
    split; intros (s & H1 & H2); exists s; auto.
  - apply subjectMins_values.
  - apply subjectMins_total.
Qed.

(** ** The bars of the summary *)

Lemma gt_true (x y : Q) : JSNum.gt x y = true ↔ (y < x)%Q.
Proof.
  unfold JSNum.gt. rewrite negb_true_iff. split.
  - intros H. apply Qnot_le_lt. intros Hle. apply Qle_bool_iff in Hle. congruence.
  - intros H. destruct (Qle_bool x y) eqn:E; [|reflexivity].
    apply Qle_bool_iff in E. lra.
Qed.

Lemma gt_false (x y : Q) : JSNum.gt x y = false ↔ (x <= y)%Q.
Proof.
  unfold JSNum.gt. rewrite negb_false_iff. apply Qle_bool_iff.
Qed.

Lemma lt_true (x y : Q) : JSNum.lt x y = true ↔ (x < y)%Q.
Proof. apply (gt_true y x). Qed.

Lemma lt_false (x y : Q) : JSNum.lt x y = false ↔ (y <= x)%Q.
Proof. apply (gt_false y x). Qed.

Lemma percent_le (a t : Q) : (0 < t → (a / t * 100 <= 100 ↔ a <= t))%Q.
Proof.
  intros Ht. assert (Ha : (a == (a / t) * t)%Q) by (field; lra).
  generalize dependent (a / t)%Q. intros r Ha. split; intros H.
  - rewrite Ha. nra.
  - rewrite Ha in H. nra.
Qed.

Lemma percent_ge (a t : Q) : (0 < t → (100 <= a / t * 100 ↔ t <= a))%Q.
Proof.
  intros Ht. assert (Ha : (a == (a / t) * t)%Q) by (field; lra).
  generalize dependent (a / t)%Q. intros r Ha. split; intros H.
  - rewrite Ha. nra.
  - rewrite Ha in H. nra.
Qed.

Lemma percent_nonneg (a t : Q) : (0 < t → 0 <= a → 0 <= a / t * 100)%Q.
Proof.
  intros Ht H0. assert (Ha : (a == (a / t) * t)%Q) by (field; lra).
  generalize dependent (a / t)%Q. intros r Ha. rewrite Ha in H0. nra.
Qed.

Lemma mathRound_comp (x y : Q) : (x == y)%Q → JS.mathRound x = JS.mathRound y.
Proof. intros H. unfold JS.mathRound. apply Qfloor_comp. rewrite H. reflexivity. Qed.

(** The cases of the time bar and of the number beside it. *)
Lemma time_bar_cases (totalMinutes targetMins : Q) :
  (0 <= totalMinutes)%Q →
  (0 <= Summary.timeProgressPercent totalMinutes targetMins <= 100)%Q
  ∧ ((0 < targetMins)%Q →
       (Summary.timeProgressPercent totalMinutes targetMins == 100
        ↔ targetMins <= totalMinutes)%Q
       ∧ ((totalMinutes <= targetMins)%Q →
            Summary.timeLabel totalMinutes targetMins
            = JS.mathRound (Summary.timeProgressPercent totalMinutes targetMins))
       ∧ ((targetMins < totalMinutes)%Q →
            100 ≤ Summary.timeLabel totalMinutes targetMins))
  ∧ ((targetMins == 0)%Q →
       (Summary.timeProgressPercent totalMinutes targetMins == 0)%Q
       ∧ Summary.timeLabel totalMinutes targetMins = JS.mathRound (totalMinutes * 100)).
Proof.
  intros H0. unfold Summary.timeProgressPercent, Summary.timeLabel. cbv zeta.
  destruct (JSNum.gt (targetMins / 60) 0) eqn:Eg.
  - apply gt_true in Eg. assert (Ht : (0 < targetMins)%Q).
    { assert (Hd : (targetMins / 60 == targetMins * (1 # 60))%Q) by (field; lra).
      rewrite Hd in Eg. lra. }
    assert (En : Qeq_bool targetMins 0 = false).
    { destruct (Qeq_bool targetMins 0) eqn:E; [|reflexivity].
      apply Qeq_bool_eq in E. lra. }
    rewrite En.
    pose proof (percent_nonneg totalMinutes targetMins Ht H0) as Hp0.
    pose proof (percent_le totalMinutes targetMins Ht) as Hle.
    pose proof (percent_ge totalMinutes targetMins Ht) as Hge.
    set (p := (totalMinutes / targetMins * 100)%Q) in *.
    split; [|split].
    + split; [apply Q.min_glb; lra | apply Q.le_min_l].
    + intros _. split; [|split].
      * rewrite Q.min_l_iff. exact Hge.
      * intros Hu. apply mathRound_comp. symmetry. apply Q.min_r. tauto.
      * intros Hu. unfold JS.mathRound.
        assert (Hp : (100 <= p)%Q) by (apply Hge; lra).
        apply (Qfloor_resp_le (100 + (1 # 2))). lra.
    + intros Hz. lra.
  - apply gt_false in Eg. assert (Ht : (targetMins <= 0)%Q).
    { assert (Hd : (targetMins / 60 == targetMins * (1 # 60))%Q) by (field; lra).
      rewrite Hd in Eg. lra. }
    split; [lra|]. split; [intros Hpos; lra|].
    intros Hz. split; [reflexivity|].
    assert (En : Qeq_bool targetMins 0 = true) by (apply Qeq_bool_iff; exact Hz).
    rewrite En. apply mathRound_comp. field.
Qed.

Lemma targetMinutes_sum (fetchedGoals : list DailyGoal) :
  (Summary.targetMinutes fetchedGoals == JS.sum (targetHours <$> fetchedGoals) * 60)%Q.
Proof.
  unfold Summary.targetMinutes, JS.sum. rewrite foldl_fmap.
  induction fetchedGoals as [|g l IH] using rev_ind; [reflexivity|].
  rewrite !foldl_app. simpl. rewrite IH. ring.
Qed.

(** X11: the target of the day is the sum of the targets of the listed goals,
    in minutes.  With a positive target the time bar is between empty and full,
    is full exactly when the minutes studied reach the target, and the number
    beside it is the rounded width as long as the target is not exceeded, and
    at least a hundred beyond that; with a target of zero, as when no goal is
    listed, the bar stays empty while the number is a hundred times the minutes
    studied. *)
Theorem time_bar_and_label (fetchedGoals : list DailyGoal) (todays : list StudySession) :
  Forall (λ s, 0 <= durationMinutes s)%Q todays →
  (Summary.targetMinutes fetchedGoals == JS.sum (targetHours <$> fetchedGoals) * 60)%Q
  ∧ (0 <= Summary.timeProgressPercent (Summary.totalMinutesStudied todays)
            (Summary.targetMinutes fetchedGoals) <= 100)%Q
  ∧ ((0 < Summary.targetMinutes fetchedGoals)%Q →
       (Summary.timeProgressPercent (Summary.totalMinutesStudied todays)
          (Summary.targetMinutes fetchedGoals) == 100
        ↔ Summary.targetMinutes fetchedGoals <= Summary.totalMinutesStudied todays)%Q
       ∧ ((Summary.totalMinutesStudied todays <= Summary.targetMinutes fetchedGoals)%Q →
            Summary.timeLabel (Summary.totalMinutesStudied todays)
              (Summary.targetMinutes fetchedGoals)
            = JS.mathRound
                (Summary.timeProgressPercent (Summary.totalMinutesStudied todays)
                   (Summary.targetMinutes fetchedGoals)))
       ∧ ((Summary.targetMinutes fetchedGoals < Summary.totalMinutesStudied todays)%Q →
            100 ≤ Summary.timeLabel (Summary.totalMinutesStudied todays)
                    (Summary.targetMinutes fetchedGoals)))
  ∧ ((Summary.targetMinutes fetchedGoals == 0)%Q →
       (Summary.timeProgressPercent (Summary.totalMinutesStudied todays)
          (Summary.targetMinutes fetchedGoals) == 0)%Q
       ∧ Summary.timeLabel (Summary.totalMinutesStudied todays)
           (Summary.targetMinutes fetchedGoals)
         = JS.mathRound (Summary.totalMinutesStudied todays * 100))
  ∧ (fetchedGoals = [] → Summary.targetMinutes fetchedGoals = 0%Q).
Proof.
  intros Hpos. split; [apply targetMinutes_sum|].
  assert (H0 : (0 <= Summary.totalMinutesStudied todays)%Q)
    by (apply (foldl_Qplus_nonneg durationMinutes), Hpos).
  destruct (time_bar_cases _ (Summary.targetMinutes fetchedGoals) H0) as (H1 & H2 & H3).
  split; [exact H1|]. split; [exact H2|]. split; [exact H3|].
  intros ->. reflexivity.
Qed.

Lemma time_bar_and_label_witness :
  (Summary.timeProgressPercent (Summary.totalMinutesStudied Sample.shortSession)
     (Summary.targetMinutes []) == 0)%Q
  ∧ Summary.timeLabel (Summary.totalMinutesStudied Sample.shortSession)
      (Summary.targetMinutes []) = 5800.
Proof.
  destruct (time_bar_and_label [] Sample.shortSession) as (_ & _ & _ & Hzero & _).
  - repeat constructor. discriminate.
  - destruct Hzero as [Hbar Hlabel]; [reflexivity|].
    split; [exact Hbar | rewrite Hlabel; reflexivity].
Defined.

(** X12: for a goal with a positive target the progress bar of its row has a
    width, at most a hundred, not negative when the hours are not, and it is
    full exactly when the row is marked as on pace. *)
Theorem progress_bar_full_iff_on_pace (g : Dashboard.GoalWithProgress) :
  (0 < targetHours (Dashboard.goal g))%Q →
  ∃ w : Q,
    Summary.progressPercent g = Some w
    ∧ (w <= 100)%Q
    ∧ ((0 <= Dashboard.actualHours g)%Q → (0 <= w)%Q)
    ∧ ((w == 100)%Q ↔ Dashboard.onPace g = true).
Proof.
  intros Ht. unfold Summary.progressPercent, Dashboard.onPace. cbv zeta.
  assert (En : Qeq_bool (targetHours (Dashboard.goal g)) 0 = false).
  { destruct (Qeq_bool _ 0) eqn:E; [|reflexivity]. apply Qeq_bool_eq in E. lra. }
  rewrite En. eexists. split; [reflexivity|]. split; [apply Q.le_min_l|]. split.
  - intros Ha. apply Q.min_glb; [lra|]. apply percent_nonneg; assumption.
  - rewrite Q.min_l_iff, percent_ge by exact Ht. symmetry. apply Qle_bool_iff.
Qed.

Lemma progress_bar_full_iff_on_pace_witness :
  ∃ w : Q,
    Summary.progressPercent (Dashboard.mkProgress Sample.ohm (3 # 2)) = Some w
    ∧ (w == 100)%Q.
Proof.
  destruct (progress_bar_full_iff_on_pace (Dashboard.mkProgress Sample.ohm (3 # 2)))
    as (w & Hw & _ & _ & Hfull).
  - reflexivity.
  - exists w. split; [exact Hw|]. apply Hfull. reflexivity.
Defined.

(** ** Hours and minutes *)

Lemma pow2_le (a b : Z) : a ≤ b → (JS.pow2 a <= JS.pow2 b)%Q.
Proof. intros H. apply Qpower_le_compat_l; [exact H | discriminate]. Qed.

(** A number of magnitude up to [B] and the double that holds it. *)
Lemma double_within (x B : Q) :
  (Qabs x <= B)%Q →
  (Qabs (JS.double x - x) <= B * (1 # 9007199254740992) + (1 # 1152921504606846976))%Q.
Proof.
  intros HB. pose proof (double_error x) as H.
  assert (U : (JS.pow2 (-53) == 1 # 9007199254740992)%Q) by reflexivity.
  assert (E : (JS.pow2 (-1075) <= 1 # 1152921504606846976)%Q).
  { assert (E60 : (JS.pow2 (-60) == 1 # 1152921504606846976)%Q) by reflexivity.
    rewrite <- E60. apply pow2_le. lia. }
  rewrite U in H. pose proof (Qabs_nonneg x).
  set (a := Qabs (JS.double x - x)) in *. set (b := Qabs x) in *.
  set (e := JS.pow2 (-1075)) in *. clearbody a b e. lra.
Qed.

Lemma roundHalfEven_integer (y : Q) (k : Z) :
  (y == inject_Z k)%Q → JS.roundHalfEven y = k.
Proof.
  intros Hy. unfold JS.roundHalfEven. rewrite (Qfloor_comp _ _ Hy), Qfloor_Z.
  assert (E : (y - inject_Z k ?= 1 # 2)%Q = Lt).
  { change (y - inject_Z k < 1 # 2)%Q. lra. }
  rewrite E. reflexivity.
Qed.

(** A whole number below [2 ** 53] is held exactly. *)
Lemma double_integer (x : Q) (k : Z) :
  (x == inject_Z k)%Q → Z.abs k < 2 ^ 53 → (JS.double x == inject_Z k)%Q.
Proof.
  intros Hx Hk. unfold JS.double. destruct (Qeq_bool x 0) eqn:E0.
  - apply Qeq_bool_iff in E0. rewrite <- Hx, E0. reflexivity.
  - assert (Hne : ¬ (x == 0)%Q) by (intros H; apply Qeq_bool_iff in H; congruence).
    assert (Hpos : (0 < Qabs x)%Q) by (revert Hne; apply Qabs_case; intros; lra).
    pose proof (floorLog2_le _ Hpos) as Hfl.
    set (fl := JS.floorLog2 (Qabs x)) in *.
    assert (Habs : (Qabs x == inject_Z (Z.abs k))%Q) by (rewrite Hx; reflexivity).
    assert (Hle : fl ≤ 52).
    { destruct (Z_le_gt_dec fl 52) as [|Hgt]; [assumption|]. exfalso.
      pose proof (pow2_le 53 fl ltac:(lia)) as H53.
      rewrite <- pow2_inject in H53 by lia.
      assert (Hlt : (inject_Z (Z.abs k) < inject_Z (2 ^ 53))%Q)
        by (rewrite <- Zlt_Qlt; exact Hk).
      lra. }
    set (e := Z.max (fl - 52) (-1074)).
    assert (He : e ≤ 0) by lia.
    pose proof (pow2_pos e) as Pe.
    assert (Hinv : (JS.pow2 e * inject_Z (2 ^ (- e)) == 1)%Q).
    { rewrite pow2_inject by lia. rewrite <- pow2_plus.
      replace (e + - e) with 0 by lia. reflexivity. }
    assert (Hy : (x / JS.pow2 e == inject_Z (k * 2 ^ (- e)))%Q).
    { rewrite inject_Z_mult, Hx.
      set (p := JS.pow2 e) in *. set (w := inject_Z (2 ^ (- e))) in *.
      clearbody p w. field_simplify_eq; [|lra]. nra. }
    rewrite (roundHalfEven_integer _ _ Hy), inject_Z_mult.
    set (p := JS.pow2 e) in *. set (w := inject_Z (2 ^ (- e))) in *.
    clearbody p w. nra.
Qed.

(** The hours are the whole part of the double, and the minutes lie between
    0 and 60. *)
Lemma hoursAndMinutes_range (x : Q) :
  (Summary.hoursAndMinutes x).1 = Qfloor (JS.double x)
  ∧ 0 ≤ (Summary.hoursAndMinutes x).2 ≤ 60.
Proof.
  unfold Summary.hoursAndMinutes. cbv zeta. cbn [fst snd]. split; [reflexivity|].
  set (d := JS.double x).
  pose proof (Qfloor_le d) as Hlo. pose proof (Qlt_floor d) as Hhi.
  rewrite inject_Z_plus in Hhi. change (inject_Z 1) with 1%Q in Hhi.
  set (f := (d - inject_Z (Qfloor d))%Q) in *.
  assert (Hf : (0 <= f < 1)%Q) by (unfold f; lra).
  pose proof (double_within f 1) as Hs.
  apply Qabs_Qle_condition in Hs; [|apply Qabs_Qle_condition; lra].
  set (s := JS.double f) in *.
  pose proof (double_within (s * 60) 61) as Hp.
  apply Qabs_Qle_condition in Hp; [|apply Qabs_Qle_condition; lra].
  set (p := JS.double (s * 60)) in *.
  unfold JS.mathRound. split.
  - apply (Qfloor_resp_le 0). lra.
  - apply (Qfloor_resp_le _ (60 + (3 # 4))). lra.
Qed.

(** A duration of whole minutes, below [2 ** 40] hours, is shown exactly. *)
Lemma hoursAndMinutes_exact (x : Q) (q r : Z) :
  0 ≤ q < 2 ^ 40 → 0 ≤ r < 60 →
  (x == inject_Z q + inject_Z r / 60)%Q →
  Summary.hoursAndMinutes x = (q, r).
Proof.
  intros Hq Hr Hx. unfold Summary.hoursAndMinutes. cbv zeta.
  assert (Hd : (inject_Z r / 60 == inject_Z r * (1 # 60))%Q) by (field; lra).
  rewrite Hd in Hx. clear Hd.
  assert (Hq' : (0 <= inject_Z q <= 1099511627775)%Q).
  { change 0%Q with (inject_Z 0). change 1099511627775%Q with (inject_Z 1099511627775).
    rewrite <- !Zle_Qle. lia. }
  set (d := JS.double x).
  destruct (decide (r = 0)) as [->|Hr0].
  - assert (Ed : (d == inject_Z q)%Q).
    { apply double_integer; [rewrite Hx; change (inject_Z 0) with 0%Q; lra | lia]. }
    rewrite (Qfloor_comp _ _ Ed), Qfloor_Z. f_equal.
    assert (E0 : Qeq_bool (d - inject_Z q) 0 = true) by (apply Qeq_bool_iff; lra).
    unfold JS.double at 2. rewrite E0. reflexivity.
  - assert (Hr' : (1 <= inject_Z r <= 59)%Q).
    { change 1%Q with (inject_Z 1). change 59%Q with (inject_Z 59).
      rewrite <- !Zle_Qle. lia. }
    pose proof (double_within x 1099511627776) as Hdx. fold d in Hdx.
    apply Qabs_Qle_condition in Hdx; [|apply Qabs_Qle_condition; lra].
    assert (Hfl : Qfloor d = q).
    { apply Qfloor_unique; [|rewrite inject_Z_plus; change (inject_Z 1) with 1%Q]; lra. }
    rewrite Hfl. f_equal.
    set (f := (d - inject_Z q)%Q) in *.
    pose proof (double_within f 1) as Hs.
    apply Qabs_Qle_condition in Hs; [|apply Qabs_Qle_condition; unfold f; lra].
    set (s := JS.double f) in *.
    pose proof (double_within (s * 60) 61) as Hp.
    apply Qabs_Qle_condition in Hp; [|apply Qabs_Qle_condition; unfold f in *; lra].
    set (p := JS.double (s * 60)) in *.
    unfold JS.mathRound. apply Qfloor_unique;
      [|rewrite inject_Z_plus; change (inject_Z 1) with 1%Q]; unfold f in *; lra.
Qed.

(** X13: the duration text shows the whole hours of the duration and minutes
    from 0 to 60.  A duration of whole minutes, below [2 ** 40] hours, is
    shown exactly, and for hours given to one decimal the minutes are six
    times the decimal digit.  The difference and the product are formed in
    doubles, so the minutes are not always those nearest to the duration:
    sixty minutes and a half are shown as one hour and no minute; and just
    below a full hour the minutes are 60. *)
Theorem formatDurationHelper_minutes (decimalHours : Q) :
  ∃ h m : Z,
    Summary.hoursAndMinutes decimalHours = (h, m)
    ∧ Summary.formatDurationHelper decimalHours
      = JS.showInt h +:+ "h " +:+ JS.showInt m +:+ "m"
    ∧ h = Qfloor (JS.double decimalHours)
    ∧ 0 ≤ m ≤ 60
    ∧ (∀ n : Z, 0 ≤ n < 60 * 2 ^ 40 → (decimalHours == inject_Z n / 60)%Q →
         h = n / 60 ∧ m = n mod 60)
    ∧ (∀ n : Z, 0 ≤ n < 10 * 2 ^ 40 → (decimalHours == n # 10)%Q →
         h = n / 10 ∧ m = 6 * (n mod 10))
    ∧ Summary.formatDurationHelper (121 / 120) = "1h 0m"
    ∧ Summary.formatDurationHelper (199 / 200) = "0h 60m".
Proof.
  destruct (hoursAndMinutes_range decimalHours) as [Hh Hm].
  unfold Summary.formatDurationHelper.
  destruct (Summary.hoursAndMinutes decimalHours) as [h m] eqn:E. cbn [fst snd] in *.
  exists h, m. split; [reflexivity|]. split; [reflexivity|].
  split; [exact Hh|]. split; [exact Hm|]. split; [|split; [|split]].
  - intros n Hn Hx.
    assert (Hmod : 0 ≤ n mod 60 < 60) by (apply Z.mod_pos_bound; lia).
    assert (Hdiv : 0 ≤ n / 60 < 2 ^ 40) by (Z.div_mod_to_equations; lia).
    assert (Hx' : (decimalHours == inject_Z (n / 60) + inject_Z (n mod 60) / 60)%Q).
    { rewrite Hx. rewrite (Z.div_mod n 60) at 1 by lia.
      rewrite inject_Z_plus, inject_Z_mult. change (inject_Z 60) with 60%Q. field. }
    rewrite (hoursAndMinutes_exact _ _ _ Hdiv Hmod Hx') in E.
    injection E as <- <-. auto.
  - intros n Hn Hx.
    assert (Hmod : 0 ≤ n mod 10 < 10) by (apply Z.mod_pos_bound; lia).
    assert (Hmod6 : 0 ≤ 6 * (n mod 10) < 60) by lia.
    assert (Hdiv : 0 ≤ n / 10 < 2 ^ 40) by (Z.div_mod_to_equations; lia).
    assert (Hx' : (decimalHours
                   == inject_Z (n / 10) + inject_Z (6 * (n mod 10)) / 60)%Q).
    { rewrite Hx. rewrite (Z.div_mod n 10) at 1 by lia.
      rewrite inject_Z_mult. change (inject_Z 6) with 6%Q.
      unfold Qeq, Qplus, Qdiv, Qmult, Qinv, inject_Z. simpl. lia. }
    rewrite (hoursAndMinutes_exact _ _ _ Hdiv Hmod6 Hx') in E.
    injection E as <- <-. auto.
  - vm_compute. reflexivity.
  - vm_compute. reflexivity.
Qed.

(** ** The header counts *)

Lemma filter_fmap_length {A B} (f : A → B) (P : B → Prop) `{!∀ x, Decision (P x)}
    (l : list A) :
  length (filter P (f <$> l)) = length (filter (λ x, P (f x)) l).
Proof.
  induction l as [|x l IH]; [reflexivity|].
  rewrite fmap_cons, !filter_cons. destruct (decide (P (f x))); simpl; lia.
Qed.

Lemma goalCounts_eq (backend : Api.Backend) (goals : list DailyGoal)
    (sessions : list StudySession) (today : string) :
  Summary.goalCounts backend goals sessions today
  = App.updateHeaderStats None goals today.
Proof.
  unfold Summary.goalCounts, App.updateHeaderStats, Dashboard.displayedGoals. cbv zeta.
  f_equal. rewrite (Permutation_length (filter_Permutation _ _ _ (sort_Permutation _ _))).
  unfold Dashboard.goalsWithProgress. apply filter_fmap_length.
Qed.

Lemma filter_lookup_position {A} (P : A → Prop) `{!∀ x, Decision (P x)}
    (l : list A) (i : nat) (x : A) :
  l !! i = Some x → P x → filter P l !! length (filter P (take i l)) = Some x.
Proof.
  revert i. induction l as [|a l IH]; intros i Hl Hx; [discriminate|].
  destruct i as [|i]; simpl in Hl.
  - injection Hl as ->. rewrite filter_cons_True by exact Hx. reflexivity.
  - simpl. rewrite !filter_cons. destruct (decide (P a)); simpl; apply IH; assumption.
Qed.

Lemma filter_insert_length {A} (C : A → Prop) `{!∀ x, Decision (C x)}
    (l : list A) (k : nat) (x y : A) :
  l !! k = Some x →
  (length (filter C (<[k := y]> l)) + (if decide (C x) then 1 else 0)
   = length (filter C l) + (if decide (C y) then 1 else 0))%nat.
Proof.
  revert k. induction l as [|a l IH]; intros k Hl; [discriminate|].
  destruct k as [|k]; simpl in Hl.
  - injection Hl as ->. simpl. rewrite !filter_cons.
    destruct (decide (C x)), (decide (C y)); simpl; lia.
  - simpl. rewrite !filter_cons. specialize (IH k Hl).
    destruct (decide (C a)); simpl; lia.
Qed.

(** X14: the dashboard, the planner and the header itself count the same
    goals: as many as are listed today, and the completed ones among them, so
    that the completed never exceed the total and the task bar is between
    empty and full. *)
Theorem header_counts_agree (backend : Api.Backend) (goals : list DailyGoal)
    (sessions : list StudySession) (today : string) :
  Summary.goalCounts backend goals sessions today = App.updateHeaderStats None goals today
  ∧ (Planner.fetchGoals goals today).2 = App.updateHeaderStats None goals today
  ∧ App.updateHeaderStats (Some (Summary.goalCounts backend goals sessions today))
      goals today = App.updateHeaderStats None goals today
  ∧ ((App.updateHeaderStats None goals today).1
     = length (Dashboard.displayedGoals backend goals sessions today))
  ∧ ((App.updateHeaderStats None goals today).2
     ≤ (App.updateHeaderStats None goals today).1)%nat
  ∧ (0 <= Summary.taskProgressPercent (App.updateHeaderStats None goals today).2
             (App.updateHeaderStats None goals today).1 <= 100)%Q.
Proof.
  split; [apply goalCounts_eq|]. split; [reflexivity|].
  split; [simpl; apply goalCounts_eq|].
  assert (Hle : ((App.updateHeaderStats None goals today).2
                 ≤ (App.updateHeaderStats None goals today).1)%nat).
  { simpl. apply length_filter. }
  split; [|split; [exact Hle|]].
  - simpl. unfold Dashboard.displayedGoals, Dashboard.goalsWithProgress. cbv zeta.
    rewrite sort_length, length_map. reflexivity.
  - revert Hle. generalize (App.updateHeaderStats None goals today).2.
    generalize (App.updateHeaderStats None goals today).1. intros t c Hle.
    unfold Summary.taskProgressPercent. destruct (0 <? t)%nat eqn:E; [|lra].
    apply Nat.ltb_lt in E.
    assert (Ht : (0 < inject_Z (Z.of_nat t))%Q).
    { change 0%Q with (inject_Z 0). rewrite <- Zlt_Qlt. lia. }
    assert (Hc : (0 <= inject_Z (Z.of_nat c) <= inject_Z (Z.of_nat t))%Q).
    { change 0%Q with (inject_Z 0). rewrite <- !Zle_Qle. lia. }
    split; [apply percent_nonneg; tauto | apply percent_le; tauto].
Qed.

(** X15: ticking a goal on the dashboard that is listed today, and is the
    first stored under its identifier, leaves the total of the header as it is
    and moves its completed count by exactly one, up for a goal that was
    incomplete and down for one that was complete. *)
Theorem toggle_moves_header_by_one (all : list DailyGoal) (g : DailyGoal)
    (i today : string) (idx : nat) :
  id g = Some i → i ≠ "" →
  Api.findGoal all i = Some (idx, g) →
  g ∈ Api.getGoals all today →
  (App.updateHeaderStats None (Dashboard.toggleGoalCompletion all g today) today).1
  = (App.updateHeaderStats None all today).1
  ∧ (App.updateHeaderStats None (Dashboard.toggleGoalCompletion all g today) today).2
    = (if completed g
       then Nat.pred (App.updateHeaderStats None all today).2
       else S (App.updateHeaderStats None all today).2)
  ∧ (completed g = true → (1 ≤ (App.updateHeaderStats None all today).2)%nat).
Proof.
  intros Hid Hne Hfind Hvis.
  assert (Htog : Dashboard.toggleGoalCompletion all g today
                 = <[idx := Api.applyUpdates g (Api.toggleUpdates (completed g) today)]> all).
  { unfold Dashboard.toggleGoalCompletion. rewrite Hid.
    assert (Ht : JS.truthy i = true).
    { unfold JS.truthy. apply negb_true_iff. apply String.eqb_neq. exact Hne. }
    rewrite Ht. apply toggleGoal_found. exact Hfind. }
  rewrite Htog. clear Htog.
  destruct (findGoal_Some _ _ _ _ Hfind) as (Hl & _ & _).
  unfold Api.getGoals in Hvis. apply list_elem_of_filter in Hvis as [Hvis _].
  apply Is_true_true in Hvis.
  pose proof (toggled_visible_today today g (completed g) Hvis) as Hvis'.
  set (g' := Api.applyUpdates g (Api.toggleUpdates (completed g) today)) in *.
  assert (Hget : Api.getGoals (<[idx := g']> all) today
                 = <[length (Api.getGoals (take idx all) today) := g']>
                     (Api.getGoals all today)).
  { unfold Api.getGoals.
    rewrite (filter_insert_same _ all idx g g' Hl) by (rewrite Hvis, Hvis'; tauto).
    rewrite decide_True by (apply Is_true_true; exact Hvis). reflexivity. }
  assert (Hpos : Api.getGoals all today !! length (Api.getGoals (take idx all) today)
                 = Some g).
  { unfold Api.getGoals. apply filter_lookup_position; [exact Hl|].
    apply Is_true_true. exact Hvis. }
  simpl. rewrite Hget. split; [apply length_insert|].
  pose proof (filter_insert_length (λ g0, completed g0 = true) _ _ _ g' Hpos) as Hcount.
  assert (Hg' : completed g' = negb (completed g)) by reflexivity.
  destruct (completed g) eqn:Ec.
  - rewrite decide_True in Hcount by exact Ec.
    rewrite decide_False in Hcount by (rewrite Hg'; discriminate).
    split; [lia|]. intros _. lia.
  - rewrite decide_False in Hcount by (rewrite Ec; discriminate).
    rewrite decide_True in Hcount by (rewrite Hg'; reflexivity).
    split; [lia|]. discriminate.
Qed.

Lemma toggle_moves_header_by_one_witness :
  (App.updateHeaderStats None
     (Dashboard.toggleGoalCompletion [Sample.ohm; Sample.untouched] Sample.untouched
        Sample.today) Sample.today).2
  = S (App.updateHeaderStats None [Sample.ohm; Sample.untouched] Sample.today).2.
Proof.
  refine (proj1 (proj2 (toggle_moves_header_by_one [Sample.ohm; Sample.untouched]
                          Sample.untouched "g4" Sample.today 1 _ _ _ _))).
  - reflexivity.
  - discriminate.
  - reflexivity.
  - vm_compute. constructor. constructor.
Defined.

(** ** The history *)

Lemma getSessions_sorted (backend : Api.Backend) (all : list StudySession) :
  StronglySorted newestFirst (Api.getSessions backend all None).
Proof.
  destruct backend; unfold Api.getSessions; cbn [Api.dateFilter];
    [|apply byEndTimeDesc_sorted].
  apply (StronglySorted_app_1_l _ _ (drop Api.pageSize (JS.sort Api.byEndTimeDesc all))).
  rewrite take_drop. apply byEndTimeDesc_sorted.
Qed.

(** X16: the history of the dashboard is the first five of the fetched
    sessions: as many as there are up to five, of any day, each a stored
    session, newest first, and no fetched session left out ends later than one
    that is shown. *)
Theorem recentSessions_newest (backend : Api.Backend) (all : list StudySession) :
  length (Summary.recentSessions (Api.getSessions backend all None))
  = Nat.min 5 (length (Api.getSessions backend all None))
  ∧ StronglySorted newestFirst (Summary.recentSessions (Api.getSessions backend all None))
  ∧ (∀ s, s ∈ Summary.recentSessions (Api.getSessions backend all None) → s ∈ all)
  ∧ (∀ a b, a ∈ Summary.recentSessions (Api.getSessions backend all None) →
            b ∈ drop 5 (Api.getSessions backend all None) →
            endTime b ≤ endTime a)
  ∧ ((length all ≤ 5)%nat →
       Summary.recentSessions (Api.getSessions backend all None) ≡ₚ all).
Proof.
  unfold Summary.recentSessions.
  pose proof (getSessions_sorted backend all) as Hs.
  rewrite <- (take_drop 5 (Api.getSessions backend all None)) in Hs.
  split; [apply length_take|]. split; [eapply StronglySorted_app_1_l, Hs|].
  split; [|split].
  - intros s Hin. apply elem_of_take in Hin as (i & Hi & _).
    apply list_elem_of_lookup_2 in Hi.
    destruct backend; unfold Api.getSessions in Hi; cbn [Api.dateFilter] in Hi.
    + apply elem_of_take in Hi as (j & Hj & _). apply list_elem_of_lookup_2 in Hj.
      apply sort_elem_of in Hj. exact Hj.
    + apply sort_elem_of in Hi. exact Hi.
  - intros a b Ha Hb. apply (StronglySorted_app_1_elem_of _ _ _ _ _ Hs Ha Hb).
  - intros Hlen.
    assert (Hfetch : Api.getSessions backend all None ≡ₚ all).
    { destruct backend; unfold Api.getSessions; cbn [Api.dateFilter].
      - rewrite take_ge by (rewrite sort_length; unfold Api.pageSize; lia).
        apply sort_Permutation.
      - apply sort_Permutation. }
    rewrite take_ge; [exact Hfetch|].
    rewrite (Permutation_length Hfetch). exact Hlen.
Qed.

(** ** The heatmap *)

Lemma dayMinsVal_minutesOn (d : string) (sessions : list StudySession) :
  Insights.dayMinsVal d sessions = minutesOn d sessions.
Proof.
  unfold Insights.dayMinsVal, minutesOn. f_equal. apply list_filter_iff.
  intros s. rewrite Is_true_true. apply strEq_true.
Qed.

Lemma month_window (now : JSDate.civil) (i : nat) :
  calendarDay now → 1 ≤ JSDate.year now → (i < 30)%nat →
  calendarDay (JSDate.minusDays i now)
  ∧ dayNumber (JSDate.minusDays i now) = dayNumber now - Z.of_nat i
  ∧ JSDate.toISODate (JSDate.minusDays i now) = Some (isoOf (JSDate.minusDays i now)).
Proof.
  intros Hc Hy Hi. pose proof (window_dayNumber now Hc Hy) as Hn.
  destruct (minusDays_calendarDay now i Hc) as [Hci Hni]; [lia|].
  split; [exact Hci|]. split; [exact Hni|]. apply toISODate_isoOf, Hci.
Qed.

Lemma heatmapData_eq (z : Clock.zone) (t : Clock.instant) (now : JSDate.civil)
    (sessions : list StudySession) :
  Clock.utcDay t = now → calendarDay now → 1 ≤ JSDate.year now →
  0 ≤ Clock.msOfDay t < Clock.msPerDay →
  (∀ i, (i < 30)%nat → sameOffset z (Clock.getTime t) i) →
  Insights.heatmapData z t sessions
  = Some ((λ c, Insights.mkCell (isoOf c) (minutesOn (isoOf c) sessions)
                  (Insights.intensityOf (minutesOn (isoOf c) sessions)))
          <$> lastDays 30 now).
Proof.
  intros Hday Hc Hy Hms Hz. unfold Insights.heatmapData.
  rewrite (windowDays_lastDays z 30 t Hms Hz), Hday. apply mapM_Some_2.
  apply Forall2_fmap_r, Forall_Forall2_diag, Forall_forall. intros c Hin.
  apply list_elem_of_lookup in Hin as [i Hi].
  assert (Hi' : (i < 30)%nat)
    by (apply lookup_lt_Some in Hi; rewrite lastDays_length in Hi; exact Hi).
  rewrite lastDays_lookup in Hi by exact Hi'. injection Hi as <-.
  destruct (month_window now (29 - i) Hc Hy) as (_ & _ & Hs); [lia|].
  change (30 - 1 - i)%nat with (29 - i)%nat. cbv beta.
  rewrite Hs. cbn [mbind option_bind]. rewrite dayMinsVal_minutesOn. reflexivity.
Qed.

Lemma intensityOf_spec (v : Q) :
  ((v == 0)%Q ↔ Insights.intensityOf v = 0)
  ∧ ((v < 60 ∧ ¬ v == 0)%Q ↔ Insights.intensityOf v = 1)
  ∧ ((60 <= v < 120)%Q ↔ Insights.intensityOf v = 2)
  ∧ ((120 <= v < 240)%Q ↔ Insights.intensityOf v = 3)
  ∧ ((240 <= v)%Q ↔ Insights.intensityOf v = 4).
Proof.
  unfold Insights.intensityOf.
  destruct (Qeq_bool v 0) eqn:E0.
  { apply Qeq_bool_eq in E0. repeat split; intros; try discriminate; try lra. }
  assert (H0 : ¬ (v == 0)%Q) by (apply Qeq_bool_neq; exact E0).
  destruct (JSNum.lt v 60) eqn:E1.
  { apply lt_true in E1. repeat split; intros; try discriminate; try lra; tauto. }
  apply lt_false in E1.
  destruct (JSNum.lt v 120) eqn:E2.
  { apply lt_true in E2. repeat split; intros; try discriminate; try lra; tauto. }
  apply lt_false in E2.
  destruct (JSNum.lt v 240) eqn:E3.
  { apply lt_true in E3. repeat split; intros; try discriminate; try lra; tauto. }
  apply lt_false in E3.
  repeat split; intros; try discriminate; try lra; tauto.
Qed.



Lemma toFixed1_zero (x : Q) : (x == 0)%Q → (JS.toFixed1 x == 0)%Q.
Proof.
  intros Hx. unfold JS.toFixed1, JS.double.
  assert (E0 : Qeq_bool x 0 = true) by (apply Qeq_bool_iff; exact Hx).
  rewrite E0. reflexivity.
Qed.

(** X18: where no change of the clocks is felt within the last thirty days,
    the fourteen points of the trend are the last fourteen squares of the
    heatmap: point [i] and square [16 + i] stand for the same day, the point
    labelled with the month and day of the square's date and valued with the
    square's minutes in hours, printed with one decimal; a square without
    shade has a point at zero. *)
Theorem trend_matches_heatmap (z : Clock.zone) (now : Clock.instant)
    (sessions : list StudySession) :
  calendarDay (Clock.utcDay now) → 1 ≤ JSDate.year (Clock.utcDay now) →
  0 ≤ Clock.msOfDay now < Clock.msPerDay →
  (∀ i, (i < 30)%nat → sameOffset z (Clock.getTime now) i) →
  Forall (λ s, JS.inherited (sdate s) = false) sessions →
  ∃ (data : list Analytics.TrendPoint) (cells : list Insights.HeatCell),
    Analytics.trendChartData z now sessions = Some data
    ∧ Insights.heatmapData z now sessions = Some cells
    ∧ ∀ i, (i < 14)%nat →
        ∃ p cell, data !! i = Some p ∧ cells !! (16 + i)%nat = Some cell
          ∧ Analytics.label p = Analytics.substring5 (Insights.cellDate cell)
          ∧ Analytics.hours p = JS.toFixed1 (Insights.mins cell / 60)
          ∧ (Insights.intensity cell = 0 → (Analytics.hours p == 0)%Q).
Proof.
  intros Hc Hy Hms Hz Hown. eexists _, _.
  split; [apply (trendChartData_eq (Clock.utcDay now) Hc Hy z now sessions); auto;
          intros i Hi; apply Hz; lia|].
  split; [apply (heatmapData_eq z now (Clock.utcDay now) sessions); auto|].
  intros i Hi. eexists _, _.
  rewrite !list_lookup_fmap, !lastDays_lookup by lia.
  replace (30 - 1 - (16 + i))%nat with (14 - 1 - i)%nat by lia.
  split; [reflexivity|]. split; [reflexivity|]. simpl.
  split; [reflexivity|]. split; [reflexivity|].
  intros H0. apply intensityOf_spec in H0. apply toFixed1_zero. rewrite H0. reflexivity.
Qed.

Lemma trend_matches_heatmap_witness :
  ∃ (data : list Analytics.TrendPoint) (cells : list Insights.HeatCell),
    Analytics.trendChartData Sample.kolkata Sample.noon Sample.twoDays = Some data
    ∧ Insights.heatmapData Sample.kolkata Sample.noon Sample.twoDays = Some cells.
Proof.
  destruct (trend_matches_heatmap Sample.kolkata Sample.noon Sample.twoDays)
    as (data & cells & Hd & Hcells & _).
  - split; [reflexivity | simpl; lia].
  - simpl. lia.
  - vm_compute. split; [discriminate | reflexivity].
  - intros i _. apply fixedOffset_sameOffset. exists 19800000. intros t. split; reflexivity.
  - repeat constructor.
  - exists data, cells. split; [exact Hd | exact Hcells].
Defined.

(** ** The best day *)








(** ** The session tracker *)

Lemma truthy_true (s : string) : s ≠ "" → JS.truthy s = true.
Proof. intros H. unfold JS.truthy. apply negb_true_iff, String.eqb_neq, H. Qed.

Lemma handleGoalSelect_found (activeGoals : list DailyGoal) (gId : string)
    (idx : nat) (g : DailyGoal) (t : SessionTracker.Tracker) :
  Api.findGoal activeGoals gId = Some (idx, g) →
  SessionTracker.handleGoalSelect activeGoals gId t
  = SessionTracker.mkTracker gId (Some (subject g)) (title g)
      (SessionTracker.startTimeRef t).
Proof.
  unfold Api.findGoal, SessionTracker.handleGoalSelect. intros ->. reflexivity.
Qed.

Lemma getSessions_Permutation (backend : Api.Backend) (all : list StudySession) :
  (backend = Api.Firebase → (length all ≤ Api.pageSize)%nat) →
  Api.getSessions backend all None ≡ₚ all.
Proof.
  intros Hlen. destruct backend; unfold Api.getSessions; cbn [Api.dateFilter].
  - rewrite take_ge by (rewrite sort_length; apply Hlen; reflexivity).
    apply sort_Permutation.
  - apply sort_Permutation.
Qed.

Lemma goalSpecificMinutes_Permutation (today : string) (g : DailyGoal)
    (l1 l2 : list StudySession) :
  l1 ≡ₚ l2 →
  (Dashboard.goalSpecificMinutes (Dashboard.todaysSessions today l1) g
   == Dashboard.goalSpecificMinutes (Dashboard.todaysSessions today l2) g)%Q.
Proof.
  intros Hp. unfold Dashboard.goalSpecificMinutes.
  rewrite !matchingSessions_attributed. unfold attributedSessions.
  apply (foldl_Qplus_Permutation durationMinutes), filter_Permutation, Hp.
Qed.

(** A stored session of today that carries the subject and the title of a
    goal adds its minutes to the minutes counted for the goal. *)
Lemma session_counts_for_goal (backend : Api.Backend) (sessions : list StudySession)
    (s : StudySession) (newId today : string) (g : DailyGoal) :
  (backend = Api.Firebase → (length sessions < Api.pageSize)%nat) →
  sdate s = today → ssubject s = subject g → topic s = title g →
  (Dashboard.goalSpecificMinutes
     (Dashboard.todaysSessions today
        (Api.getSessions backend (Store.addSession sessions s newId) None)) g
   == Dashboard.goalSpecificMinutes
        (Dashboard.todaysSessions today (Api.getSessions backend sessions None)) g
      + durationMinutes s)%Q.
Proof.
  intros Hlen Hd Hs Ht.
  rewrite (goalSpecificMinutes_Permutation today g _ (Store.addSession sessions s newId)).
  2:{ apply getSessions_Permutation. intros Hb. unfold Store.addSession.
      rewrite length_app. simpl. specialize (Hlen Hb). lia. }
  rewrite (goalSpecificMinutes_Permutation today g
             (Api.getSessions backend sessions None) sessions).
  2:{ apply getSessions_Permutation. intros Hb. specialize (Hlen Hb). lia. }
  unfold Dashboard.goalSpecificMinutes. rewrite !matchingSessions_attributed.
  unfold attributedSessions, Store.addSession.
  rewrite filter_app, (foldl_Qplus_app durationMinutes).
  rewrite filter_cons_True by (simpl; auto). rewrite filter_nil. simpl. lra.
Qed.

(** X20: with a goal chosen in the tracker, stopping the timer saves a session
    exactly when at least five seconds have passed since the start.  The
    session carries the subject and the title of the chosen goal, today's
    date and the elapsed time in minutes, which is at least a twelfth of a
    minute; once stored it adds exactly these minutes to the minutes the
    dashboard counts for the goal.  The timer is reset either way. *)
Theorem timed_session_counts_for_goal (activeGoals : list DailyGoal)
    (gId uid today : string) (idx : nat) (g : DailyGoal)
    (t0 : SessionTracker.Tracker) (start stop : Z) :
  gId ≠ "" →
  Api.findGoal activeGoals gId = Some (idx, g) →
  let t := SessionTracker.startTimer start
             (SessionTracker.handleGoalSelect activeGoals gId t0) in
  SessionTracker.startTimeRef (SessionTracker.stopTimer stop uid today t).1 = None
  ∧ (stop - start < 5000 → (SessionTracker.stopTimer stop uid today t).2 = None)
  ∧ (5000 ≤ stop - start →
     ∃ s : StudySession,
       (SessionTracker.stopTimer stop uid today t).2 = Some s
       ∧ ssubject s = subject g ∧ topic s = title g ∧ sdate s = today
       ∧ startTime s = start ∧ endTime s = stop
       ∧ (durationMinutes s == inject_Z (stop - start) / 60000)%Q
       ∧ (1 # 12 <= durationMinutes s)%Q
       ∧ ∀ backend sessions newId,
           (backend = Api.Firebase → (length sessions < Api.pageSize)%nat) →
           (Dashboard.goalSpecificMinutes
              (Dashboard.todaysSessions today
                 (Api.getSessions backend (Store.addSession sessions s newId) None)) g
            == Dashboard.goalSpecificMinutes
                 (Dashboard.todaysSessions today
                    (Api.getSessions backend sessions None)) g
               + durationMinutes s)%Q).
Proof.
  intros Hne Hfind. cbv zeta.
  rewrite (handleGoalSelect_found _ _ _ _ _ Hfind).
  unfold SessionTracker.startTimer. cbn [SessionTracker.selectedGoalId].
  rewrite (truthy_true _ Hne).
  unfold SessionTracker.stopTimer.
  cbn [SessionTracker.startTimeRef SessionTracker.selectedGoalId
       SessionTracker.subject SessionTracker.topic fst snd].
  split; [reflexivity|].
  assert (Hsec : (inject_Z (stop - start) / 1000
                  == inject_Z (stop - start) * (1 # 1000))%Q) by (field; lra).
  split.
  - intros Hshort.
    destruct (Qle_bool 5 (inject_Z (stop - start) / 1000)) eqn:E; [|reflexivity].
    apply Qle_bool_iff in E. rewrite Hsec in E.
    assert (Hq : (inject_Z (stop - start) < inject_Z 5000)%Q) by (rewrite <- Zlt_Qlt; lia).
    change (inject_Z 5000) with 5000%Q in Hq. lra.
  - intros Hlong.
    assert (Hq : (inject_Z 5000 <= inject_Z (stop - start))%Q) by (rewrite <- Zle_Qle; lia).
    change (inject_Z 5000) with 5000%Q in Hq.
    assert (E : Qle_bool 5 (inject_Z (stop - start) / 1000) = true).
    { apply Qle_bool_iff. rewrite Hsec. lra. }
    rewrite E. unfold SessionTracker.saveSession.
    cbn [SessionTracker.subject SessionTracker.topic mbind option_bind].
    eexists. split; [reflexivity|]. cbn [ssubject topic sdate startTime endTime durationMinutes].
    repeat (split; [reflexivity|]).
    assert (Hmin : (inject_Z (stop - start) / 1000 / 60
                    == inject_Z (stop - start) * (1 # 60000))%Q) by (field; lra).
    split; [rewrite Hmin; field|]. split; [rewrite Hmin; lra|].
    intros backend sessions newId Hlen.
    apply session_counts_for_goal; [exact Hlen|reflexivity..].
Qed.

Lemma timed_session_counts_for_goal_witness :
  ∃ s : StudySession,
    (SessionTracker.stopTimer 90000 "u1" Sample.today
       (SessionTracker.startTimer 0
          (SessionTracker.handleGoalSelect [Sample.ohm; Sample.untouched] "g4"
             (SessionTracker.mkTracker "" None "" None)))).2 = Some s
    ∧ topic s = "Acids" ∧ (durationMinutes s == 3 # 2)%Q.
Proof.
  destruct (timed_session_counts_for_goal [Sample.ohm; Sample.untouched] "g4" "u1"
              Sample.today 1 Sample.untouched
              (SessionTracker.mkTracker "" None "" None) 0 90000)
    as (_ & _ & Hsave).
  - discriminate.
  - reflexivity.
  - destruct Hsave as (s & Hs & _ & Ht & _ & _ & _ & Hd & _); [lia|].
    exists s. split; [exact Hs|]. split; [exact Ht|]. rewrite Hd. reflexivity.
Defined.

(** X21: a manual log is saved exactly when a goal is chosen and the
    duration entered is a number above zero; the session then carries the
    subject and the title of the chosen goal, today's date and the duration as
    entered, ends now and starts no later, and once stored it adds these
    minutes to the minutes the dashboard counts for the goal. *)
Theorem manual_log_needs_positive_minutes (activeGoals : list DailyGoal)
    (gId uid today : string) (idx : nat) (g : DailyGoal)
    (t0 : SessionTracker.Tracker) (now : Z) (durationInput : option Q) :
  Api.findGoal activeGoals gId = Some (idx, g) →
  let t := SessionTracker.handleGoalSelect activeGoals gId t0 in
  (is_Some (SessionTracker.handleManualSubmit now uid today durationInput t)
   ↔ gId ≠ "" ∧ ∃ d, durationInput = Some d ∧ (0 < d)%Q)
  ∧ ∀ s, SessionTracker.handleManualSubmit now uid today durationInput t = Some s →
      ssubject s = subject g ∧ topic s = title g ∧ sdate s = today
      ∧ durationInput = Some (durationMinutes s)
      ∧ endTime s = now ∧ startTime s ≤ now
      ∧ ∀ backend sessions newId,
          (backend = Api.Firebase → (length sessions < Api.pageSize)%nat) →
          (Dashboard.goalSpecificMinutes
             (Dashboard.todaysSessions today
                (Api.getSessions backend (Store.addSession sessions s newId) None)) g
           == Dashboard.goalSpecificMinutes
                (Dashboard.todaysSessions today
                   (Api.getSessions backend sessions None)) g
              + durationMinutes s)%Q.
Proof.
  intros Hfind. cbv zeta. rewrite (handleGoalSelect_found _ _ _ _ _ Hfind).
  unfold SessionTracker.handleManualSubmit, SessionTracker.saveSession.
  cbn [SessionTracker.selectedGoalId SessionTracker.subject SessionTracker.topic
       mbind option_bind].
  destruct (String.eqb_spec gId "") as [->|Hne].
  { simpl. split; [|discriminate]. split; [intros [? [=]] | intros [[] _]; reflexivity]. }
  rewrite (truthy_true _ Hne).
  destruct durationInput as [d|].
  2:{ split; [|discriminate]. split; [intros [? [=]] | intros (_ & d & [=] & _)]. }
  destruct (Qle_bool d 0) eqn:E.
  { apply Qle_bool_iff in E. split; [|discriminate].
    split; [intros [? [=]] | intros (_ & d' & [= <-] & Hd); lra]. }
  assert (Hpos : (0 < d)%Q).
  { apply Qnot_le_lt. intros Hle. apply Qle_bool_iff in Hle. congruence. }
  split.
  - split; [intros _; split; [exact Hne|]; exists d; auto | eauto].
  - intros s [= <-]. cbn [ssubject topic sdate startTime endTime durationMinutes].
    repeat (split; [reflexivity|]). split.
    + unfold SessionTracker.timeClip.
      destruct (Qle_bool 0 (inject_Z now - d * 60000)) eqn:Ec.
      * rewrite Zle_Qle. pose proof (Qfloor_le (inject_Z now - d * 60000)). lra.
      * assert (Hneg : (inject_Z now - d * 60000 < 0)%Q).
        { apply Qnot_le_lt. intros Hle. apply Qle_bool_iff in Hle. congruence. }
        pose proof (Qceiling_lt (inject_Z now - d * 60000)) as Hc.
        assert (Hz : Qceiling (inject_Z now - d * 60000) - 1 < now).
        { rewrite Zlt_Qlt. lra. }
        lia.
    + intros backend sessions newId Hlen.
      apply session_counts_for_goal; [exact Hlen|reflexivity..].
Qed.

Lemma manual_log_needs_positive_minutes_witness :
  ¬ is_Some (SessionTracker.handleManualSubmit 1771322400000 "u1" Sample.today (Some 0%Q)
               (SessionTracker.handleGoalSelect [Sample.ohm; Sample.untouched] "g4"
                  (SessionTracker.mkTracker "" None "" None))).
Proof.
  intros H.
  apply (proj1 (manual_log_needs_positive_minutes [Sample.ohm; Sample.untouched] "g4"
                  "u1" Sample.today 1 Sample.untouched
                  (SessionTracker.mkTracker "" None "" None) 1771322400000 (Some 0%Q)
                  eq_refl)) in H.
  destruct H as (_ & d & [= <-] & Hd). revert Hd. apply Qlt_irrefl.
Defined.

(** ** The stopwatch display *)

Lemma padStart2_pad2 (n : Z) :
  0 ≤ n < 100 → SessionTracker.padStart2 (JS.showInt n) = JSDate.pad2 n.
Proof.
  intros Hn.
  assert (Hall : forallb (λ k, String.eqb (SessionTracker.padStart2 (JS.showInt (Z.of_nat k)))
                                 (JSDate.pad2 (Z.of_nat k))) (seq 0 100) = true)
    by (vm_compute; reflexivity).
  rewrite forallb_forall in Hall.
  specialize (Hall (Z.to_nat n)). rewrite Z2Nat.id in Hall by lia.
  apply String.eqb_eq, Hall. apply in_seq. lia.
Qed.

(** X22: below a hundred hours the stopwatch shows eight characters, two
    digits each for the hours, the minutes below sixty and the seconds below
    sixty, and no two numbers of seconds are shown alike. *)
Theorem formatTime_clock (totalSeconds : Z) :
  0 ≤ totalSeconds < 360000 →
  SessionTracker.formatTime totalSeconds
  = JSDate.pad2 (totalSeconds / 3600) +:+ ":"
    +:+ JSDate.pad2 (totalSeconds mod 3600 / 60) +:+ ":"
    +:+ JSDate.pad2 (totalSeconds mod 60)
  ∧ String.length (SessionTracker.formatTime totalSeconds) = 8%nat
  ∧ ∀ other, 0 ≤ other < 360000 →
      SessionTracker.formatTime other = SessionTracker.formatTime totalSeconds →
      other = totalSeconds.
Proof.
  assert (Hshape : ∀ t, 0 ≤ t < 360000 →
            SessionTracker.formatTime t
            = JSDate.pad2 (t / 3600) +:+ ":" +:+ JSDate.pad2 (t mod 3600 / 60) +:+ ":"
              +:+ JSDate.pad2 (t mod 60)).
  { intros t Ht. unfold SessionTracker.formatTime. cbv zeta.
    rewrite !Z.rem_mod_nonneg by lia.
    rewrite !padStart2_pad2 by (Z.div_mod_to_equations; lia). reflexivity. }
  intros Ht. split; [apply Hshape, Ht|]. split.
  - rewrite (Hshape _ Ht). reflexivity.
  - intros other Ho E. rewrite (Hshape _ Ht), (Hshape _ Ho) in E.
    unfold JSDate.pad2 in E. cbn [String.append] in E.
    injection E as H1 H2 H3 H4 H5 H6.
    apply digit_inj in H1, H2, H3, H4, H5, H6; Z.div_mod_to_equations; lia.
Qed.

Lemma formatTime_clock_witness : SessionTracker.formatTime 3725 = "01:02:05".
Proof.
  rewrite (proj1 (formatTime_clock 3725 ltac:(lia))). reflexivity.
Defined.

(** ** Days to the next exam *)

(** Local time is the time value moved by the offset: it falls on the
    local day, at a time of that day. *)
Lemma localDay_time (z : Clock.zone) (t : Clock.instant) :
  wellFormed t →
  JSDate.validDate (Clock.localDay z t) = true
  ∧ ∃ ms, 0 ≤ ms < Clock.msPerDay
          ∧ Clock.getTime t + Clock.offsetAt z (Clock.getTime t)
            = Clock.midnight (Clock.localDay z t) + ms.
Proof.
  intros [V Hms]. unfold Clock.localDay.
  destruct (getTime_addMs t (Clock.offsetAt z (Clock.getTime t)) V) as (Ht & Hv & Hr).
  split; [exact Hv|].
  exists (Clock.msOfDay (Clock.addMs t (Clock.offsetAt z (Clock.getTime t)))).
  split; [exact Hr|]. rewrite <- Ht. reflexivity.
Qed.

Lemma calcDays_days (z : Clock.zone) (exam : JSDate.civil) (now : Clock.instant) :
  wellFormed now → midnightOffset z (Clock.getTime now) exam →
  Summary.calcDays z exam now = dayNumber exam - dayNumber (Clock.localDay z now).
Proof.
  intros Hw Hz. destruct (localDay_time z now Hw) as (_ & ms & Hms & Hlocal).
  unfold Summary.calcDays, Clock.localMidnight. cbv zeta.
  unfold midnightOffset in Hz. rewrite Hz.
  replace (Clock.midnight exam - Clock.offsetAt z (Clock.getTime now)
           - Clock.getTime now)
    with (Clock.midnight exam - (Clock.midnight (Clock.localDay z now) + ms)) by lia.
  unfold Clock.midnight. rewrite msPerDay_eq in *.
  set (a := dayNumber exam). set (b := dayNumber (Clock.localDay z now)).
  assert (E : (- (inject_Z ((a - 719529) * 86400000 - ((b - 719529) * 86400000 + ms))
                  / inject_Z 86400000)
               == ((b - a) * 86400000 + ms) # 86400000)%Q).
  { unfold Qeq, Qopp, Qdiv, Qmult, Qinv, inject_Z. simpl. lia. }
  unfold Qceiling. rewrite (Qfloor_comp _ _ E). unfold Qfloor.
  Z.div_mod_to_equations. lia.
Qed.

Lemma byDays_total (a b : Summary.ExamDate * Z) : a.2 - b.2 ≤ 0 ∨ b.2 - a.2 ≤ 0.
Proof. lia. Qed.

Lemma byDays_trans (a b c : Summary.ExamDate * Z) :
  a.2 - b.2 ≤ 0 → b.2 - c.2 ≤ 0 → a.2 - c.2 ≤ 0.
Proof. lia. Qed.

(** X23: where the offset from UTC at the local midnight of every exam day is
    the one in force now, the days to an exam are, whatever the time of day,
    the calendar days from the local day of today to the exam day.  The next
    exam is then an exam of the schedule that is today or later and no further
    away than any other such exam; there is none exactly when every exam of
    the schedule lies before today. *)
Theorem nextExam_nearest (z : Clock.zone) (schedule : list Summary.ExamDate)
    (now : Clock.instant) :
  wellFormed now →
  (∀ e, e ∈ schedule → midnightOffset z (Clock.getTime now) (Summary.examDay e)) →
  (∀ e, e ∈ schedule →
        Summary.calcDays z (Summary.examDay e) now
        = dayNumber (Summary.examDay e) - dayNumber (Clock.localDay z now))
  ∧ (∀ e days, Summary.nextExam z schedule now = Some (e, days) →
       e ∈ schedule
       ∧ days = dayNumber (Summary.examDay e) - dayNumber (Clock.localDay z now)
       ∧ 0 ≤ days
       ∧ ∀ e', e' ∈ schedule →
           dayNumber (Clock.localDay z now) ≤ dayNumber (Summary.examDay e') →
           dayNumber (Summary.examDay e) ≤ dayNumber (Summary.examDay e'))
  ∧ (Summary.nextExam z schedule now = None ↔
     ∀ e, e ∈ schedule →
          dayNumber (Summary.examDay e) < dayNumber (Clock.localDay z now)).
Proof.
  intros Hw Hz.
  assert (Hcalc : ∀ e, e ∈ schedule →
                       Summary.calcDays z (Summary.examDay e) now
                       = dayNumber (Summary.examDay e) - dayNumber (Clock.localDay z now))
    by (intros e He; apply calcDays_days; [exact Hw | apply Hz, He]).
  split; [exact Hcalc|].
  unfold Summary.nextExam, Summary.upcoming.
  set (cmp := λ a b : Summary.ExamDate * Z, a.2 - b.2).
  set (cands := filter (λ e : Summary.ExamDate * Z, 0 ≤ e.2)
                  ((λ e, (e, Summary.calcDays z (Summary.examDay e) now)) <$> schedule)).
  assert (Hcand : ∀ p, p ∈ cands ↔
            p.1 ∈ schedule ∧ p.2 = dayNumber (Summary.examDay p.1)
                                   - dayNumber (Clock.localDay z now) ∧ 0 ≤ p.2).
  { intros [e d]. unfold cands. rewrite list_elem_of_filter, list_elem_of_fmap. simpl.
    split.
    - intros (Hd & e0 & [= -> ->] & Hin). rewrite Hcalc in * by exact Hin. auto.
    - intros (Hin & -> & Hd). split; [exact Hd|]. exists e.
      rewrite Hcalc by exact Hin. auto. }
  pose proof (sort_sorted cmp byDays_total byDays_trans cands) as Hsorted.
  split.
  - intros e days Hhead.
    destruct (JS.sort cmp cands) as [|p rest] eqn:Es; [discriminate|].
    injection Hhead as ->.
    assert (Hin : (e, days) ∈ cands).
    { apply (sort_elem_of cmp). rewrite Es. left. }
    apply Hcand in Hin as (Hin & Hd & H0). simpl in *.
    split; [exact Hin|]. split; [exact Hd|]. split; [exact H0|].
    intros e' Hin' Hnot.
    assert (Hc' : (e', dayNumber (Summary.examDay e') - dayNumber (Clock.localDay z now))
                  ∈ (e, days) :: rest).
    { rewrite <- Es. apply (sort_elem_of cmp), Hcand. simpl.
      split; [exact Hin'|]. split; [reflexivity | lia]. }
    apply elem_of_cons in Hc' as [Hc'|Hc'].
    + injection Hc' as -> Hc'. lia.
    + apply StronglySorted_inv in Hsorted as [_ Hall].
      rewrite Forall_forall in Hall. specialize (Hall _ Hc').
      unfold cmpLe, cmp in Hall. simpl in Hall. lia.
  - split.
    + intros Hnone e Hin.
      destruct (JS.sort cmp cands) as [|p rest] eqn:Es; [|discriminate].
      destruct (Z_lt_le_dec (dayNumber (Summary.examDay e))
                  (dayNumber (Clock.localDay z now))) as [Hlt|Hge]; [exact Hlt|].
      assert (Hc : (e, dayNumber (Summary.examDay e) - dayNumber (Clock.localDay z now))
                   ∈ JS.sort cmp cands).
      { apply (sort_elem_of cmp), Hcand. simpl. split; [exact Hin|].
        split; [reflexivity | lia]. }
      rewrite Es in Hc. apply elem_of_nil in Hc as [].
    + intros Hpast.
      destruct (JS.sort cmp cands) as [|[e d] rest] eqn:Es; [reflexivity|].
      assert (Hin : (e, d) ∈ cands).
      { apply (sort_elem_of cmp). rewrite Es. left. }
      apply Hcand in Hin as (Hin & Hd & H0). simpl in *.
      specialize (Hpast e Hin). lia.
Qed.

Lemma nextExam_nearest_witness :
  Summary.nextExam Sample.kolkata Constants.EXAM_SCHEDULE
    (Clock.mkInstant (JSDate.mkCivil 2026 3 8) 16200000) = None.
Proof.
  apply (proj2 (proj2 (nextExam_nearest Sample.kolkata Constants.EXAM_SCHEDULE
                         (Clock.mkInstant (JSDate.mkCivil 2026 3 8) 16200000)
                         ltac:(vm_compute; split;
                               [reflexivity | split; [discriminate | reflexivity]])
                         ltac:(intros e _; reflexivity)))).
  intros e He. vm_compute in He.
  repeat (apply elem_of_cons in He as [->|He]; [vm_compute; reflexivity|]).
  apply elem_of_nil in He as [].
Defined.

(** ** The header *)

Lemma ordinal_table :
  forallb (λ k, String.eqb (App.ordinal (Z.of_nat k)) (englishSuffix (Z.of_nat k)))
          (seq 0 111) = true.
Proof. vm_compute. reflexivity. Qed.

(** X24: for every day of a month, and for every number up to 110, the
    ending that the header puts behind the day is the ending of the English
    ordinal: th from 4 to 20 and for 11, 12 and 13, otherwise st, nd or rd
    after a last digit of 1, 2 or 3, and th after any other. *)
Theorem ordinal_is_english (day : Z) :
  0 ≤ day ≤ 110 → App.ordinal day = englishSuffix day.
Proof.
  intros Hd. pose proof ordinal_table as Hall. rewrite forallb_forall in Hall.
  specialize (Hall (Z.to_nat day)). rewrite Z2Nat.id in Hall by lia.
  apply String.eqb_eq, Hall. apply in_seq. lia.
Qed.

Lemma ordinal_is_english_witness :
  App.ordinal 23 = "rd" ∧ App.ordinal 12 = "th".
Proof.
  rewrite !ordinal_is_english by lia. split; reflexivity.
Defined.

(** ** The quote of the day *)

Lemma lastDay_dayNumber (y : Z) :
  dayNumber (JSDate.mkCivil (y - 1) 12 31) = daysBeforeYear y.
Proof.
  unfold dayNumber. simpl. pose proof (daysBeforeYear_succ (y - 1)) as H.
  replace (y - 1 + 1) with y in H by lia. rewrite H.
  unfold daysBeforeMonth. simpl. destruct (JSDate.isLeap (y - 1)); lia.
Qed.

Lemma dayOfYear_eq (z : Clock.zone) (now : Clock.instant) :
  wellFormed now → midnightOffset z (Clock.getTime now) (yearStart z now) →
  App.dayOfYear z now
  = daysBeforeMonth (JSDate.year (Clock.localDay z now))
      (JSDate.month (Clock.localDay z now))
    + JSDate.day (Clock.localDay z now).
Proof.
  intros Hw Hz. destruct (localDay_time z now Hw) as (_ & ms & Hms & Hlocal).
  unfold App.dayOfYear, Clock.localMidnight. cbv zeta.
  unfold midnightOffset, yearStart in Hz. rewrite Hz.
  replace (Clock.getTime now
           - (Clock.midnight (JSDate.mkCivil (JSDate.year (Clock.localDay z now) - 1) 12 31)
              - Clock.offsetAt z (Clock.getTime now)))
    with (Clock.midnight (Clock.localDay z now) + ms
          - Clock.midnight (JSDate.mkCivil (JSDate.year (Clock.localDay z now) - 1) 12 31))
    by lia.
  unfold Clock.midnight.
  rewrite lastDay_dayNumber. unfold dayNumber. rewrite msPerDay_eq in *.
  set (c := Clock.localDay z now) in *.
  set (y := daysBeforeYear (JSDate.year c)).
  set (r := daysBeforeMonth _ _ + JSDate.day c).
  replace (y + daysBeforeMonth (JSDate.year c) (JSDate.month c) + JSDate.day c)
    with (y + r) by (unfold r; lia).
  assert (E : (inject_Z ((y + r - 719529) * 86400000 + ms - (y - 719529) * 86400000)
               / 1000 / 60 / 60 / 24
               == (r * 86400000 + ms) # 86400000)%Q).
  { unfold Qeq, Qdiv, Qmult, Qinv, inject_Z. simpl. lia. }
  rewrite (Qfloor_comp _ _ E). unfold Qfloor. Z.div_mod_to_equations. lia.
Qed.

Lemma dayOfYear_range (c : JSDate.civil) :
  JSDate.validDate c = true →
  1 ≤ daysBeforeMonth (JSDate.year c) (JSDate.month c) + JSDate.day c ≤ 366.
Proof.
  intros V. pose proof (validDate_bounds _ V) as (M & D & Hd).
  unfold daysBeforeMonth, JSDate.daysInMonth in *.
  assert (Hcases : JSDate.month c = 1 ∨ JSDate.month c = 2 ∨ JSDate.month c = 3
                   ∨ JSDate.month c = 4 ∨ JSDate.month c = 5 ∨ JSDate.month c = 6
                   ∨ JSDate.month c = 7 ∨ JSDate.month c = 8 ∨ JSDate.month c = 9
                   ∨ JSDate.month c = 10 ∨ JSDate.month c = 11 ∨ JSDate.month c = 12)
    by lia.
  repeat destruct Hcases as [E | Hcases]; try rewrite Hcases in *; try rewrite E in *;
    simpl in *; destruct (JSDate.isLeap (JSDate.year c)); lia.
Qed.

Lemma todaysQuote_index (z : Clock.zone) (now : Clock.instant) (n : Z) :
  App.dayOfYear z now = n → 0 ≤ n →
  App.todaysQuote z now = Constants.MOTIVATIONAL_QUOTES !! Z.to_nat (n mod 10)
  ∧ is_Some (App.todaysQuote z now).
Proof.
  intros Hn H0. unfold App.todaysQuote. cbv zeta. rewrite Hn.
  change (Z.of_nat (length Constants.MOTIVATIONAL_QUOTES)) with 10.
  rewrite Z.rem_mod_nonneg by lia.
  assert (Hr : 0 ≤ n mod 10 < 10) by (apply Z.mod_pos_bound; lia).
  destruct (Z.leb_spec 0 (n mod 10)); [|lia].
  split; [reflexivity|]. apply lookup_lt_is_Some_2.
  change (length Constants.MOTIVATIONAL_QUOTES) with 10%nat. lia.
Qed.

Lemma quotes_NoDup : NoDup Constants.MOTIVATIONAL_QUOTES.
Proof.
  apply (bool_decide_unpack (NoDup Constants.MOTIVATIONAL_QUOTES)). vm_compute. exact I.
Qed.

(** X25: where the offset from UTC in force is the one of the local midnight
    before the first day of the year, there is a quote, chosen by the local
    day of the year, which runs from 1 to 366; it is the same at every such
    time of the local day, and never the quote of the local day before. *)
Theorem todaysQuote_changes_daily (z : Clock.zone) (now other before : Clock.instant) :
  wellFormed now → wellFormed other → wellFormed before →
  midnightOffset z (Clock.getTime now) (yearStart z now) →
  midnightOffset z (Clock.getTime other) (yearStart z other) →
  midnightOffset z (Clock.getTime before) (yearStart z before) →
  Clock.localDay z other = Clock.localDay z now →
  Clock.localDay z before = JSDate.prevDay (Clock.localDay z now) →
  ∃ q q' : string,
    App.todaysQuote z now = Some q
    ∧ App.todaysQuote z other = Some q
    ∧ App.todaysQuote z before = Some q'
    ∧ q ≠ q'
    ∧ 1 ≤ App.dayOfYear z now ≤ 366
    ∧ App.dayOfYear z now
      = dayNumber (Clock.localDay z now)
        - dayNumber (JSDate.mkCivil (JSDate.year (Clock.localDay z now)) 1 1) + 1.
Proof.
  intros Hw Hw2 Hw3 Hz Hz2 Hz3 Hsame Hprev.
  destruct (localDay_time z now Hw) as (V & _).
  pose proof (dayOfYear_eq z now Hw Hz) as Hdoy.
  pose proof (dayOfYear_eq z other Hw2 Hz2) as Hdoy2.
  pose proof (dayOfYear_eq z before Hw3 Hz3) as Hdoy3.
  rewrite Hsame in Hdoy2. rewrite Hprev in Hdoy3.
  set (c := Clock.localDay z now) in *.
  pose proof (dayOfYear_range c V) as Hrange.
  pose proof (dayOfYear_range _ (prevDay_valid c V)) as Hrange3.
  destruct (todaysQuote_index z now _ Hdoy) as [Hq [q Hq']]; [lia|].
  destruct (todaysQuote_index z _ _ Hdoy2) as [Hq2 _]; [lia|].
  destruct (todaysQuote_index z _ _ Hdoy3) as [Hq3 [q' Hq3']]; [lia|].
  exists q, q'. split; [exact Hq'|]. split; [rewrite Hq2, <- Hq; exact Hq'|].
  split; [exact Hq3'|]. split; [|split].
  - intros <-. rewrite Hq in Hq'. rewrite Hq3 in Hq3'.
    pose proof (NoDup_lookup _ _ _ _ quotes_NoDup Hq' Hq3') as Hidx.
    apply Z2Nat.inj in Hidx; [|apply Z.mod_pos_bound; lia..].
    pose proof (prevDay_dayNumber c V) as Hpd. unfold dayNumber in Hpd.
    pose proof (validDate_bounds _ V) as (M & D & _).
    revert Hidx Hpd Hrange3. unfold JSDate.prevDay.
    destruct (Z.ltb_spec 1 (JSDate.day c)); simpl.
    + intros Hidx Hpd _. Z.div_mod_to_equations. lia.
    + destruct (Z.ltb_spec 1 (JSDate.month c)); simpl.
      * intros Hidx Hpd _. Z.div_mod_to_equations. lia.
      * replace (JSDate.month c) with 1 by lia. replace (JSDate.day c) with 1 by lia.
        unfold daysBeforeMonth. simpl.
        destruct (JSDate.isLeap (JSDate.year c - 1)); simpl; intros Hidx _ _;
          vm_compute in Hidx; discriminate.
  - rewrite Hdoy. exact Hrange.
  - rewrite Hdoy. unfold dayNumber. simpl.
    change (daysBeforeMonth (JSDate.year c) 1) with 0. lia.
Qed.

Lemma todaysQuote_changes_daily_witness :
  ∃ q q' : string,
    App.todaysQuote Sample.kolkata Sample.noon = Some q
    ∧ App.todaysQuote Sample.kolkata (Clock.mkInstant Sample.now 0) = Some q
    ∧ App.todaysQuote Sample.kolkata
        (Clock.mkInstant (JSDate.mkCivil 2026 2 16) 36000000) = Some q'
    ∧ q ≠ q'.
Proof.
  destruct (todaysQuote_changes_daily Sample.kolkata Sample.noon
              (Clock.mkInstant Sample.now 0)
              (Clock.mkInstant (JSDate.mkCivil 2026 2 16) 36000000))
    as (q & q' & Hq & Hq2 & Hq' & Hne & _).
  - vm_compute. split; [reflexivity | split; [discriminate | reflexivity]].
  - vm_compute. split; [reflexivity | split; [discriminate | reflexivity]].
  - vm_compute. split; [reflexivity | split; [discriminate | reflexivity]].
  - reflexivity.
  - reflexivity.
  - reflexivity.
  - vm_compute. reflexivity.
  - vm_compute. reflexivity.
  - exists q, q'. auto.
Defined.

(** ** The demo account *)

Lemma yesterday_before_today (now : JSDate.civil) (today yesterday : string) :
  JSDate.validDate now = true →
  JSDate.toISODate now = Some today →
  JSDate.toISODate (JSDate.prevDay now) = Some yesterday →
  JS.strLt yesterday today = true.
Proof.
  intros V Ht Hy. unfold JS.strLt, String.ltb.
  rewrite (compare_iso _ _ _ _ (prevDay_valid _ V) V Hy Ht).
  pose proof (prevDay_dateKey _ V) as Hlt. apply Z.compare_lt_iff in Hlt.
  rewrite Hlt. reflexivity.
Qed.

Section seeded.
Context (uid today yesterday : string) (clock : Z).
Hypothesis yesterday_lt : JS.strLt yesterday today = true.

Lemma seeded_strEq : JS.strEq today today = true ∧ JS.strEq yesterday today = false.
Proof.
  split; [apply String.eqb_refl|].
  apply String.eqb_neq. intros E. rewrite E, strLt_irrefl in yesterday_lt. discriminate.
Qed.

Lemma seeded_getGoals :
  Api.getGoals (Store.initialGoals uid today yesterday clock) today
  = Store.initialGoals uid today yesterday clock.
Proof.
  destruct seeded_strEq as [E1 E2].
  unfold Api.getGoals, Store.initialGoals.
  rewrite !filter_cons_True, filter_nil; [reflexivity|..];
    apply Is_true_true; unfold Api.shouldIncludeGoal; cbn [date completed completedAt];
    rewrite ?E1, ?E2, ?yesterday_lt; reflexivity.
Qed.

Lemma seeded_getGoals_later (later : string) :
  JS.strLt today later = true →
  id <$> Api.getGoals (Store.initialGoals uid today yesterday clock) later
  = [Some "g1"; Some "g3"].
Proof.
  intros Hlt.
  assert (Hy : JS.strLt yesterday later = true) by (eapply strLt_trans; eassumption).
  assert (E1 : JS.strEq today later = false).
  { apply String.eqb_neq. intros E. rewrite E, strLt_irrefl in Hlt. discriminate. }
  assert (E2 : JS.strEq yesterday later = false).
  { apply String.eqb_neq. intros E. rewrite E, strLt_irrefl in Hy. discriminate. }
  unfold Api.getGoals, Store.initialGoals.
  rewrite filter_cons_True, filter_cons_False, filter_cons_True, filter_nil;
    [reflexivity|..];
    rewrite ?Is_true_false, ?Is_true_true; unfold Api.shouldIncludeGoal;
    cbn [date completed completedAt JS.nullableIs];
    rewrite ?E1, ?E2, ?Hlt, ?Hy; reflexivity.
Qed.

Lemma seeded_fetched (backend : Api.Backend) :
  Api.getSessions backend (Store.initialSessions uid today yesterday clock) None
  ≡ₚ Store.initialSessions uid today yesterday clock.
Proof. apply getSessions_Permutation. intros _. unfold Api.pageSize. simpl. lia. Qed.

Lemma seeded_todays (backend : Api.Backend) :
  Dashboard.todaysSessions today
    (Api.getSessions backend (Store.initialSessions uid today yesterday clock) None)
  = [mkSession (Some "s1") uid Maths "Quadratic Eq Ex 4.1" (clock - 3600000) clock
               60 today].
Proof.
  destruct seeded_strEq as [E1 E2].
  apply Permutation_singleton_r. unfold Dashboard.todaysSessions.
  rewrite (filter_Permutation _ _ _ (seeded_fetched backend)).
  unfold Store.initialSessions.
  rewrite filter_cons_True, filter_cons_False, filter_nil; [reflexivity|..];
    rewrite ?Is_true_false, ?Is_true_true; cbn [sdate]; assumption.
Qed.

Lemma seeded_no_progress (backend : Api.Backend) (g : DailyGoal) :
  g ∈ Store.initialGoals uid today yesterday clock →
  Dashboard.goalSpecificMinutes
    (Dashboard.todaysSessions today
       (Api.getSessions backend (Store.initialSessions uid today yesterday clock) None))
    g = 0%Q.
Proof.
  intros Hg. rewrite seeded_todays. unfold Dashboard.goalSpecificMinutes.
  replace (Dashboard.matchingSessions _ g) with (@nil StudySession); [reflexivity|].
  symmetry. unfold Dashboard.matchingSessions.
  rewrite filter_cons_False; [apply filter_nil|].
  unfold Store.initialGoals in Hg.
  repeat (apply elem_of_cons in Hg as [->|Hg]; [intros H; exact H|]).
  apply elem_of_nil in Hg as [].
Qed.

Lemma seeded_rows (backend : Api.Backend) :
  Dashboard.displayedGoals backend (Store.initialGoals uid today yesterday clock)
    (Store.initialSessions uid today yesterday clock) today
  = (λ g, Dashboard.mkProgress g (JS.toFixed1 (0 / 60)))
    <$> [mkGoal (Some "g1") uid today "Science - Electricity Numericals" Science 2
                false High clock JS.Undefined;
         mkGoal (Some "g3") uid yesterday "SST - Nationalism in Europe" SST 1
                false High clock JS.Undefined;
         mkGoal (Some "g2") uid today "Maths - Quadratic Equations" Maths (3 # 2)
                true Medium clock JS.Undefined].
Proof.
  unfold Dashboard.displayedGoals. cbv zeta. rewrite seeded_getGoals.
  unfold Dashboard.goalsWithProgress.
  rewrite (map_ext_in _ (λ g, Dashboard.mkProgress g (JS.toFixed1 (0 / 60)))
             (Store.initialGoals uid today yesterday clock)).
  - reflexivity.
  - intros g Hin. rewrite seeded_no_progress; [reflexivity|].
    apply list_elem_of_In, Hin.
Qed.

End seeded.

(** X26: an account seeded on a day has three goals, all listed on that day,
    the one dated the day before among them, and the header counts one of
    three complete; on the dashboard the two incomplete goals, both of high
    priority, stand before the complete one in stored order, and no goal shows
    progress although an hour was studied, because no seeded session carries a
    goal's title.  The complete goal has no completion date, so from the next
    day on only the other two are listed.  Seeding a second time changes
    nothing. *)
Theorem seeded_demo_account (uid : string) (now : JSDate.civil) (clock : Z) :
  calendarDay now → 1 ≤ JSDate.year now →
  ∃ (today : string) (goals : list DailyGoal) (sessions : list StudySession)
    (settings : gmap string string),
    JSDate.toISODate now = Some today
    ∧ Store.seedMockData uid now clock (Store.mkStore None None None)
      = Some (Store.mkStore (Some goals) (Some sessions) (Some settings))
    ∧ (∀ later clock',
         Store.seedMockData uid later clock'
           (Store.mkStore (Some goals) (Some sessions) (Some settings))
         = Some (Store.mkStore (Some goals) (Some sessions) (Some settings)))
    ∧ Api.getGoals goals today = goals
    ∧ App.updateHeaderStats None goals today = (3%nat, 1%nat)
    ∧ ¬ Forall completionInvariant goals
    ∧ (∀ later, JS.strLt today later = true →
         id <$> Api.getGoals goals later = [Some "g1"; Some "g3"])
    ∧ (∀ backend,
         (λ gp, id (Dashboard.goal gp))
         <$> Dashboard.displayedGoals backend goals sessions today
         = [Some "g1"; Some "g3"; Some "g2"]
         ∧ Forall (λ gp, Dashboard.actualHours gp == 0)%Q
             (Dashboard.displayedGoals backend goals sessions today)
         ∧ (Summary.totalMinutesStudied
              (Dashboard.todaysSessions today (Api.getSessions backend sessions None))
            == 60)%Q)
    ∧ Store.getNote Api.Mock (Some settings) = Some "I will top the boards!".
Proof.
  intros [V R] Hy.
  pose proof (dayNumber_year_pos now V Hy) as Hn.
  pose proof (toISODate_isoOf now R) as Ht.
  assert (Rp : 0 ≤ JSDate.year (JSDate.prevDay now) ≤ 9999).
  { pose proof (prevDay_year now V ltac:(lia) ltac:(lia)). lia. }
  pose proof (toISODate_isoOf (JSDate.prevDay now) Rp) as Hp.
  pose proof (yesterday_before_today now _ _ V Ht Hp) as Hlt.
  set (today := isoOf now) in *. set (yesterday := isoOf (JSDate.prevDay now)) in *.
  exists today, (Store.initialGoals uid today yesterday clock),
    (Store.initialSessions uid today yesterday clock),
    {[ Store.noteKey := "I will top the boards!" ]}.
  split; [exact Ht|]. split.
  { unfold Store.seedMockData. cbn [Store.goalsItem]. rewrite Ht, Hp. reflexivity. }
  split; [reflexivity|].
  split; [apply seeded_getGoals, Hlt|].
  split.
  { unfold App.updateHeaderStats. cbv zeta. rewrite seeded_getGoals by exact Hlt.
    reflexivity. }
  split.
  { intros Hall. apply Forall_cons in Hall as [_ Hall].
    apply Forall_cons in Hall as [[_ Hinv] _].
    destruct (Hinv eq_refl) as [d Hd]. discriminate. }
  split; [intros later; apply seeded_getGoals_later, Hlt|].
  split; [|reflexivity].
  intros backend. rewrite seeded_rows by exact Hlt.
  split; [reflexivity|]. split.
  - repeat constructor.
  - rewrite seeded_todays by exact Hlt. reflexivity.
Qed.

Lemma seeded_demo_account_witness :
  ∃ goals : list DailyGoal,
    Api.getGoals goals Sample.today = goals
    ∧ App.updateHeaderStats None goals Sample.today = (3%nat, 1%nat).
Proof.
  destruct (seeded_demo_account "demo-satyam" Sample.now 1771322400000)
    as (today & goals & sessions & settings & Ht & _ & _ & Hget & Hhead & _).
  - split; [reflexivity | simpl; lia].
  - simpl. lia.
  - injection Ht as <-. exists goals. split; [exact Hget | exact Hhead].
Defined.

(** ** The daily log *)














(** ** The figures of the analytics page *)

Lemma totalMins_bounds (sessions : list StudySession) (lo hi : Q) :
  Forall (λ s, lo <= durationMinutes s <= hi)%Q sessions →
  (inject_Z (Z.of_nat (length sessions)) * lo <= Insights.totalMins sessions
   <= inject_Z (Z.of_nat (length sessions)) * hi)%Q.
Proof.
  unfold Insights.totalMins.
  induction 1 as [|s l Hs _ IH].
  - cbn [length foldl]. change (inject_Z (Z.of_nat 0)) with 0%Q. lra.
  - rewrite (foldl_Qplus_cons durationMinutes). cbn [length].
    rewrite Nat2Z.inj_succ, <- Z.add_1_r, inject_Z_plus.
    change (inject_Z 1) with 1%Q. lra.
Qed.

Lemma mathRound_le (x y : Q) : (x <= y)%Q → JS.mathRound x ≤ JS.mathRound y.
Proof. intros H. unfold JS.mathRound. apply Qfloor_resp_le. lra. Qed.

(** X28: without sessions the average session and the total hours are both
    shown as 0.  With sessions the average is the mean of the minutes rounded
    to a whole number, between the rounded shortest and the rounded longest
    session, and the total hours differ from the minutes in hours by at most a
    half. *)
Theorem stats_of_sessions (sessions : list StudySession) (lo hi : Q) :
  Forall (λ s, lo <= durationMinutes s <= hi)%Q sessions →
  (sessions = [] → Insights.avgSession sessions = 0 ∧ Insights.totalHours sessions = 0)
  ∧ (sessions ≠ [] →
     JS.mathRound lo ≤ Insights.avgSession sessions ≤ JS.mathRound hi)
  ∧ (Qabs (inject_Z (Insights.totalHours sessions) - Insights.totalMins sessions / 60)
     <= 1 # 2)%Q.
Proof.
  intros Hb. split; [intros ->; split; reflexivity|]. split.
  - intros Hne. unfold Insights.avgSession.
    assert (Hlen : (0 < length sessions)%nat) by (destruct sessions; simpl; [congruence|lia]).
    apply Nat.ltb_lt in Hlen as Hlt. rewrite Hlt.
    pose proof (totalMins_bounds sessions lo hi Hb) as [Hlo Hhi].
    assert (Hn : (0 < inject_Z (Z.of_nat (length sessions)))%Q).
    { change 0%Q with (inject_Z 0). rewrite <- Zlt_Qlt. lia. }
    set (n := inject_Z (Z.of_nat (length sessions))) in *.
    set (t := Insights.totalMins sessions) in *.
    split; apply mathRound_le.
    + apply Qle_shift_div_l; [exact Hn|]. lra.
    + apply Qle_shift_div_r; [exact Hn|]. lra.
  - unfold Insights.totalHours, JS.mathRound.
    set (x := (Insights.totalMins sessions / 60)%Q).
    pose proof (Qfloor_le (x + (1 # 2))) as H1.
    pose proof (Qlt_floor (x + (1 # 2))) as H2.
    rewrite inject_Z_plus in H2. change (inject_Z 1) with 1%Q in H2.
    apply Qabs_Qle_condition. lra.
Qed.

Lemma stats_of_sessions_witness :
  40 ≤ Insights.avgSession Sample.twoDays ≤ 50.
Proof.
  refine (proj1 (proj2 (stats_of_sessions Sample.twoDays 40 50 _)) _).
  - repeat constructor; simpl; discriminate.
  - discriminate.
Defined.

(** ** Further instances *)

(** Fifty-seven minutes against a target of one hour: the quotient 0.95 is
    held in a double just below it and printed as 0.9, so the goal is not on
    pace; fifty-eight minutes are printed as 1 and the goal is on pace. *)
Example fifty_seven_minutes :
  (λ gp, (Dashboard.actualHours gp, Dashboard.onPace gp))
  <$> Dashboard.displayedGoals Api.Mock [Sample.ohm]
        [Sample.session Sample.today "Ohm's Law" 57 100] Sample.today
  = [(9 # 10, false)]
  ∧ (λ gp, (Dashboard.actualHours gp, Dashboard.onPace gp))
    <$> Dashboard.displayedGoals Api.Mock [Sample.ohm] Sample.shortSession Sample.today
    = [(10 # 10, true)].
Proof. split; vm_compute; reflexivity. Qed.

(** Sessions of a Sunday and a Monday: the Monday is the best day in
    Kolkata, and the Sunday in New York, where the two count as Saturday and
    Sunday. *)
Example best_day_by_zone :
  Insights.bestDay Sample.kolkata Sample.twoDays = Some "Monday"
  ∧ Insights.bestDay Sample.newYork Sample.twoDays = Some "Sunday".
Proof. split; vm_compute; reflexivity. Qed.

(** Two minutes of study shade the square of the day while its trend point
    stays at zero. *)
Example shaded_square_flat_trend :
  Insights.intensityOf 2 = 1 ∧ (JS.toFixed1 (2 / 60) == 0)%Q.
Proof. split; vm_compute; reflexivity. Qed.

(** In New York on the evening after the clocks went forward, two squares
    of the heatmap are dated 8 March. *)
Example heatmap_doubles_a_day :
  ∃ cells : list Insights.HeatCell,
    Insights.heatmapData Sample.newYork Sample.marchEvening [] = Some cells
    ∧ Insights.cellDate <$> cells !! 27%nat = Some "2026-03-08"
    ∧ Insights.cellDate <$> cells !! 28%nat = Some "2026-03-08".
Proof. eexists. split; [vm_compute; reflexivity|]. split; reflexivity. Qed.

(** Half a minute each of two subjects on one day: each line shows one
    minute and the day two, though one minute was studied. *)
Example day_total_of_rounded_lines :
  Insights.logTotalMins
  <$> default [] (Insights.dailyLog
        [mkSession None "u1" Maths "Sets" 0 30000 (1 # 2) Sample.today;
         mkSession None "u1" Science "Light" 30000 60000 (1 # 2) Sample.today])
  = [2].
Proof. vm_compute. reflexivity. Qed.

(** On the day of the first exam that exam is the next one, zero days away. *)
Example exam_today :
  Summary.nextExam Sample.kolkata Constants.EXAM_SCHEDULE
    (Clock.mkInstant Sample.now 36000000)
  = Some (Summary.mkExam (JSDate.mkCivil 2026 2 17) "Maths", 0).
Proof. vm_compute. reflexivity. Qed.

(** In New York at half past midnight on 30 October 2026, an exam on
    5 November is six days ahead on the calendar and seven by the count: the
    night of 1 November is an hour longer. *)
Example exam_days_across_the_change :
  let now := Clock.mkInstant (JSDate.mkCivil 2026 10 30) 16200000 in
  Clock.localDay Sample.newYork now = JSDate.mkCivil 2026 10 30
  ∧ dayNumber (JSDate.mkCivil 2026 11 5) - dayNumber (Clock.localDay Sample.newYork now)
    = 6
  ∧ Summary.calcDays Sample.newYork (JSDate.mkCivil 2026 11 5) now = 7.
Proof. vm_compute. repeat split; reflexivity. Qed.

(** In New York at half past midnight on 1 July 2026, the 182nd day of the
    year, the day of the year is counted as 181: the year began in winter
    time. *)
Example day_of_year_in_summer_time :
  let now := Clock.mkInstant (JSDate.mkCivil 2026 7 1) 16200000 in
  Clock.localDay Sample.newYork now = JSDate.mkCivil 2026 7 1
  ∧ dayNumber (JSDate.mkCivil 2026 7 1) - dayNumber (JSDate.mkCivil 2026 1 1) + 1 = 182
  ∧ App.dayOfYear Sample.newYork now = 181.
Proof. vm_compute. repeat split; reflexivity. Qed.
